(** * nlp_kafka_rest_api: a shallow embedding of [kafka_rest.py]

  The development follows the module top to bottom: Python values and
  exceptions, the [base64] codec the module calls, the [Client] transport,
  the [Producer], and the [Consumer] with its polling loops.  The
  [requests], [json] and [uuid] libraries and the REST proxy behind them
  are parameters of the development; everything that [kafka_rest.py]
  itself computes is a definition below. *)

From Stdlib Require Import ZArith Strings.String Strings.Ascii Strings.Byte List Bool Lia.
From stdpp Require Import base option list gmap sets strings countable pretty.

Local Open Scope string_scope.
Local Open Scope Z_scope.

(** ** Python values *)
Module Py.

(** The values that flow through the module: JSON documents, [str],
    [bytes] and [None].  Floats are not part of the model. *)
#[warnings="-register-all"]
Inductive pyval : Type :=
| VNone
| VBool (b : bool)
| VInt (z : Z)
| VStr (s : string)
| VBytes (bs : list byte)
| VList (l : list pyval)
| VDict (d : list (string * pyval)).

(** The exception classes that the module raises, catches or lets through. *)
Inductive exn : Type :=
| JSONDecodeError
| UnicodeDecodeError
| BinasciiError          (* binascii.Error, a ValueError *)
| ValueError (msg : string)
| TypeError
| KeyError
| IndexError
| RuntimeError (msg : string)
| HTTPError (status : Z)
| OtherError (name : string).

Inductive result (A : Type) : Type :=
| Ok (a : A)
| Raise (e : exn).
Arguments Ok {A} a.
Arguments Raise {A} e.

Definition rbind {A B} (r : result A) (k : A -> result B) : result B :=
  match r with
  | Ok a => k a
  | Raise e => Raise e
  end.

Definition is_ok {A} (r : result A) : bool :=
  match r with Ok _ => true | Raise _ => false end.

(** [d[k]] for a string subscript: only a dict supports it. *)
Fixpoint dict_get (d : list (string * pyval)) (k : string) : option pyval :=
  match d with
  | [] => None
  | (k', v) :: d' => if String.eqb k' k then Some v else dict_get d' k
  end.

Definition getitem (v : pyval) (k : string) : result pyval :=
  match v with
  | VDict d => match dict_get d k with Some x => Ok x | None => Raise KeyError end
  | _ => Raise TypeError
  end.

(** [v[0]] for a list. *)
Definition getitem0 (v : pyval) : result pyval :=
  match v with
  | VList (x :: _) => Ok x
  | VList [] => Raise IndexError
  | VStr s => match s with
              | EmptyString => Raise IndexError
              | String c _ => Ok (VStr (String c EmptyString))
              end
  | VBytes (b :: _) => Ok (VInt (Z.of_N (Byte.to_N b)))
  | VBytes [] => Raise IndexError
  | VDict _ => Raise KeyError
  | _ => Raise TypeError
  end.

(** Iteration over a value, as a [for] loop or a comprehension does it. *)
Definition chars (s : string) : list pyval :=
  map (fun c => VStr (String c EmptyString)) (list_ascii_of_string s).

Definition iter (v : pyval) : result (list pyval) :=
  match v with
  | VList l => Ok l
  | VDict d => Ok (map (fun kv => VStr (fst kv)) d)
  | VStr s => Ok (chars s)
  | VBytes bs => Ok (map (fun b => VInt (Z.of_N (Byte.to_N b))) bs)
  | _ => Raise TypeError
  end.

(** [v <= 0] and [v - 1] on a value read from a JSON document. *)
Definition as_int (v : pyval) : result Z :=
  match v with
  | VInt z => Ok z
  | VBool b => Ok (if b then 1 else 0)
  | _ => Raise TypeError
  end.

(** Truth value of an optional list argument: [None] and [[]] are falsy. *)
Definition truthy_list {A} (l : option (list A)) : bool :=
  match l with
  | None | Some [] => false
  | Some (_ :: _) => true
  end.

(** [str.encode("utf-8")] on the code points a [string] can hold
    (U+0000 to U+00FF): one byte below 128, two bytes from 128 on. *)
Definition byte_of_Z (z : Z) : byte :=
  match Byte.of_N (Z.to_N z) with Some b => b | None => x00 end.

Definition Z_of_byte (b : byte) : Z := Z.of_N (Byte.to_N b).

Definition code (c : ascii) : Z := Z.of_N (N_of_ascii c).

Definition utf8_char (c : ascii) : list byte :=
  let n := code c in
  if n <? 128 then [byte_of_Z n]
  else [byte_of_Z (Z.lor 192 (Z.shiftr n 6)); byte_of_Z (Z.lor 128 (Z.land n 63))].

Definition encode_utf8 (s : string) : list byte :=
  concat (map utf8_char (list_ascii_of_string s)).

Definition is_ascii (s : string) : bool :=
  forallb (fun c => code c <? 128) (list_ascii_of_string s).

End Py.
Export Py.

(** ** The [base64] codec

  [b64decode] follows CPython's [binascii.a2b_base64] in its default,
  non-strict mode, which is what [base64.b64decode(s)] runs: characters
  outside the alphabet are skipped, a complete pad sequence ends the
  input, and a dangling quad raises [binascii.Error]. *)
Module Base64.

Definition BASE64_PAD : Z := 61.

(** [table_a2b_base64]: the 6-bit value of an alphabet character. *)
Definition table_a2b_base64 (c : Z) : option Z :=
  if (65 <=? c) && (c <=? 90) then Some (c - 65)
  else if (97 <=? c) && (c <=? 122) then Some (c - 71)
  else if (48 <=? c) && (c <=? 57) then Some (c + 4)
  else if c =? 43 then Some 62
  else if c =? 47 then Some 63
  else None.

(** [table_b2a_base64]: the alphabet character of a 6-bit value. *)
Definition table_b2a_base64 (v : Z) : Z :=
  if v <? 26 then v + 65
  else if v <? 52 then v + 71
  else if v <? 62 then v - 4
  else if v =? 62 then 43
  else 47.

Definition uchar (z : Z) : Z := Z.land z 255.

Definition emit (x : Z) (r : result (list Z)) : result (list Z) :=
  rbind r (fun l => Ok (x :: l)).

(** The decoding loop over the remaining input, with the C locals
    [quad_pos], [leftchar] and [pads]; the result is the bytes written
    from here on. *)
Fixpoint a2b_loop (input : list Z) (quad_pos leftchar pads : Z) : result (list Z) :=
  match input with
  | [] => if quad_pos =? 0 then Ok [] else Raise BinasciiError
  | this_ch :: rest =>
      if this_ch =? BASE64_PAD then
        if quad_pos <? 2 then a2b_loop rest quad_pos leftchar pads
        else if 4 <=? quad_pos + (pads + 1) then Ok []
        else a2b_loop rest quad_pos leftchar (pads + 1)
      else
        match table_a2b_base64 this_ch with
        | None => a2b_loop rest quad_pos leftchar pads
        | Some v =>
            if quad_pos =? 0 then a2b_loop rest 1 v 0
            else if quad_pos =? 1 then
              emit (uchar (Z.lor (Z.shiftl leftchar 2) (Z.shiftr v 4)))
                   (a2b_loop rest 2 (Z.land v 15) 0)
            else if quad_pos =? 2 then
              emit (uchar (Z.lor (Z.shiftl leftchar 4) (Z.shiftr v 2)))
                   (a2b_loop rest 3 (Z.land v 3) 0)
            else
              emit (uchar (Z.lor (Z.shiftl leftchar 6) v))
                   (a2b_loop rest 0 0 0)
        end
  end.

Definition a2b_base64 (data : list Z) : result (list Z) := a2b_loop data 0 0 0.

(** [base64.b64decode(s)] for a [str] argument: the text is first encoded
    as ASCII, and a non-ASCII character is a plain [ValueError]. *)
Definition b64decode (s : string) : result (list byte) :=
  if is_ascii s then
    rbind (a2b_base64 (map code (list_ascii_of_string s)))
          (fun l => Ok (map byte_of_Z l))
  else Raise (ValueError "string argument should contain only ASCII characters").

(** [binascii.b2a_base64(data, newline=False)], three bytes at a time. *)
Fixpoint b2a_base64 (data : list Z) : list Z :=
  match data with
  | [] => []
  | [a] =>
      [table_b2a_base64 (Z.shiftr a 2);
       table_b2a_base64 (Z.shiftl (Z.land a 3) 4);
       BASE64_PAD; BASE64_PAD]
  | [a; b] =>
      [table_b2a_base64 (Z.shiftr a 2);
       table_b2a_base64 (Z.lor (Z.shiftl (Z.land a 3) 4) (Z.shiftr b 4));
       table_b2a_base64 (Z.shiftl (Z.land b 15) 2);
       BASE64_PAD]
  | a :: b :: c :: rest =>
      table_b2a_base64 (Z.shiftr a 2)
      :: table_b2a_base64 (Z.lor (Z.shiftl (Z.land a 3) 4) (Z.shiftr b 4))
      :: table_b2a_base64 (Z.lor (Z.shiftl (Z.land b 15) 2) (Z.shiftr c 6))
      :: table_b2a_base64 (Z.land c 63)
      :: b2a_base64 rest
  end.

Definition text_of_codes (l : list Z) : string :=
  string_of_list_ascii (map (fun z => ascii_of_N (Z.to_N z)) l).

(** [base64.b64encode(data).decode()] *)
Definition b64encode (data : list byte) : string :=
  text_of_codes (b2a_base64 (map Z_of_byte data)).

End Base64.

(** The quad of 6-bit values that encodes three bytes. *)
Definition sextet0 (a : Z) : Z := Z.shiftr a 2.
Definition sextet1 (a b : Z) : Z := Z.lor (Z.shiftl (Z.land a 3) 4) (Z.shiftr b 4).
Definition sextet2 (b c : Z) : Z := Z.lor (Z.shiftl (Z.land b 15) 2) (Z.shiftr c 6).
Definition sextet3 (c : Z) : Z := Z.land c 63.

(** A check of [P] on every number below [n], by running it. *)
Definition all_below (n : nat) (P : Z -> bool) : bool :=
  forallb P (map Z.of_nat (seq 0 n)).

(** ** Hashable keys

    A Python [set] holds hashable values up to [==]: [True] and [1] are
    the same element, a [str] and a [bytes] never are, and a list or a
    dict cannot be hashed at all. *)
Module Keys.

Inductive hkey : Type :=
| HNone
| HInt (z : Z)
| HStr (s : string)
| HBytes (bs : list byte).

#[export] Instance byte_eq_dec : EqDecision byte := Byte.byte_eq_dec.

#[export] Instance byte_countable : Countable byte :=
  inj_countable Byte.to_N Byte.of_N Byte.of_to_N.

#[export] Instance hkey_eq_dec : EqDecision hkey.
Proof. solve_decision. Defined.

Definition hkey_to_sum (k : hkey) : unit + Z + string + list byte :=
  match k with
  | HNone => inl (inl (inl tt))
  | HInt z => inl (inl (inr z))
  | HStr s => inl (inr s)
  | HBytes bs => inr bs
  end.

Definition hkey_of_sum (x : unit + Z + string + list byte) : hkey :=
  match x with
  | inl (inl (inl _)) => HNone
  | inl (inl (inr z)) => HInt z
  | inl (inr s) => HStr s
  | inr bs => HBytes bs
  end.

#[export] Instance hkey_countable : Countable hkey.
Proof.
  apply (inj_countable' hkey_to_sum hkey_of_sum).
  intros []; reflexivity.
Defined.

(** [hash(v)]: the canonical key of a hashable value, [None] where
    Python raises [TypeError: unhashable type]. *)
Definition hash_key (v : pyval) : option hkey :=
  match v with
  | VNone => Some HNone
  | VBool b => Some (HInt (if b then 1 else 0))
  | VInt z => Some (HInt z)
  | VStr s => Some (HStr s)
  | VBytes bs => Some (HBytes bs)
  | VList _ | VDict _ => None
  end.

(** [set(keys)] *)
Fixpoint set_of_list (keys : list pyval) : result (gset hkey) :=
  match keys with
  | [] => Ok ∅
  | k :: keys' =>
      match hash_key k with
      | None => Raise TypeError
      | Some h => rbind (set_of_list keys') (fun s => Ok ({[h]} ∪ s))
      end
  end.

End Keys.
Export Keys.

(** ** The libraries and the network

    [json], [requests], [uuid] and [time] are not part of the repository.
    Their pure functions are the fields of [PyLib]; the ones that talk to
    the outside are transitions of a world [W]. *)
Class PyLib : Type := {
  (** [json.loads(s)] for a [str] *)
  json_loads : string -> result pyval;
  (** [json.loads(b)] for [bytes]: the encoding is detected and decoded first *)
  json_loads_bytes : list byte -> result pyval;
  (** [json.dumps(v)] *)
  json_dumps : pyval -> result string;
  (** [str(v)], as an f-string formats a value *)
  str_of : pyval -> string
}.

Record Request : Type := {
  method : string;
  url : string;
  headers : list (string * string);
  data : option string;
  params : option (list (string * Z))
}.

(** What the module reads of a [requests.Response]: its status and the
    outcome of [response.json()]. *)
Record Response : Type := {
  status_code : Z;
  json : result pyval
}.

Class World (W : Type) : Type := {
  (** [requests.request]: a response, or an exception of the transport *)
  requests_request : Request -> W -> result Response * W;
  (** [str(uuid4())] *)
  uuid4 : W -> string * W;
  (** [time.sleep(secs)] *)
  time_sleep : Z -> W -> W
}.

(** The network as the module sees it: the requests handed to
    [requests.request] so far with what came back, oldest first, and the
    world behind it. *)
Record Net (W : Type) : Type := {
  sent : list (Request * result Response);
  world : W
}.
Arguments sent {W} _.
Arguments world {W} _.
Arguments Build_Net {W} _ _.

(** ** Methods as state transformers

    A method of an object of class [S] runs on the object's fields and on
    the network, and either returns or raises; the fields and the network
    keep whatever was done before an exception. *)
Definition M (W S A : Type) : Type := S -> Net W -> result A * S * Net W.

Definition ret {W S A} (a : A) : M W S A := fun s n => (Ok a, s, n).

Definition raise {W S A} (e : exn) : M W S A := fun s n => (Raise e, s, n).

Definition lift {W S A} (r : result A) : M W S A := fun s n => (r, s, n).

Definition bind {W S A B} (m : M W S A) (k : A -> M W S B) : M W S B :=
  fun s n =>
    match m s n with
    | (Ok a, s', n') => k a s' n'
    | (Raise e, s', n') => (Raise e, s', n')
    end.

Definition get {W S} : M W S S := fun s n => (Ok s, s, n).

Definition put {W S} (s' : S) : M W S unit := fun _ n => (Ok tt, s', n).

(** [try: m  except <classes>: h] *)
Definition try_except {W S A} (m : M W S A) (catches : exn -> bool) (h : M W S A) : M W S A :=
  fun s n =>
    match m s n with
    | (Raise e, s', n') => if catches e then h s' n' else (Raise e, s', n')
    | r => r
    end.

Declare Scope py_scope.
Delimit Scope py_scope with py.
Notation "'let!' x ':=' m 'in' k" := (bind m (fun x => k))
  (at level 10, x name, m at level 100, k at level 200) : py_scope.
Notation "'run!' m 'in' k" := (bind m (fun _ => k))
  (at level 10, m at level 100, k at level 200) : py_scope.
Local Open Scope py_scope.

(** A list comprehension whose element expression may raise. *)
Fixpoint map_result {A B} (f : A -> result B) (l : list A) : result (list B) :=
  match l with
  | [] => Ok []
  | x :: l' => rbind (f x) (fun y => rbind (map_result f l') (fun ys => Ok (y :: ys)))
  end.

(** [dict.update] on a header dictionary kept in insertion order. *)
Fixpoint header_set (d : list (string * string)) (k v : string) : list (string * string) :=
  match d with
  | [] => [(k, v)]
  | (k', v') :: d' =>
      if String.eqb k' k then (k', v) :: d' else (k', v') :: header_set d' k v
  end.

Definition header_update (d upd : list (string * string)) : list (string * string) :=
  fold_left (fun acc kv => header_set acc (fst kv) (snd kv)) upd d.

(** ** class Client *)
Record Client : Type := {
  kafka_rest_api_url : string;
  topic_id : string;
  auth_headers : list (string * string)
}.

Definition http_error_status (st : Z) : bool := (400 <=? st) && (st <? 600).

(** [if not response.ok: response.raise_for_status()] on what
    [requests.request] gave back. *)
Definition raise_for_status (r : result Response) : result Response :=
  rbind r (fun response =>
    if http_error_status (status_code response)
    then Raise (HTTPError (status_code response))
    else Ok response).

Definition is_HTTPError (e : exn) : bool :=
  match e with HTTPError _ => true | _ => false end.

(** The keyword arguments as [Client.request] hands them to [requests]. *)
Definition prepare (self : Client) (kwargs : Request) : Request :=
  {| method := method kwargs;
     url := kafka_rest_api_url self ++ url kwargs;
     headers := header_update (headers kwargs) (auth_headers self);
     data := data kwargs;
     params := params kwargs |}.

Section Methods.
Context {W : Type} {WorldW : World W} {Lib : PyLib}.

Definition sleep {S} (secs : Z) : M W S unit :=
  fun s n => (Ok tt, s, {| sent := sent n; world := time_sleep secs (world n) |}).

(** [Client.request]: prefix the URL, merge the authentication headers,
    send, and raise on an error status. *)
Definition Client_request {S} (self : Client) (kwargs : Request) : M W S Response :=
  fun s n =>
    let req := prepare self kwargs in
    let '(r, w') := requests_request req (world n) in
    (raise_for_status r, s, {| sent := sent n ++ [(req, r)]; world := w' |}).

(** ** class Producer *)
Record Producer : Type := {
  p_client : Client;
  contect_type : string;
  max_data_bytes : pyval;
  key_history : list pyval;
  key_last_request : list pyval
}.

(** [Producer.__init__]: the limit is the environment variable
    [PRODUCER_DATA_MAX_SIZE] when it is set, a [str] then, and the argument
    [producer_data_max_size] otherwise. *)
Definition default_producer_data_max_size : Z := 67108864.

Definition default_contect_type : string := "application/vnd.kafka.jsonschema.v2+json".

Definition Producer_init (environ_max : option string) (producer_data_max_size : Z)
    (client : Client) : Producer :=
  {| p_client := client;
     contect_type := default_contect_type;
     max_data_bytes := match environ_max with
                       | Some s => VStr s
                       | None => VInt producer_data_max_size
                       end;
     key_history := [];
     key_last_request := [] |}.

(** [[str(uuid4()) for _ in range(n)]] *)
Fixpoint uuid_keys (n : nat) (w : W) : list pyval * W :=
  match n with
  | O => ([], w)
  | S n' =>
      let '(u, w1) := uuid4 w in
      let '(l, w2) := uuid_keys n' w1 in
      (VStr u :: l, w2)
  end.

Definition keys_size_message : string :=
  "List of keys must have the same size as list of messages.".

(** [Producer.__manage_keys] *)
Definition manage_keys {S} (len_messages : nat) (keys : option (list pyval)) : M W S (list pyval) :=
  match keys with
  | None | Some [] =>
      fun s n =>
        let '(l, w') := uuid_keys len_messages (world n) in
        (Ok l, s, {| sent := sent n; world := w' |})
  | Some ks =>
      if negb (Nat.eqb (length ks) len_messages)
      then raise (ValueError keys_size_message)
      else ret ks
  end.

(** [Producer._check_data_size] *)
Definition check_data_size (data : list byte) : M W Producer unit :=
  let! self := get in
  let! limit := lift (as_int (max_data_bytes self)) in
  if limit <? Z.of_nat (length data)
  then raise (RuntimeError ("Producer request data exceeded allowed number bytes: "
                            ++ str_of (max_data_bytes self) ++ " bytes"))
  else ret tt.

Definition record_entry (kv : pyval * pyval) : pyval :=
  VDict [("key", fst kv); ("value", snd kv)].

Definition schema_field (name : string) (schema : option string) : list (string * pyval) :=
  match schema with
  | Some s => [(name, VStr s)]
  | None => []
  end.

(** The body that [produce] serializes. *)
Definition produce_records (keys messages : list pyval) (key_schema value_schema : option string)
  : pyval :=
  VDict ([("records", VList (map record_entry (combine keys messages)))]
         ++ schema_field "key_schema" key_schema
         ++ schema_field "value_schema" value_schema).

Definition produce_request (self : Producer) (record_data : string) : Request :=
  {| method := "POST"; url := "/topics/" ++ topic_id (p_client self);
     headers := [("Content-Type", contect_type self)];
     data := Some record_data; params := None |}.

(** [Producer.produce] *)
Definition produce (messages : list pyval) (endpoint : string)
    (keys : option (list pyval)) (key_schema value_schema : option string)
  : M W Producer (list pyval) :=
  let! self := get in
  let! keys := manage_keys (length messages) keys in
  let records := produce_records keys messages key_schema value_schema in
  let! record_data := lift (json_dumps records) in
  run! check_data_size (encode_utf8 record_data) in
  run! Client_request (p_client self) (produce_request self record_data) in
  let! self := get in
  run! put {| p_client := p_client self; contect_type := contect_type self;
              max_data_bytes := max_data_bytes self;
              key_history := key_history self ++ keys;
              key_last_request := keys |} in
  ret keys.

(** ** class Consumer *)
Record Consumer : Type := {
  c_client : Client;
  created : bool;
  consumer_group : string;
  instance : string;
  format : string;
  accept : string;
  request_timeout : Z;
  fetch_min_bytes : Z;
  auto_offset_reset : string;
  remaining_keys : gset hkey
}.

(** [Consumer.__init__], with the names of the group and the instance given. *)
Definition Consumer_init (client : Client) (group name : string) : Consumer :=
  {| c_client := client; created := false;
     consumer_group := group; instance := name;
     format := "binary"; accept := "application/vnd.kafka.binary.v2+json";
     request_timeout := 11000; fetch_min_bytes := 100000;
     auto_offset_reset := "earliest"; remaining_keys := ∅ |}.

Definition set_created (b : bool) (self : Consumer) : Consumer :=
  {| c_client := c_client self; created := b;
     consumer_group := consumer_group self; instance := instance self;
     format := format self; accept := accept self;
     request_timeout := request_timeout self;
     fetch_min_bytes := fetch_min_bytes self;
     auto_offset_reset := auto_offset_reset self;
     remaining_keys := remaining_keys self |}.

Definition set_remaining_keys (ks : gset hkey) (self : Consumer) : Consumer :=
  {| c_client := c_client self; created := created self;
     consumer_group := consumer_group self; instance := instance self;
     format := format self; accept := accept self;
     request_timeout := request_timeout self;
     fetch_min_bytes := fetch_min_bytes self;
     auto_offset_reset := auto_offset_reset self;
     remaining_keys := ks |}.

Definition json_headers : list (string * string) :=
  [("Content-Type", "application/vnd.kafka.json.v2+json")].

Definition instance_url (self : Consumer) : string :=
  "/consumers/" ++ consumer_group self ++ "/instances/" ++ instance self.

Definition create_config (self : Consumer) : pyval :=
  VDict [("name", VStr (instance self));
         ("format", VStr (format self));
         ("auto.offset.reset", VStr (auto_offset_reset self));
         ("consumer.request.timeout.ms", VInt (request_timeout self));
         ("fetch.min.bytes", VInt (fetch_min_bytes self))].

Definition create_request (self : Consumer) (config : string) : Request :=
  {| method := "POST"; url := "/consumers/" ++ consumer_group self;
     headers := json_headers; data := Some config; params := None |}.

(** [Consumer.create] *)
Definition create : M W Consumer unit :=
  let! self := get in
  if negb (created self) then
    let! config := lift (json_dumps (create_config self)) in
    run! Client_request (c_client self) (create_request self config) in
    let! self := get in
    put (set_created true self)
  else ret tt.

(** [Consumer.subscribe] *)
Definition subscribe : M W Consumer unit :=
  let! self := get in
  let! topics_data :=
    lift (json_dumps (VDict [("topics", VList [VStr (topic_id (c_client self))])])) in
  run! Client_request (c_client self)
    {| method := "POST"; url := instance_url self ++ "/subscription";
       headers := json_headers; data := Some topics_data; params := None |} in
  ret tt.

(** [Consumer.assign] *)
Definition assign (partitions : pyval) : M W Consumer unit :=
  let! self := get in
  let! partitions_data := lift (json_dumps partitions) in
  run! Client_request (c_client self)
    {| method := "POST"; url := instance_url self ++ "/assignments";
       headers := json_headers; data := Some partitions_data; params := None |} in
  ret tt.

Definition delete_request (self : Consumer) : Request :=
  {| method := "DELETE"; url := instance_url self;
     headers := [("Content-Type", "application/vnd.kafka.v2+json")];
     data := Some ""; params := None |}.

(** [Consumer.delete] *)
Definition delete : M W Consumer unit :=
  let! self := get in
  run! Client_request (c_client self) (delete_request self) in
  let! self := get in
  put (set_created false self).

(** [Consumer.decode_base64] *)
Definition decode_base64 (string : pyval) : result pyval :=
  match string with
  | VDict _ => Ok string
  | VStr s =>
      match json_loads s with
      | Raise JSONDecodeError =>
          match rbind (Base64.b64decode s) json_loads_bytes with
          | Raise UnicodeDecodeError => Ok (VStr s)
          | Raise JSONDecodeError =>
              rbind (Base64.b64decode s) (fun bs => Ok (VBytes bs))
          | r => r
          end
      | r => r
      end
  | _ => Ok string
  end.

(** A decoded record, the dict [{"key": ..., "value": ...}]. *)
Record record : Type := {
  key : pyval;
  value : pyval
}.

(** [Consumer.parse_record] *)
Definition parse_record (r : pyval) : result record :=
  rbind (getitem r "key") (fun k =>
  rbind (decode_base64 k) (fun k' =>
  rbind (getitem r "value") (fun v =>
  rbind (decode_base64 v) (fun v' =>
  Ok {| key := k'; value := v' |})))).

(** The part of [consume_earliest] after the response has arrived. *)
Definition records_of_response (response : Response) : result (list record) :=
  rbind (json response) (fun body =>
  rbind (iter body) (fun items =>
  map_result parse_record items)).

Definition records_params (max_bytes timeout : option Z) : list (string * Z) :=
  match max_bytes with Some n => [("max_bytes", n)] | None => [] end
  ++ match timeout with Some n => [("timeout", n)] | None => [] end.

Definition records_request (self : Consumer) (max_bytes timeout : option Z) : Request :=
  {| method := "GET"; url := instance_url self ++ "/records";
     headers := [("Accept", accept self)]; data := Some "";
     params := Some (records_params max_bytes timeout) |}.

(** [Consumer.consume_earliest] *)
Definition consume_earliest (max_bytes timeout : option Z) : M W Consumer (list record) :=
  let! self := get in
  let! response := Client_request (c_client self) (records_request self max_bytes timeout) in
  lift (records_of_response response).

Definition seek_request (self : Consumer) (payload_data : string) : Request :=
  {| method := "POST"; url := instance_url self ++ "/positions";
     headers := json_headers; data := Some payload_data; params := None |}.

Definition offsets_request (topic : string) (partition : pyval) : Request :=
  {| method := "GET";
     url := "/topics/" ++ topic ++ "/partitions/" ++ str_of partition ++ "/offsets";
     headers := json_headers; data := None; params := None |}.

(** [Consumer.offsets] *)
Definition offsets (topic : string) (partition : pyval) : M W Consumer pyval :=
  let! self := get in
  let! response := Client_request (c_client self) (offsets_request topic partition) in
  lift (json response).

(** [Consumer.partitions] *)
Definition partitions (topic : string) : M W Consumer pyval :=
  let! self := get in
  let! response := Client_request (c_client self)
    {| method := "GET"; url := "/topics/" ++ topic ++ "/partitions";
       headers := json_headers; data := None; params := None |} in
  lift (json response).

(** [Consumer.seek] *)
Definition seek (topic : string) (position offset : pyval) : M W Consumer unit :=
  let! self := get in
  let! payload_data := lift (json_dumps (VDict
    [("offsets", VList [VDict [("topic", VStr topic);
                               ("partition", position);
                               ("offset", offset)]])])) in
  run! Client_request (c_client self) (seek_request self payload_data) in
  ret tt.

(** [for message in msgs: response_decode = message] *)
Fixpoint keep_last (msgs : list record) (response_decode : option record) : option record :=
  match msgs with
  | [] => response_decode
  | message :: msgs' => keep_last msgs' (Some message)
  end.

(** The [try] block of one pass of the retry loop of [consume_latest]:
    whether the loop is left by [break], and [response_decode]. *)
Definition latest_attempt (partid : pyval) (response_decode : option record)
  : M W Consumer (bool * option record) :=
  let! self := get in
  let! offsets := offsets (topic_id (c_client self)) partid in
  let! latestoffset := lift (rbind (getitem offsets "end_offset") as_int) in
  if latestoffset <=? 0 then ret (true, response_decode)
  else
    let latestoffset := latestoffset - 1 in
    run! seek (topic_id (c_client self)) partid (VInt latestoffset) in
    let! msgs := consume_earliest None None in
    let response_decode := keep_last msgs response_decode in
    ret (bool_decide (response_decode <> None), response_decode).

(** [while retry>0: try: ... except HTTPError: pass; retry=retry-1] *)
Fixpoint latest_loop (retry : nat) (partid : pyval) (response_decode : option record)
  : M W Consumer (option record) :=
  match retry with
  | O => ret response_decode
  | S retry' =>
      let! r := try_except (latest_attempt partid response_decode) is_HTTPError
                           (ret (false, response_decode)) in
      if fst r then ret (snd r)
      else latest_loop retry' partid (snd r)
  end.

(** [Consumer.consume_latest] *)
Definition consume_latest : M W Consumer (option record) :=
  let! self := get in
  let! partitions := partitions (topic_id (c_client self)) in
  let! partid := lift (rbind (getitem0 partitions) (fun p => getitem p "partition")) in
  run! assign (VDict
    [("partitions", VList [VDict [("topic", VStr (topic_id (c_client self)));
                                  ("partition", partid)]])]) in
  latest_loop 10 partid None.

(** *** The polling generator [Consumer.consume] *)

(** The dict [data] built in one pass keeps insertion order: a key that
    comes again keeps its place and takes the new record. *)
Fixpoint dict_store (data : list (hkey * record)) (k : hkey) (d : record)
  : list (hkey * record) :=
  match data with
  | [] => [(k, d)]
  | (k', d') :: data' =>
      if decide (k' = k) then (k', d) :: data'
      else (k', d') :: dict_store data' k d
  end.

(** [{d['key']: d for d in msgs if d['key'] in remaining}]; the membership
    test hashes the key and so raises on a list or a dict. *)
Fixpoint select_pending (remaining : gset hkey) (msgs : list record)
    (data : list (hkey * record)) : result (list (hkey * record)) :=
  match msgs with
  | [] => Ok data
  | d :: msgs' =>
      match hash_key (key d) with
      | None => Raise TypeError
      | Some h =>
          if decide (h ∈ remaining)
          then select_pending remaining msgs' (dict_store data h d)
          else select_pending remaining msgs' data
      end
  end.

(** [set(data)] *)
Definition dict_keys (data : list (hkey * record)) : gset hkey :=
  list_to_set (map fst data).

(** What one [yield] hands out: the matched records and the keys still pending. *)
Definition yielded : Type := (list record * gset hkey)%type.

(** One poll of the loop: [time.sleep(interval_sec)] and [self.consume_earliest()]. *)
Definition poll (interval_sec : Z) : M W Consumer (list record) :=
  run! sleep interval_sec in
  consume_earliest None None.

(** The body of the [while] loop, up to its [yield]. *)
Definition consume_pass (interval_sec : Z) : M W Consumer yielded :=
  let! msgs := poll interval_sec in
  let! self := get in
  let! data := lift (select_pending (remaining_keys self) msgs []) in
  let remaining := remaining_keys self ∖ dict_keys data in
  run! put (set_remaining_keys remaining self) in
  ret (map snd data, remaining).

(** From the [while] test to the next [yield]; [None] is the end of the
    generator ([StopIteration]). *)
Definition consume_resume (interval_sec : Z) : M W Consumer (option yielded) :=
  let! self := get in
  if bool_decide (remaining_keys self = ∅) then ret None
  else
    let! y := consume_pass interval_sec in
    ret (Some y).

(** The start of the generator body, run by the first [next]. *)
Definition consume_start (keys : list pyval) (interval_sec : Z) : M W Consumer (option yielded) :=
  if interval_sec <? 0
  then raise (ValueError "'interval_sec' should be an 'int' or 'float' greater or equal to 0.")
  else
    let! ks := lift (set_of_list keys) in
    let! self := get in
    run! put (set_remaining_keys ks self) in
    consume_resume interval_sec.

(** A generator object of [consume]: not yet started, suspended at its
    [yield], or finished. *)
Inductive generator : Type :=
| Created (keys : list pyval) (interval_sec : Z)
| Suspended (interval_sec : Z)
| Closed.

(** [Consumer.consume(keys, interval_sec)]: calling it only makes the generator. *)
Definition consume (keys : list pyval) (interval_sec : Z) : generator :=
  Created keys interval_sec.

(** [next(gen)] *)
Definition next (gen : generator) : M W Consumer (option yielded) :=
  match gen with
  | Created keys interval_sec => consume_start keys interval_sec
  | Suspended interval_sec => consume_resume interval_sec
  | Closed => ret None
  end.

Definition interval_of (gen : generator) : Z :=
  match gen with
  | Created _ i | Suspended i => i
  | Closed => 0
  end.

(** How a run of the generator stands after some calls of [next]. *)
Inductive run_end : Type :=
| Exhausted            (* StopIteration: the sequence is over *)
| Raised (e : exn)     (* an exception left the generator *)
| Pending.             (* suspended at a [yield]: more may follow *)

(** Iterating over the generator, at most [fuel] calls of [next]. *)
Fixpoint consume_run (fuel : nat) (gen : generator) (self : Consumer) (n : Net W)
  : list yielded * run_end * Consumer * Net W :=
  match fuel with
  | O => ([], Pending, self, n)
  | S fuel' =>
      match next gen self n with
      | (Ok (Some y), self', n') =>
          let '(ys, e, self'', n'') :=
            consume_run fuel' (Suspended (interval_of gen)) self' n' in
          (y :: ys, e, self'', n'')
      | (Ok None, self', n') => ([], Exhausted, self', n')
      | (Raise e, self', n') => ([], Raised e, self', n')
      end
  end.

(** The first [i] polls of a consumer, when all of them return. *)
Fixpoint poll_seq (i : nat) (interval_sec : Z) (self : Consumer) (n : Net W)
  : option (list (list record)) :=
  match i with
  | O => Some []
  | S i' =>
      match poll interval_sec self n with
      | (Ok msgs, self', n') =>
          match poll_seq i' interval_sec self' n' with
          | Some l => Some (msgs :: l)
          | None => None
          end
      | (Raise _, _, _) => None
      end
  end.

(** *** Reading the exchanges of [consume_latest] *)

Definition offsets_url (self : Consumer) (partid : pyval) : string :=
  url (prepare (c_client self) (offsets_request (topic_id (c_client self)) partid)).

Definition records_url (self : Consumer) : string :=
  url (prepare (c_client self) (records_request self None None)).

(** The offsets queries among some exchanges. *)
Definition offsets_queries (self : Consumer) (partid : pyval)
    (log : list (Request * result Response)) : list (Request * result Response) :=
  filter (fun x => url (fst x) = offsets_url self partid) log.

(** The [end_offset] an answer to an offsets query carries, as the retry
    loop reads it. *)
Definition end_offset (r : result Response) : result Z :=
  rbind (raise_for_status r) (fun response =>
  rbind (json response) (fun offsets =>
  rbind (getitem offsets "end_offset") as_int)).

Definition reports_empty (x : Request * result Response) : Prop :=
  exists z, end_offset (snd x) = Ok z /\ z <= 0.

(** The exchange [x] is a poll whose last record is [rec]. *)
Definition brings (self : Consumer) (x : Request * result Response) (rec : record) : Prop :=
  url (fst x) = records_url self
  /\ exists msgs,
       rbind (raise_for_status (snd x)) records_of_response = Ok msgs
       /\ keep_last msgs None = Some rec.

End Methods.

(** The keys of a batch of records, when all of them can be hashed. *)
Definition keys_of (msgs : list record) : option (list hkey) :=
  mapM (fun d => hash_key (key d)) msgs.

Definition observed (batches : list (list record)) : gset hkey :=
  list_to_set (concat (map (fun msgs => default [] (keys_of msgs)) batches)).

Definition all_hashable (batches : list (list record)) : Prop :=
  Forall (fun msgs => is_Some (keys_of msgs)) batches.

(** The pending keys a call of [next] starts from: [set(keys)] on the
    first call, the consumer's [remaining_keys] on the later ones. *)
Definition pending_before (gen : generator) (self : Consumer) : gset hkey :=
  match gen with
  | Created keys _ =>
      match set_of_list keys with
      | Ok ks => ks
      | Raise _ => ∅
      end
  | _ => remaining_keys self
  end.

Definition started (gen : generator) (self : Consumer) : Consumer :=
  match gen with
  | Created _ _ => set_remaining_keys (pending_before gen self) self
  | _ => self
  end.

(** [d] is the last record of [msgs] whose key is [h]. *)
Definition last_with_key (msgs : list record) (h : hkey) (d : record) : Prop :=
  exists l1 l2,
    msgs = (l1 ++ d :: l2)%list
    /\ hash_key (key d) = Some h
    /\ Forall (fun d' => hash_key (key d') <> Some h) l2.

(** The pending sets handed out by successive yields never grow. *)
Fixpoint shrinking (prev : gset hkey) (ys : list yielded) : Prop :=
  match ys with
  | [] => True
  | y :: ys' => snd y ⊆ prev /\ shrinking (snd y) ys'
  end.

(** ** The rest of the module: construction, files, scopes *)

(** [os.environ] *)
Definition Environ : Type := string -> option string.

(** The keyword arguments that [Client.__init__] reads. *)
Record Kwargs : Type := {
  kw_kafka_rest_api_url : option string;
  kw_topic_id : option string;
  kw_auth_headers : option (list (string * string));
  kw_username_password : option (string * string)
}.

(** [os.environ.get(name, default)] *)
Definition environ_get (environ : Environ) (name : string) (default : option string)
  : option string :=
  match environ name with
  | Some v => Some v
  | None => default
  end.

(** [k in d] and [d.get(k)] on a header dictionary. *)
Definition header_mem (k : string) (d : list (string * string)) : bool :=
  existsb (fun kv => String.eqb (fst kv) k) d.

Fixpoint header_get (d : list (string * string)) (k : string) : option string :=
  match d with
  | [] => None
  | (k', v) :: d' => if String.eqb k' k then Some v else header_get d' k
  end.

(** [Client.generate_basic_auth] *)
Definition generate_basic_auth (username password : string) : string :=
  "Basic " ++ Base64.b64encode (encode_utf8 (username ++ ":" ++ password)).

Definition missing_url : exn :=
  OtherError "Exception: Invalid value assigned to 'kafka_rest_api_url' or 'KAFKA_REST_API_URL' env var.".

Definition missing_topic : exn :=
  OtherError "Exception: Invalid value assigned to 'topic_id' or 'TOPIC_ID' env var.".

(** The authentication headers as [Client.__init__] leaves them. *)
Definition init_auth_headers (environ : Environ) (kwargs : Kwargs) : list (string * string) :=
  let auth := match kw_auth_headers kwargs with Some h => h | None => [] end in
  let auth :=
    match kw_username_password kwargs with
    | Some (username, password) =>
        header_set auth "Authorization" (generate_basic_auth username password)
    | None => auth
    end in
  match environ "X_API_KEY" with
  | Some (String c k) =>
      if header_mem "x-api-key" auth then auth
      else header_set auth "x-api-key" (String c k)
  | _ => auth
  end.

(** [Client.__init__] *)
Definition Client_init (environ : Environ) (kwargs : Kwargs) : result Client :=
  match environ_get environ "KAFKA_REST_API_URL" (kw_kafka_rest_api_url kwargs) with
  | Some (String c u) =>
      match environ_get environ "TOPIC_ID" (kw_topic_id kwargs) with
      | Some (String c' t) =>
          Ok {| kafka_rest_api_url := String c u;
                topic_id := String c' t;
                auth_headers := init_auth_headers environ kwargs |}
      | _ => Raise missing_topic
      end
  | _ => Raise missing_url
  end.

(** [open(path, "rb").read()] and [Path(path).name], which belong to the
    file system and to [pathlib]. *)
Class FileSystem : Type := {
  read_bytes : string -> result (list byte);
  path_name : string -> string
}.

(** [s.endswith(suffix)] *)
Definition endswith (s suffix : string) : bool :=
  let cs := list_ascii_of_string s in
  let suf := list_ascii_of_string suffix in
  bool_decide (drop (length cs - length suf) cs = suf).

Section MoreMethods.
Context {W : Type} {WorldW : World W} {Lib : PyLib} {Files : FileSystem}.

(** The message that [produce_files] makes of one file. *)
Definition file_message (path : string) (content : list byte) : pyval :=
  VDict [("name", VStr (path_name path));
         ("bytes", VStr (Base64.b64encode content));
         ("type", VStr ("application/"
                        ++ (if endswith path ".pdf" then "pdf" else "octet-stream")))].

Definition read_messages (files : list string) : result (list pyval) :=
  map_result (fun path => rbind (read_bytes path) (fun content =>
                Ok (file_message path content))) files.

(** [Producer.produce_files] *)
Definition produce_files (files : list string) (endpoint : string)
    (keys : option (list pyval)) : M W Producer (list pyval) :=
  let! messages := lift (read_messages files) in
  produce messages endpoint keys None None.

(** [Consumer.__enter__] and [Consumer.__exit__] *)
Definition enter : M W Consumer unit :=
  run! create in
  subscribe.

Definition exit : M W Consumer unit := delete.

Definition raw_request (self : Consumer) : Request :=
  {| method := "GET"; url := instance_url self ++ "/records";
     headers := [("Accept", accept self)]; data := Some ""; params := None |}.

(** [Consumer.consume_all_raw] *)
Definition consume_all_raw : M W Consumer pyval :=
  let! self := get in
  let! response := Client_request (c_client self) (raw_request self) in
  lift (json response).

(** [Consumer.consume_all]: the batches of the generator, drawn with at
    most [fuel] calls of [next]; [None] when it is still suspended then. *)
Definition consume_all (fuel : nat) (keys : list pyval) (interval_sec : Z)
    (self : Consumer) (n : Net W)
  : option (result (list (list record))) * Consumer * Net W :=
  let '(ys, e, self', n') := consume_run fuel (consume keys interval_sec) self n in
  (match e with
   | Exhausted => Some (Ok (map fst ys))
   | Raised x => Some (Raise x)
   | Pending => None
   end, self', n').

End MoreMethods.

(** ** A reference library and a scripted network

    An executable instance of the two interfaces, used to run the module
    on concrete inputs.  [Ref.loads] reads JSON text the way [json.loads]
    does on documents without floats and with code points up to U+00FF;
    what lies outside is reported as [OtherError]. *)
Module Ref.

Local Open Scope char_scope.
Local Open Scope Z_scope.

Definition is_ws (c : ascii) : bool :=
  match c with
  | " " | "009" | "010" | "013" => true
  | _ => false
  end.

Fixpoint skip_ws (s : list ascii) : list ascii :=
  match s with
  | c :: s' => if is_ws c then skip_ws s' else s
  | [] => []
  end.

Definition is_digit (c : ascii) : bool := (48 <=? code c) && (code c <=? 57).

Definition digit_val (c : ascii) : Z := code c - 48.

Fixpoint read_digits (s : list ascii) (acc : Z) : Z * list ascii :=
  match s with
  | c :: s' => if is_digit c then read_digits s' (10 * acc + digit_val c) else (acc, s)
  | [] => (acc, [])
  end.

Definition unmodelled {A} : result A := Raise (OtherError "outside the model").

(** After the integer part: a fraction or an exponent makes a float. *)
Definition int_or_float (z : Z) (rest : list ascii) : result (pyval * list ascii) :=
  match rest with
  | "." :: d :: _ => if is_digit d then unmodelled else Ok (VInt z, rest)
  | "e" :: d :: _ | "E" :: d :: _ =>
      if is_digit d then unmodelled
      else match rest with
           | _ :: ("+" | "-") :: d' :: _ => if is_digit d' then unmodelled else Ok (VInt z, rest)
           | _ => Ok (VInt z, rest)
           end
  | _ => Ok (VInt z, rest)
  end.

(** The integer part of a number, [0] or a digit string without a leading
    zero, with [s] starting at the first digit. *)
Definition read_int (neg : bool) (s : list ascii) : result (pyval * list ascii) :=
  match s with
  | "0" :: rest => int_or_float 0 rest
  | c :: _ =>
      if is_digit c then
        let '(z, rest) := read_digits s 0 in
        int_or_float (if neg then - z else z) rest
      else Raise JSONDecodeError
  | [] => Raise JSONDecodeError
  end.

Definition hex_val (c : ascii) : option Z :=
  let n := code c in
  if (48 <=? n) && (n <=? 57) then Some (n - 48)
  else if (97 <=? n) && (n <=? 102) then Some (n - 87)
  else if (65 <=? n) && (n <=? 70) then Some (n - 55)
  else None.

Definition char_of (z : Z) : ascii := ascii_of_N (Z.to_N z).

(** [scanstring] in strict mode, after the opening quote. *)
Fixpoint read_string (s : list ascii) : result (list ascii * list ascii) :=
  match s with
  | [] => Raise JSONDecodeError
  | "034" :: rest => Ok ([], rest)
  | "\" :: esc :: rest =>
      let simple (c : ascii) :=
        rbind (read_string rest) (fun '(body, rest') => Ok (c :: body, rest')) in
      match esc with
      | "034" => simple "034"
      | "\" => simple "\"
      | "/" => simple "/"
      | "b" => simple "008"
      | "f" => simple "012"
      | "n" => simple "010"
      | "r" => simple "013"
      | "t" => simple "009"
      | "u" =>
          match rest with
          | a :: b :: c :: d :: rest' =>
              match hex_val a, hex_val b, hex_val c, hex_val d with
              | Some 0, Some 0, Some x, Some y =>
                  rbind (read_string rest')
                        (fun '(body, rest'') => Ok (char_of (16 * x + y) :: body, rest''))
              | Some _, Some _, Some _, Some _ => unmodelled
              | _, _, _, _ => Raise JSONDecodeError
              end
          | _ => Raise JSONDecodeError
          end
      | _ => Raise JSONDecodeError
      end
  | "\" :: [] => Raise JSONDecodeError
  | c :: rest =>
      if code c <? 32 then Raise JSONDecodeError
      else rbind (read_string rest) (fun '(body, rest') => Ok (c :: body, rest'))
  end.

(** [dict(pairs)]: a repeated key keeps its place and takes the last value. *)
Fixpoint dict_set (d : list (string * pyval)) (k : string) (v : pyval)
  : list (string * pyval) :=
  match d with
  | [] => [(k, v)]
  | (k', v') :: d' =>
      if String.eqb k' k then (k', v) :: d' else (k', v') :: dict_set d' k v
  end.

Definition starts_with (lit s : list ascii) : option (list ascii) :=
  if bool_decide (take (length lit) s = lit) then Some (drop (length lit) s) else None.

Definition literal (lit : string) (v : result pyval) (s : list ascii)
  : result (pyval * list ascii) :=
  match starts_with (list_ascii_of_string lit) s with
  | Some rest => rbind v (fun x => Ok (x, rest))
  | None => Raise JSONDecodeError
  end.

Definition has_prefix (lit : string) (s : list ascii) : bool :=
  match starts_with (list_ascii_of_string lit) s with
  | Some _ => true
  | None => false
  end.

(** Whether three characters can open a JSON value: a quote, a bracket,
    a brace, a sign, a digit, or the start of one of the literals. *)
Definition start3 (c0 c1 c2 : ascii) : bool :=
  is_digit c0
  || match c0 with
     | "034" | "{" | "[" | "-" | "n" | "t" => true
     | "f" => Ascii.eqb c1 "a" && Ascii.eqb c2 "l"
     | "N" => Ascii.eqb c1 "a" && Ascii.eqb c2 "N"
     | "I" => Ascii.eqb c1 "n" && Ascii.eqb c2 "f"
     | _ => false
     end.

(** Whether a text starts, after white space, the way a JSON value does. *)
Definition json_start (s : string) : bool :=
  match skip_ws (list_ascii_of_string s) with
  | [] => false
  | c :: rest =>
      is_digit c
      || match c with
         | "034" | "{" | "[" | "-" => true
         | "n" => has_prefix "null" (c :: rest)
         | "t" => has_prefix "true" (c :: rest)
         | "f" => has_prefix "false" (c :: rest)
         | "N" => has_prefix "NaN" (c :: rest)
         | "I" => has_prefix "Infinity" (c :: rest)
         | _ => false
         end
  end.

(** [scan_once]: one JSON value at the head of [s]. *)
Fixpoint read_value (fuel : nat) (s : list ascii) : result (pyval * list ascii) :=
  match fuel with
  | O => Raise (OtherError "RecursionError")
  | S fuel' =>
      match s with
      | "034" :: rest =>
          rbind (read_string rest)
                (fun '(body, rest') => Ok (VStr (string_of_list_ascii body), rest'))
      | "{" :: rest =>
          match skip_ws rest with
          | "}" :: rest' => Ok (VDict [], rest')
          | rest' => read_members fuel' rest' []
          end
      | "[" :: rest =>
          match skip_ws rest with
          | "]" :: rest' => Ok (VList [], rest')
          | rest' => read_elements fuel' rest' []
          end
      | "n" :: _ => literal "null" (Ok VNone) s
      | "t" :: _ => literal "true" (Ok (VBool true)) s
      | "f" :: _ => literal "false" (Ok (VBool false)) s
      | "N" :: _ => literal "NaN" unmodelled s
      | "I" :: _ => literal "Infinity" unmodelled s
      | "-" :: "I" :: _ => literal "-Infinity" unmodelled s
      | "-" :: rest => read_int true rest
      | _ => read_int false s
      end
  end
with read_elements (fuel : nat) (s : list ascii) (acc : list pyval)
  : result (pyval * list ascii) :=
  match fuel with
  | O => Raise (OtherError "RecursionError")
  | S fuel' =>
      rbind (read_value fuel' s) (fun '(v, rest) =>
        match skip_ws rest with
        | "," :: rest' => read_elements fuel' (skip_ws rest') (acc ++ [v])
        | "]" :: rest' => Ok (VList (acc ++ [v]), rest')
        | _ => Raise JSONDecodeError
        end)
  end
with read_members (fuel : nat) (s : list ascii) (acc : list (string * pyval))
  : result (pyval * list ascii) :=
  match fuel with
  | O => Raise (OtherError "RecursionError")
  | S fuel' =>
      match s with
      | "034" :: rest =>
          rbind (read_string rest) (fun '(k, rest1) =>
            match skip_ws rest1 with
            | ":" :: rest2 =>
                rbind (read_value fuel' (skip_ws rest2)) (fun '(v, rest3) =>
                  let acc' := dict_set acc (string_of_list_ascii k) v in
                  match skip_ws rest3 with
                  | "," :: rest4 => read_members fuel' (skip_ws rest4) acc'
                  | "}" :: rest4 => Ok (VDict acc', rest4)
                  | _ => Raise JSONDecodeError
                  end)
            | _ => Raise JSONDecodeError
            end)
      | _ => Raise JSONDecodeError
      end
  end.

(** JSON text written with ['] where the double quote stands. *)
Definition js (s : string) : string :=
  string_of_list_ascii
    (map (fun c => if Ascii.eqb c "'" then "034" else c) (list_ascii_of_string s)).

(** [json.loads(s)]: one value between optional white space. *)
Definition loads (s : string) : result pyval :=
  let cs := list_ascii_of_string s in
  rbind (read_value (2 * length cs + 2) (skip_ws cs)) (fun '(v, rest) =>
    match skip_ws rest with
    | [] => Ok v
    | _ => Raise JSONDecodeError
    end).

(** [str.decode] for the encoding [json.loads] detects in [bytes]: UTF-8
    unless a byte-order mark or a NUL among the first two bytes says
    UTF-16 or UTF-32. *)
Definition detect_utf8 (bs : list Z) : bool :=
  match bs with
  | 255 :: 254 :: _ | 254 :: 255 :: _ => false
  | [a; b] | a :: b :: _ :: _ :: _ => negb (a =? 0) && negb (b =? 0)
  | _ => true
  end.

Fixpoint utf8_decode (bs : list Z) : result (list ascii) :=
  match bs with
  | [] => Ok []
  | b :: rest =>
      if b <? 128 then rbind (utf8_decode rest) (fun cs => Ok (char_of b :: cs))
      else if b <? 194 then Raise UnicodeDecodeError
      else if b <? 224 then
        match rest with
        | c :: rest' =>
            if (128 <=? c) && (c <? 192) then
              if b <? 196
              then rbind (utf8_decode rest')
                         (fun cs => Ok (char_of ((b - 192) * 64 + (c - 128)) :: cs))
              else unmodelled
            else Raise UnicodeDecodeError
        | [] => Raise UnicodeDecodeError
        end
      else if b <? 245 then unmodelled
      else Raise UnicodeDecodeError
  end.

(** [json.loads(b)] for [bytes] *)
Definition loads_bytes (bs : list byte) : result pyval :=
  let zs := map Z_of_byte bs in
  if detect_utf8 zs
  then rbind (utf8_decode zs) (fun cs => loads (string_of_list_ascii cs))
  else unmodelled.

Definition hex_digit (z : Z) : ascii :=
  if z <? 10 then char_of (z + 48) else char_of (z + 87).

(** [ESCAPE_ASCII]: what [json.dumps] writes for one character. *)
Definition escape_char (c : ascii) : list ascii :=
  match c with
  | "034" => ["\"; "034"]
  | "\" => ["\"; "\"]
  | "010" => ["\"; "n"]
  | "013" => ["\"; "r"]
  | "009" => ["\"; "t"]
  | "008" => ["\"; "b"]
  | "012" => ["\"; "f"]
  | _ =>
      let n := code c in
      if (32 <=? n) && (n <=? 126) then [c]
      else ["\"; "u"; "0"; "0"; hex_digit (n / 16); hex_digit (n mod 16)]
  end.

Definition quote (s : string) : string :=
  string_of_list_ascii
    ("034" :: concat (map escape_char (list_ascii_of_string s)) ++ ["034"]).

Fixpoint join (sep : string) (l : list string) : string :=
  match l with
  | [] => EmptyString
  | [x] => x
  | x :: l' => (x ++ sep ++ join sep l')%string
  end.

(** [json.dumps(v)] with its default separators and [ensure_ascii]. *)
Fixpoint dumps (v : pyval) : result string :=
  match v with
  | VNone => Ok "null"%string
  | VBool true => Ok "true"%string
  | VBool false => Ok "false"%string
  | VInt z => Ok (pretty z)
  | VStr s => Ok (quote s)
  | VBytes _ => Raise TypeError
  | VList l =>
      rbind ((fix items (l : list pyval) : result (list string) :=
                match l with
                | [] => Ok []
                | x :: l' =>
                    rbind (dumps x) (fun s =>
                    rbind (items l') (fun ss => Ok (s :: ss)))
                end) l)
            (fun ss => Ok ("[" ++ join ", " ss ++ "]")%string)
  | VDict d =>
      rbind ((fix items (d : list (string * pyval)) : result (list string) :=
                match d with
                | [] => Ok []
                | (k, x) :: d' =>
                    rbind (dumps x) (fun s =>
                    rbind (items d') (fun ss => Ok ((quote k ++ ": " ++ s)%string :: ss)))
                end) d)
            (fun ss => Ok ("{" ++ join ", " ss ++ "}")%string)
  end.

(** [repr] of a [str] or of [bytes]: single quotes, unless the text holds
    a single quote and no double one; the quote and the backslash are
    escaped, tab, newline and return are written with their letters, and
    what cannot be printed as [\xNN]. *)
Definition repr_quote (cs : list ascii) : ascii :=
  if existsb (Ascii.eqb "'") cs && negb (existsb (Ascii.eqb "034") cs) then "034" else "'".

Definition hex_escape (n : Z) : list ascii :=
  ["\"; "x"; hex_digit (n / 16); hex_digit (n mod 16)].

Definition repr_char (unprintable : Z -> bool) (q c : ascii) : list ascii :=
  if Ascii.eqb c q || Ascii.eqb c "\" then ["\"; c]
  else match c with
       | "009" => ["\"; "t"]
       | "010" => ["\"; "n"]
       | "013" => ["\"; "r"]
       | _ => if unprintable (code c) then hex_escape (code c) else [c]
       end.

(** The code points up to U+00FF that [str.isprintable] refuses. *)
Definition str_unprintable (n : Z) : bool :=
  (n <? 32) || ((127 <=? n) && (n <=? 160)) || (n =? 173).

Definition bytes_unprintable (n : Z) : bool := (n <? 32) || (127 <=? n).

Definition repr_str (s : string) : string :=
  let cs := list_ascii_of_string s in
  let q := repr_quote cs in
  string_of_list_ascii (q :: concat (map (repr_char str_unprintable q) cs) ++ [q]).

Definition repr_bytes (bs : list byte) : string :=
  let cs := map (fun b => char_of (Z_of_byte b)) bs in
  let q := repr_quote cs in
  string_of_list_ascii ("b" :: q :: concat (map (repr_char bytes_unprintable q) cs) ++ [q]).

(** [repr(v)] *)
Fixpoint repr (v : pyval) : string :=
  match v with
  | VNone => "None"
  | VBool true => "True"
  | VBool false => "False"
  | VInt z => pretty z
  | VStr s => repr_str s
  | VBytes bs => repr_bytes bs
  | VList l => "[" ++ join ", " (map repr l) ++ "]"
  | VDict d =>
      "{" ++ join ", " (map (fun kv => repr_str (fst kv) ++ ": " ++ repr (snd kv)) d) ++ "}"
  end%string.

(** [str(v)]: the text itself for a [str], the [repr] otherwise. *)
Definition str (v : pyval) : string :=
  match v with
  | VStr s => s
  | _ => repr v
  end.

#[export] Instance lib : PyLib := {
  json_loads := loads;
  json_loads_bytes := loads_bytes;
  json_dumps := dumps;
  str_of := str
}.

(** A scripted network: the answers to the coming requests, in order,
    and the answer to every request after them. *)
Record Script : Type := {
  answers : list (result Response);
  fallback : result Response;
  uuids : list string;
  slept : list Z
}.

Definition script_request (_ : Request) (w : Script) : result Response * Script :=
  match answers w with
  | [] => (fallback w, w)
  | r :: rs =>
      (r, {| answers := rs; fallback := fallback w; uuids := uuids w; slept := slept w |})
  end.

Definition script_uuid4 (w : Script) : string * Script :=
  match uuids w with
  | [] => ("00000000-0000-4000-8000-000000000000"%string, w)
  | u :: us =>
      (u, {| answers := answers w; fallback := fallback w; uuids := us; slept := slept w |})
  end.

Definition script_sleep (secs : Z) (w : Script) : Script :=
  {| answers := answers w; fallback := fallback w; uuids := uuids w;
     slept := slept w ++ [secs] |}.

#[export] Instance script_world : World Script := {
  requests_request := script_request;
  uuid4 := script_uuid4;
  time_sleep := script_sleep
}.

Definition ok_json (v : pyval) : result Response :=
  Ok {| status_code := 200; json := Ok v |}.

Definition start (answers : list (result Response)) (fallback : result Response)
  : Net Script :=
  {| sent := [];
     world := {| answers := answers; fallback := fallback; uuids := []; slept := [] |} |}.

End Ref.

#[global] Existing Instance Ref.lib.
#[global] Existing Instance Ref.script_world.

(** A reference file system: two files, and names taken after the last
    slash. *)
Module RefFiles.

Local Open Scope char_scope.

Fixpoint basename (cs acc : list ascii) : list ascii :=
  match cs with
  | [] => acc
  | "/" :: cs' => basename cs' []
  | c :: cs' => basename cs' (acc ++ [c])
  end.

Definition name (path : string) : string :=
  string_of_list_ascii (basename (list_ascii_of_string path) []).

Definition read (path : string) : result (list byte) :=
  if String.eqb path "docs/report.pdf" then Ok [x25; x50; x44; x46]
  else if String.eqb path "data/blob.bin" then Ok [x00; xff; x10]
  else Raise (OtherError "FileNotFoundError").

#[export] Instance files : FileSystem := {
  read_bytes := read;
  path_name := name
}.

Definition no_environ : Environ := fun _ => None.

Definition environ (name : string) : option string :=
  if String.eqb name "KAFKA_REST_API_URL" then Some "http://env:8082"%string
  else if String.eqb name "X_API_KEY" then Some "secret"%string
  else None.

Definition kwargs : Kwargs :=
  {| kw_kafka_rest_api_url := Some "http://arg:8082"%string;
     kw_topic_id := Some "events"%string;
     kw_auth_headers := Some [("Authorization", "Bearer old")]%string;
     kw_username_password := Some ("user", "pass")%string |}.

End RefFiles.

#[global] Existing Instance RefFiles.files.

(** ** Checks that the proofs run

    The bit arithmetic of the codec is settled by running these checks
    on every byte. *)
Definition is_byte (z : Z) : Prop := 0 <= z < 256.

Definition char (z : Z) : ascii := ascii_of_N (Z.to_N z).

Definition sextets_check (a b : Z) : bool :=
  (0 <=? sextet0 a) && (sextet0 a <? 64)
  && (0 <=? sextet1 a b) && (sextet1 a b <? 64)
  && (0 <=? sextet2 a b) && (sextet2 a b <? 64)
  && (0 <=? sextet3 a) && (sextet3 a <? 64)
  && (Z.shiftr (sextet1 a b) 4 =? Z.land a 3)
  && (Z.land (sextet1 a b) 15 =? Z.shiftr b 4)
  && (Z.shiftr (sextet2 a b) 2 =? Z.land a 15)
  && (Z.land (sextet2 a b) 3 =? Z.shiftr b 6)
  && (Base64.uchar (Z.lor (Z.shiftl (sextet0 a) 2) (Z.land a 3)) =? a)
  && (Base64.uchar (Z.lor (Z.shiftl (Z.shiftr a 4) 4) (Z.land a 15)) =? a)
  && (Base64.uchar (Z.lor (Z.shiftl (Z.shiftr a 6) 6) (sextet3 a)) =? a).

Definition not_start_check (a b h : Z) : bool :=
  let c0 := char (Base64.table_b2a_base64 (sextet0 a)) in
  let c1 := char (Base64.table_b2a_base64 (sextet1 a b)) in
  let c2 := char (Base64.table_b2a_base64 (Z.lor (Z.shiftl (Z.land b 15) 2) h)) in
  negb (Ref.is_ws c0)
  && negb (Ref.start3 c0 c1 c2)
  && negb (Ref.start3 c0 c1 (char Base64.BASE64_PAD))
  && (0 <=? Z.shiftr a 6) && (Z.shiftr a 6 <? 2).

(** ** Sample objects for running the module *)
Module Sample.

Definition client : Client :=
  {| kafka_rest_api_url := "http://proxy:8082"; topic_id := "events"; auth_headers := [] |}.

Definition producer : Producer := Producer_init None default_producer_data_max_size client.

Definition small_producer : Producer := Producer_init None 16 client.

Definition environ_producer : Producer :=
  Producer_init (Some "16") default_producer_data_max_size client.

Definition consumer : Consumer := Consumer_init client "group" "instance".

Definition accepted : result Response := Ref.ok_json VNone.

Definition refused : result Response := Ok {| status_code := 500; json := Ok VNone |}.

(** A value as the proxy hands it out in the binary format: the base64
    text of its JSON serialization. *)
Definition b64json (v : pyval) : pyval :=
  match Ref.dumps v with
  | Ok text => VStr (Base64.b64encode (encode_utf8 text))
  | Raise _ => VNone
  end.

Definition wire_record (k v : pyval) (offset : Z) : pyval :=
  VDict [("topic", VStr "events"); ("key", b64json k); ("value", b64json v);
         ("partition", VInt 0); ("offset", VInt offset)].

(** Two polls that bring [k1] twice with a stranger in between, then [k2];
    every later poll is empty. *)
Definition two_polls : Net Ref.Script :=
  Ref.start
    [Ref.ok_json (VList [wire_record (VStr "k1") (VInt 1) 0;
                         wire_record (VStr "other") (VInt 2) 1;
                         wire_record (VStr "k1") (VInt 3) 2]);
     Ref.ok_json (VList [wire_record (VStr "k2") (VInt 4) 3])]
    (Ref.ok_json (VList [])).

(** One poll that brings [k1] and a record whose key is the list [[1]];
    every later poll is empty. *)
Definition structured_poll : Net Ref.Script :=
  Ref.start
    [Ref.ok_json (VList [wire_record (VStr "k1") (VInt 1) 0;
                         wire_record (VList [VInt 1]) (VInt 2) 1])]
    (Ref.ok_json (VList [])).

Definition partitions_answer : result Response :=
  Ref.ok_json (VList [VDict [("partition", VInt 0); ("leader", VInt 1)]]).

Definition offsets_answer (last : Z) : result Response :=
  Ref.ok_json (VDict [("beginning_offset", VInt 0); ("end_offset", VInt last)]).

(** A topic whose first partition is empty. *)
Definition empty_partition : Net Ref.Script :=
  Ref.start [partitions_answer; accepted; offsets_answer 0] refused.

(** A topic with three records: the first pass fails on the seek, the
    second one reads the last record. *)
Definition busy_partition : Net Ref.Script :=
  Ref.start [partitions_answer; accepted;
             offsets_answer 3; refused;
             offsets_answer 3; accepted;
             Ref.ok_json (VList [wire_record (VStr "k2") (VInt 4) 2])] refused.

Definition rec1 : record := {| key := VStr "k1"; value := VInt 1 |}.
Definition rec2 : record := {| key := VStr "other"; value := VInt 2 |}.
Definition rec3 : record := {| key := VStr "k1"; value := VInt 3 |}.
Definition rec4 : record := {| key := VStr "k2"; value := VInt 4 |}.

End Sample.

(** * Properties *)

(** ** The libraries on sample inputs *)
Example b64decode_hello : Base64.b64decode "hello" = Raise BinasciiError.
Proof. reflexivity. Qed.

Example b64decode_test :
Base64.b64decode "test" = Ok [xb5; xeb; x2d].
Proof. reflexivity. Qed.

Example b64decode_pad : Base64.b64decode "YQ=a=" = Ok [x61; x06].
Proof. reflexivity. Qed.

Example b64encode_hello :
Base64.b64encode [x68; x65; x6c; x6c; x6f] = "aGVsbG8=".
Proof. reflexivity. Qed.

Example loads_nested :
  Ref.loads (Ref.js " {'a': [1, -20, true, null], 'b': 'x\n\u00e9'} ")
  = Ok (VDict [("a", VList [VInt 1; VInt (-20); VBool true; VNone]);
               ("b", VStr (String "x" (String "010" (String "233" EmptyString))))]).
Proof. vm_compute. reflexivity. Qed.

Example loads_rejects :
  map Ref.loads ["hello"; "01"; "[1,]"; (Ref.js "{'a' 1}"); "1 2"; "[[[["; "-"; "tru"; ""]
  = repeat (Raise JSONDecodeError) 9.
Proof. vm_compute. reflexivity. Qed.

Example dumps_records :
  Ref.dumps (VDict [("records", VList [VDict [("key", VStr "k1"); ("value", VStr "hello")]])])
  = Ok (Ref.js "{'records': [{'key': 'k1', 'value': 'hello'}]}").
Proof. vm_compute. reflexivity. Qed.

Example decode_base64_samples :
  map (decode_base64 (Lib := Ref.lib))
      [VStr "{}"; VStr "e30="; VStr "test"; VStr "aGVsbG8="; VStr "hello"; VInt 3]
  = [Ok (VDict []); Ok (VDict []); Ok (VStr "test");
     Ok (VBytes [x68; x65; x6c; x6c; x6f]); Raise BinasciiError; Ok (VInt 3)].
Proof. vm_compute. reflexivity. Qed.

(** ** The transport *)
Section TransportFacts.
Context {W : Type} {WorldW : World W} {Lib : PyLib}.

(** A request leaves the object alone and adds exactly one exchange. *)
Lemma Client_request_inv {S} (self : Client) (kwargs : Request) (s s' : S)
    (n n' : Net W) (r : result Response) :
  Client_request self kwargs s n = (r, s', n') ->
  s' = s /\ exists r0, r = raise_for_status r0
                     /\ sent n' = (sent n ++ [(prepare self kwargs, r0)])%list.
Proof.
  unfold Client_request. destruct (requests_request _ _) as [r0 w'].
  intros [= <- <- <-]. split; [reflexivity|]. exists r0. split; reflexivity.
Qed.

Lemma manage_keys_inv {S} (len : nat) (keys : option (list pyval)) (s s' : S)
    (n n' : Net W) (r : result (list pyval)) :
  manage_keys len keys s n = (r, s', n') -> s' = s /\ sent n' = sent n.
Proof.
  unfold manage_keys.
  destruct keys as [[|k ks]|].
  - destruct (uuid_keys len (world n)); intros [= <- <- <-]; auto.
  - destruct (negb _); intros [= <- <- <-]; auto.
  - destruct (uuid_keys len (world n)); intros [= <- <- <-]; auto.
Qed.

Lemma uuid_keys_length (len : nat) (w : W) : length (fst (uuid_keys len w)) = len.
Proof.
  revert w. induction len as [|len IH]; intros w; simpl; [reflexivity|].
  destruct (uuid4 w) as [u w1]. specialize (IH w1).
  destruct (uuid_keys len w1) as [l w2]. simpl in *. congruence.
Qed.

End TransportFacts.

(** ** The producer *)
Section ProducerFacts.
Context {W : Type} {WorldW : World W} {Lib : PyLib}.

(** C6, as amended: a non-empty key list whose length differs from the
    number of messages makes [produce] raise the validation error before
    anything is sent: the network and the producer are as they were. *)
Theorem produce_rejects_key_mismatch (self : Producer) (n : Net W)
    (messages : list pyval) (endpoint : string) (k : pyval) (keys : list pyval)
    (key_schema value_schema : option string) :
  length (k :: keys) <> length messages ->
  produce messages endpoint (Some (k :: keys)) key_schema value_schema self n
  = (Raise (ValueError keys_size_message), self, n).
Proof.
  intros Hlen. unfold produce, bind, get, manage_keys.
  destruct (Nat.eqb (length (k :: keys)) (length messages)) eqn:E.
  - apply Nat.eqb_eq in E. contradiction.
  - reflexivity.
Qed.


(** The case of the size check that works: when the limit is a number and
    the serialized body is longer, the call raises the size error; nothing
    has been sent by then.  The limit of a producer made without an
    argument is 64 MiB. *)
Theorem produce_rejects_oversize (self : Producer) (n n1 : Net W)
    (messages : list pyval) (endpoint : string) (keys : option (list pyval))
    (ks : list pyval) (key_schema value_schema : option string)
    (record_data : string) (limit : Z) :
  max_data_bytes self = VInt limit ->
  manage_keys (length messages) keys self n = (Ok ks, self, n1) ->
  json_dumps (produce_records ks messages key_schema value_schema) = Ok record_data ->
  limit < Z.of_nat (length (encode_utf8 record_data)) ->
  produce messages endpoint keys key_schema value_schema self n
  = (Raise (RuntimeError ("Producer request data exceeded allowed number bytes: "
                          ++ str_of (VInt limit) ++ " bytes")), self, n1)
  /\ sent n1 = sent n
  /\ max_data_bytes (Producer_init None default_producer_data_max_size (p_client self))
     = VInt (64 * 1024 * 1024).
Proof.
  intros Hmax Hkeys Hdumps Hlt. split; [|split].
  - unfold produce, bind, get. rewrite Hkeys. unfold lift at 1. rewrite Hdumps.
    unfold check_data_size, bind, get, lift. rewrite Hmax. simpl.
    apply Z.ltb_lt in Hlt. rewrite Hlt. reflexivity.
  - apply manage_keys_inv in Hkeys. tauto.
  - reflexivity.
Qed.

(** C7, where the code departs from it: a maximum configured through
    [PRODUCER_DATA_MAX_SIZE] is kept as the [str] that the environment
    holds, and the variable goes before the argument.  The size check then
    compares a [str] with an [int]: every batch, also one whose body is
    longer than the maximum, raises [TypeError] and not the size error.
    Nothing has been sent by then. *)
Theorem produce_environ_limit (self : Producer) (n n1 : Net W)
    (messages : list pyval) (endpoint : string) (keys : option (list pyval))
    (ks : list pyval) (key_schema value_schema : option string)
    (record_data env : string) :
  max_data_bytes self = VStr env ->
  manage_keys (length messages) keys self n = (Ok ks, self, n1) ->
  json_dumps (produce_records ks messages key_schema value_schema) = Ok record_data ->
  produce messages endpoint keys key_schema value_schema self n = (Raise TypeError, self, n1)
  /\ sent n1 = sent n
  /\ (forall msg, fst (fst (produce messages endpoint keys key_schema value_schema self n))
                  <> Raise (RuntimeError msg))
  /\ (forall size client,
        max_data_bytes (Producer_init (Some env) size client) = VStr env).
Proof.
  intros Hmax Hkeys Hdumps.
  assert (Hrun : produce messages endpoint keys key_schema value_schema self n
                 = (Raise TypeError, self, n1)).
  { unfold produce, bind, get. rewrite Hkeys. unfold lift at 1. rewrite Hdumps.
    unfold check_data_size, bind, get, lift. rewrite Hmax. reflexivity. }
  split; [exact Hrun|]. split; [apply manage_keys_inv in Hkeys; tauto|].
  split; [intros msg; rewrite Hrun; discriminate|reflexivity].
Qed.

End ProducerFacts.

(** C6 as stated fails on an empty key list: the lengths differ, yet the
    call returns a generated key and one request has gone out. *)
Lemma produce_empty_keys_sends :
  let run := produce (W := Ref.Script) [VStr "m"] "" (Some []) None None
                     Sample.producer (Ref.start [Sample.accepted] Sample.refused) in
  length (@nil pyval) <> length [VStr "m"]
  /\ fst (fst run) = Ok [VStr "00000000-0000-4000-8000-000000000000"]
  /\ map fst (sent (snd run))
     = [prepare Sample.client
          (produce_request Sample.producer
             (Ref.js "{'records': [{'key': '00000000-0000-4000-8000-000000000000', 'value': 'm'}]}"))].
Proof. vm_compute. split; [discriminate|split; reflexivity]. Qed.


Lemma produce_rejects_key_mismatch_witness :
  produce (W := Ref.Script) [VStr "m1"; VStr "m2"] "" (Some [VStr "k1"]) None None
          Sample.producer (Ref.start [] Sample.accepted)
  = (Raise (ValueError keys_size_message), Sample.producer, Ref.start [] Sample.accepted).
Proof.
  apply (produce_rejects_key_mismatch (W := Ref.Script)). simpl. lia.
Defined.

Lemma produce_rejects_oversize_witness :
  fst (fst (produce (W := Ref.Script) [VStr "hello hello hello"] "" (Some [VStr "k1"]) None None
                    Sample.small_producer (Ref.start [] Sample.accepted)))
  = Raise (RuntimeError "Producer request data exceeded allowed number bytes: 16 bytes").
Proof.
  pose proof (produce_rejects_oversize (W := Ref.Script) Sample.small_producer
                (Ref.start [] Sample.accepted) (Ref.start [] Sample.accepted)
                [VStr "hello hello hello"] "" (Some [VStr "k1"]) [VStr "k1"] None None
                (Ref.js "{'records': [{'key': 'k1', 'value': 'hello hello hello'}]}") 16
                eq_refl eq_refl eq_refl ltac:(vm_compute; reflexivity)) as [H _].
  rewrite H. reflexivity.
Defined.

Lemma produce_environ_limit_witness :
  Z.of_nat (length (encode_utf8
                      (Ref.js "{'records': [{'key': 'k1', 'value': 'hello hello hello'}]}"))) > 16
  /\ produce (W := Ref.Script) [VStr "hello hello hello"] "" (Some [VStr "k1"]) None None
             Sample.environ_producer (Ref.start [] Sample.accepted)
     = (Raise TypeError, Sample.environ_producer, Ref.start [] Sample.accepted).
Proof.
  split; [vm_compute; reflexivity|].
  assert (Hdumps : json_dumps (produce_records [VStr "k1"] [VStr "hello hello hello"] None None)
                   = Ok (Ref.js "{'records': [{'key': 'k1', 'value': 'hello hello hello'}]}"))
    by (vm_compute; reflexivity).
  destruct (produce_environ_limit (W := Ref.Script) Sample.environ_producer
              (Ref.start [] Sample.accepted) (Ref.start [] Sample.accepted)
              [VStr "hello hello hello"] "" (Some [VStr "k1"]) [VStr "k1"] None None
              (Ref.js "{'records': [{'key': 'k1', 'value': 'hello hello hello'}]}") "16"
              eq_refl eq_refl Hdumps) as [Hrun _].
  exact Hrun.
Defined.

Example produce_environ_limit_sample :
  produce (W := Ref.Script) [VStr "m"] "" (Some [VStr "k1"]) None None
          Sample.environ_producer (Ref.start [] Sample.accepted)
  = (Raise TypeError, Sample.environ_producer, Ref.start [] Sample.accepted).
Proof. reflexivity. Qed.

Example produce_sample :
  let run := produce (W := Ref.Script) [VStr "hello"] "" (Some [VStr "k1"]) None None
                     Sample.producer (Ref.start [Sample.accepted] Sample.refused) in
  fst (fst run) = Ok [VStr "k1"]
  /\ map (fun x => data (fst x)) (sent (snd run))
     = [Some (Ref.js "{'records': [{'key': 'k1', 'value': 'hello'}]}")].
Proof. vm_compute. split; reflexivity. Qed.

(** ** The consumer session *)
Section SessionFacts.
Context {W : Type} {WorldW : World W} {Lib : PyLib}.

(** C8: [create] on a created consumer sends nothing and changes nothing;
    two calls in a row behave as one; and [delete], once its request has
    gone through, leaves [created] false. *)
Theorem create_idempotent (self : Consumer) (n : Net W) :
  (created self = true -> create self n = (Ok tt, self, n))
  /\ (run! create in create) self n = create self n
  /\ (forall response n',
        Client_request (c_client self) (delete_request self) self n = (Ok response, self, n') ->
        delete self n = (Ok tt, set_created false self, n')
        /\ created (set_created false self) = false).
Proof.
  split; [|split].
  - intros Hc. unfold create, bind, get. rewrite Hc. reflexivity.
  - unfold create, bind, get, lift, put.
    destruct (created self) eqn:Hc; simpl.
    + rewrite Hc. reflexivity.
    + destruct (json_dumps (create_config self)) as [config|e]; [|reflexivity].
      destruct (Client_request _ _ self n) as [[r s'] n'] eqn:Hreq.
      apply Client_request_inv in Hreq as [-> _].
      destruct r; reflexivity.
  - intros response n' Hreq. split; [|reflexivity].
    unfold delete, bind, get, put. rewrite Hreq. reflexivity.
Qed.

End SessionFacts.

Lemma create_idempotent_witness :
  let self := set_created true Sample.consumer in
  create (W := Ref.Script) self (Ref.start [] Sample.refused)
  = (Ok tt, self, Ref.start [] Sample.refused)
  /\ fst (delete (W := Ref.Script) self (Ref.start [Sample.accepted] Sample.refused))
     = (Ok tt, Sample.consumer).
Proof.
  intros self. split.
  - destruct (create_idempotent (W := Ref.Script) self (Ref.start [] Sample.refused))
      as (Hcreate & _ & _).
    apply Hcreate. reflexivity.
  - destruct (create_idempotent (W := Ref.Script) self
                (Ref.start [Sample.accepted] Sample.refused)) as (_ & _ & Hdel).
    destruct (Hdel {| status_code := 200; json := Ok VNone |}
                   (snd (delete (W := Ref.Script) self
                           (Ref.start [Sample.accepted] Sample.refused))))
      as [-> _]; [vm_compute; reflexivity|].
    reflexivity.
Defined.

Example session_lifecycle :
  let run := (run! create in run! subscribe in
              let! msgs := consume_earliest None None in
              run! delete in ret msgs) Sample.consumer
               (Ref.start [Sample.accepted; Sample.accepted; Ref.ok_json (VList []);
                           Sample.accepted] Sample.refused) in
  fst run = (Ok [], Sample.consumer)
  /\ map (fun x => (method (fst x), url (fst x))) (sent (snd run))
     = [("POST", "http://proxy:8082/consumers/group");
        ("POST", "http://proxy:8082/consumers/group/instances/instance/subscription");
        ("GET", "http://proxy:8082/consumers/group/instances/instance/records");
        ("DELETE", "http://proxy:8082/consumers/group/instances/instance")].
Proof. vm_compute. split; reflexivity. Qed.

(** ** The polling generator *)
Section DictFacts.

Lemma dict_store_keys (data : list (hkey * record)) (h : hkey) (d : record) :
  map fst (dict_store data h d)
  = if bool_decide (h ∈ map fst data) then map fst data else (map fst data ++ [h])%list.
Proof.
  induction data as [|[k' d'] data IH]; simpl; [reflexivity|].
  destruct (decide (k' = h)) as [->|Hne]; simpl.
  - rewrite bool_decide_eq_true_2 by left. reflexivity.
  - rewrite IH. destruct (bool_decide (h ∈ map fst data)) eqn:E.
    + apply bool_decide_eq_true in E.
      rewrite bool_decide_eq_true_2 by (right; assumption). reflexivity.
    + apply bool_decide_eq_false in E.
      rewrite bool_decide_eq_false_2; [reflexivity|].
      intros Hin. apply elem_of_cons in Hin as [->|Hin]; contradiction.
Qed.

Lemma dict_store_NoDup (data : list (hkey * record)) (h : hkey) (d : record) :
  NoDup (map fst data) -> NoDup (map fst (dict_store data h d)).
Proof.
  intros Hnd. rewrite dict_store_keys. case_bool_decide as Hin; [assumption|].
  apply NoDup_app. split; [assumption|]. split.
  - intros x Hx Hx'. apply list_elem_of_singleton in Hx'. subst. contradiction.
  - apply NoDup_singleton.
Qed.

Lemma dict_store_dict_keys (data : list (hkey * record)) (h : hkey) (d : record) :
  dict_keys (dict_store data h d) = {[h]} ∪ dict_keys data.
Proof.
  unfold dict_keys. rewrite dict_store_keys. case_bool_decide as Hin.
  - apply set_eq. intros x. rewrite elem_of_union, elem_of_singleton, !elem_of_list_to_set.
    split; [auto|]. intros [->|?]; assumption.
  - rewrite list_to_set_app_L. simpl. set_solver.
Qed.

Lemma dict_store_elem (data : list (hkey * record)) (h0 h : hkey) (d0 d : record) :
  NoDup (map fst data) ->
  (h, d) ∈ dict_store data h0 d0 ->
  (h = h0 /\ d = d0) \/ ((h, d) ∈ data /\ h <> h0).
Proof.
  induction data as [|[k' d'] data IH]; simpl; intros Hnd.
  - intros Hin. apply list_elem_of_singleton in Hin. injection Hin as -> ->. auto.
  - apply NoDup_cons in Hnd as [Hk' Hnd].
    destruct (decide (k' = h0)) as [->|Hne].
    + intros Hin. apply elem_of_cons in Hin as [Heq|Hin].
      * injection Heq as -> ->. auto.
      * right. split; [right; assumption|].
        intros ->. apply Hk'. apply list_elem_of_fmap. exists (h0, d). auto.
    + intros Hin. apply elem_of_cons in Hin as [Heq|Hin].
      * injection Heq as -> ->. right. split; [left|assumption].
      * destruct (IH Hnd Hin) as [?|[? ?]]; [auto|]. right. split; [right|]; assumption.
Qed.

End DictFacts.
Section SelectFacts.

Lemma keys_of_cons (d : record) (msgs : list record) (hs : list hkey) :
  keys_of (d :: msgs) = Some hs ->
  exists h hs', hash_key (key d) = Some h /\ keys_of msgs = Some hs' /\ hs = h :: hs'.
Proof.
  unfold keys_of. simpl. destruct (hash_key (key d)) as [h|]; simpl; [|discriminate].
  destruct (mapM _ msgs) as [hs'|]; simpl; [|discriminate].
  intros [= <-]. eauto.
Qed.

Lemma keys_of_None (msgs : list record) (remaining : gset hkey)
    (data : list (hkey * record)) :
  keys_of msgs = None -> select_pending remaining msgs data = Raise TypeError.
Proof.
  revert data. induction msgs as [|d msgs IH]; intros data; [discriminate|].
  unfold keys_of. simpl. destruct (hash_key (key d)) as [h|] eqn:Hh; simpl; [|reflexivity].
  destruct (mapM _ msgs) as [hs'|] eqn:E; simpl; [discriminate|]. intros _.
  destruct (decide (h ∈ remaining)); apply IH; exact E.
Qed.

(** What the comprehension builds when every key can be hashed. *)
Lemma select_pending_spec (remaining : gset hkey) (msgs : list record) (hs : list hkey)
    (data : list (hkey * record)) :
  keys_of msgs = Some hs ->
  NoDup (map fst data) ->
  (forall h d, (h, d) ∈ data -> h ∈ remaining /\ hash_key (key d) = Some h) ->
  exists data',
    select_pending remaining msgs data = Ok data'
    /\ NoDup (map fst data')
    /\ dict_keys data' = dict_keys data ∪ (list_to_set hs ∩ remaining)
    /\ (forall h d, (h, d) ∈ data' ->
          h ∈ remaining /\ hash_key (key d) = Some h
          /\ (last_with_key msgs h d
              \/ ((h, d) ∈ data /\ Forall (fun d' => hash_key (key d') <> Some h) msgs))).
Proof.
  revert hs data. induction msgs as [|d0 msgs IH]; intros hs data Hk Hnd Hinv.
  - injection Hk as <-. exists data. simpl. split; [reflexivity|]. split; [assumption|].
    split; [set_solver|]. intros h d Hin. destruct (Hinv h d Hin). auto.
  - apply keys_of_cons in Hk as (h0 & hs' & Hh0 & Hk' & ->). simpl. rewrite Hh0.
    destruct (decide (h0 ∈ remaining)) as [Hin0|Hnin0].
    + destruct (IH hs' (dict_store data h0 d0) Hk' (dict_store_NoDup _ _ _ Hnd))
        as (data' & Hsel & Hnd' & Hkeys & Hent).
      { intros h d Hin. apply dict_store_elem in Hin; [|assumption].
        destruct Hin as [[-> ->]|[Hin _]]; auto. }
      exists data'. split; [assumption|]. split; [assumption|]. split.
      { rewrite Hkeys, dict_store_dict_keys. set_solver. }
      intros h d Hin. destruct (Hent h d Hin) as (Hr & Hh & Hcase).
      split; [assumption|]. split; [assumption|].
      destruct Hcase as [(l1 & l2 & -> & ? & ?)|[Hst Hall]].
      * left. exists (d0 :: l1), l2. auto.
      * apply dict_store_elem in Hst; [|assumption].
        destruct Hst as [[-> ->]|[Hst Hne]].
        -- left. exists [], msgs. auto.
        -- right. split; [assumption|]. constructor; [congruence|assumption].
    + destruct (IH hs' data Hk' Hnd Hinv) as (data' & Hsel & Hnd' & Hkeys & Hent).
      exists data'. split; [assumption|]. split; [assumption|]. split.
      { rewrite Hkeys. set_solver. }
      intros h d Hin. destruct (Hent h d Hin) as (Hr & Hh & Hcase).
      split; [assumption|]. split; [assumption|].
      destruct Hcase as [(l1 & l2 & -> & ? & ?)|[Hst Hall]].
      * left. exists (d0 :: l1), l2. auto.
      * right. split; [assumption|]. constructor; [|assumption].
        intros Heq. rewrite Hh0 in Heq. injection Heq as ->. contradiction.
Qed.

Lemma keys_of_elem (msgs : list record) (hs : list hkey) (h : hkey) :
  keys_of msgs = Some hs ->
  h ∈ hs <-> exists d, d ∈ msgs /\ hash_key (key d) = Some h.
Proof.
  revert hs. induction msgs as [|d0 msgs IH]; intros hs Hk.
  - injection Hk as <-. split; [intros H; inversion H|intros (d & H & _); inversion H].
  - apply keys_of_cons in Hk as (h0 & hs' & Hh0 & Hk' & ->).
    rewrite elem_of_cons, (IH hs' Hk'). split.
    + intros [->|(d & Hd & Hh)]; [exists d0; split; [left|assumption]|].
      exists d. split; [right|]; assumption.
    + intros (d & Hd & Hh). apply elem_of_cons in Hd as [->|Hd]; [left; congruence|].
      right. eauto.
Qed.

Lemma last_with_key_unique (msgs : list record) (h : hkey) (d d' : record) :
  last_with_key msgs h d -> last_with_key msgs h d' -> d = d'.
Proof.
  intros (l1 & l2 & -> & Hd & Hl2) (l1' & l2' & Heq & Hd' & Hl2').
  revert l1' Heq. induction l1 as [|x l1 IH]; intros [|x' l1'] Heq; simpl in Heq.
  - congruence.
  - injection Heq as -> ->. exfalso.
    rewrite Forall_forall in Hl2. apply (Hl2 d'); [|assumption].
    apply elem_of_app. right. left.
  - injection Heq as <- <-. exfalso.
    rewrite Forall_forall in Hl2'. apply (Hl2' d); [|assumption].
    apply elem_of_app. right. left.
  - injection Heq as _ Heq. apply (IH l1'). assumption.
Qed.

Lemma last_with_key_elem (msgs : list record) (h : hkey) (d : record) :
  last_with_key msgs h d -> d ∈ msgs /\ hash_key (key d) = Some h.
Proof.
  intros (l1 & l2 & -> & Hd & _). split; [|assumption]. apply elem_of_app. right. left.
Qed.

Lemma keys_of_batch (data : list (hkey * record)) :
  (forall h d, (h, d) ∈ data -> hash_key (key d) = Some h) ->
  keys_of (map snd data) = Some (map fst data).
Proof.
  induction data as [|[h d] data IH]; intros Hinv; [reflexivity|].
  unfold keys_of in *. simpl. rewrite (Hinv h d) by left. simpl.
  rewrite IH; [reflexivity|]. intros h' d' Hin. apply Hinv. right. assumption.
Qed.

End SelectFacts.
Section ConsumeFacts.
Context {W : Type} {WorldW : World W} {Lib : PyLib}.

(** A poll does not read or write the pending keys. *)
Lemma poll_frame (interval_sec : Z) (ks : gset hkey) (self : Consumer) (n : Net W) :
  poll interval_sec (set_remaining_keys ks self) n
  = (fst (fst (poll interval_sec self n)), set_remaining_keys ks self,
     snd (poll interval_sec self n)).
Proof.
  unfold poll, consume_earliest, bind, sleep, get, lift, Client_request. simpl.
  change (records_request (set_remaining_keys ks self) None None)
    with (records_request self None None).
  destruct (requests_request _ _) as [r0 w'].
  destruct (raise_for_status r0); reflexivity.
Qed.

Lemma poll_inv (interval_sec : Z) (self self' : Consumer) (n n' : Net W)
    (r : result (list record)) :
  poll interval_sec self n = (r, self', n') -> self' = self.
Proof.
  unfold poll, consume_earliest, bind, sleep, get, lift, Client_request. simpl.
  destruct (requests_request _ _) as [r0 w'].
  destruct (raise_for_status r0); intros [= <- <- <-]; reflexivity.
Qed.

Lemma poll_seq_frame (i : nat) (interval_sec : Z) (ks : gset hkey) (self : Consumer)
    (n : Net W) :
  poll_seq i interval_sec (set_remaining_keys ks self) n = poll_seq i interval_sec self n.
Proof.
  revert n. induction i as [|i IH]; intros n; simpl; [reflexivity|].
  rewrite poll_frame.
  destruct (poll interval_sec self n) as [[r self'] n'] eqn:Hp. simpl.
  apply poll_inv in Hp as ->. destruct r; [|reflexivity]. rewrite IH. reflexivity.
Qed.

(** One pass of the loop on a poll whose keys can all be hashed. *)
Lemma consume_pass_spec (interval_sec : Z) (self : Consumer) (n n' : Net W)
    (msgs : list record) (hs : list hkey) :
  poll interval_sec self n = (Ok msgs, self, n') ->
  keys_of msgs = Some hs ->
  exists data,
    select_pending (remaining_keys self) msgs [] = Ok data
    /\ consume_pass interval_sec self n
       = (Ok (map snd data, remaining_keys self ∖ list_to_set hs),
          set_remaining_keys (remaining_keys self ∖ list_to_set hs) self, n').
Proof.
  intros Hp Hk.
  destruct (select_pending_spec (remaining_keys self) msgs hs [] Hk) as
    (data & Hsel & Hnd & Hkeys & Hent).
  { constructor. }
  { intros h d Hin. inversion Hin. }
  exists data. split; [assumption|].
  unfold consume_pass, bind. rewrite Hp. unfold get, lift. rewrite Hsel. unfold put, ret.
  assert (remaining_keys self ∖ dict_keys data = remaining_keys self ∖ list_to_set hs) as ->.
  { rewrite Hkeys. unfold dict_keys. simpl. set_solver. }
  reflexivity.
Qed.

Lemma consume_resume_empty (interval_sec : Z) (self : Consumer) (n : Net W) :
  remaining_keys self = ∅ -> consume_resume interval_sec self n = (Ok None, self, n).
Proof.
  intros He. unfold consume_resume, bind, get. rewrite bool_decide_eq_true_2 by assumption.
  reflexivity.
Qed.

Lemma consume_resume_pass (interval_sec : Z) (self : Consumer) (n : Net W) :
  remaining_keys self <> ∅ ->
  consume_resume interval_sec self n
  = match consume_pass interval_sec self n with
    | (Ok y, self', n') => (Ok (Some y), self', n')
    | (Raise e, self', n') => (Raise e, self', n')
    end.
Proof.
  intros He. unfold consume_resume, bind, get. rewrite bool_decide_eq_false_2 by assumption.
  destruct (consume_pass interval_sec self n) as [[[y|e] self'] n']; reflexivity.
Qed.

Lemma consume_pass_inv (interval_sec : Z) (self self' : Consumer) (n n' : Net W)
    (batch : list record) (pending : gset hkey) :
  consume_pass interval_sec self n = (Ok (batch, pending), self', n') ->
  exists msgs hs data,
    poll interval_sec self n = (Ok msgs, self, n')
    /\ keys_of msgs = Some hs
    /\ select_pending (remaining_keys self) msgs [] = Ok data
    /\ batch = map snd data
    /\ pending = remaining_keys self ∖ list_to_set hs
    /\ self' = set_remaining_keys pending self.
Proof.
  intros Hpass.
  destruct (poll interval_sec self n) as [[[msgs|e] self1] n1] eqn:Hp.
  - pose proof (poll_inv _ _ _ _ _ _ Hp) as ->.
    destruct (keys_of msgs) as [hs|] eqn:Hk.
    + destruct (consume_pass_spec _ _ _ _ _ _ Hp Hk) as (data & Hsel & Heq).
      rewrite Heq in Hpass. injection Hpass as <- <- <- <-.
      exists msgs, hs, data. auto 10.
    + unfold consume_pass, bind in Hpass. rewrite Hp in Hpass.
      unfold get, lift in Hpass. rewrite (keys_of_None _ _ _ Hk) in Hpass. discriminate.
  - unfold consume_pass, bind in Hpass. rewrite Hp in Hpass. discriminate.
Qed.

Lemma next_yield_inv (gen : generator) (self self' : Consumer) (n n' : Net W)
    (batch : list record) (pending : gset hkey) :
  next gen self n = (Ok (Some (batch, pending)), self', n') ->
  exists msgs hs data,
    poll (interval_of gen) (started gen self) n = (Ok msgs, started gen self, n')
    /\ keys_of msgs = Some hs
    /\ select_pending (pending_before gen self) msgs [] = Ok data
    /\ batch = map snd data
    /\ pending = pending_before gen self ∖ list_to_set hs
    /\ self' = set_remaining_keys pending (started gen self)
    /\ pending_before gen self <> ∅.
Proof.
  assert (Hres : forall i s, consume_resume i s n = (Ok (Some (batch, pending)), self', n') ->
            exists msgs hs data,
              poll i s n = (Ok msgs, s, n')
              /\ keys_of msgs = Some hs
              /\ select_pending (remaining_keys s) msgs [] = Ok data
              /\ batch = map snd data
              /\ pending = remaining_keys s ∖ list_to_set hs
              /\ self' = set_remaining_keys pending s
              /\ remaining_keys s <> ∅).
  { intros i s Hr. destruct (decide (remaining_keys s = ∅)) as [He|Hne].
    - rewrite consume_resume_empty in Hr by assumption. discriminate.
    - rewrite consume_resume_pass in Hr by assumption.
      destruct (consume_pass i s n) as [[[[b p]|e] s1] n1] eqn:Hpass; [|discriminate].
      injection Hr as <- <- <- <-.
      destruct (consume_pass_inv _ _ _ _ _ _ _ Hpass) as (msgs & hs & data & ?).
      exists msgs, hs, data. intuition. }
  destruct gen as [keys i|i|]; simpl.
  - unfold consume_start. destruct (i <? 0); [discriminate|].
    unfold bind, lift, get, put. destruct (set_of_list keys) as [ks|e]; [|discriminate].
    intros Hr. apply (Hres i (set_remaining_keys ks self)) in Hr. exact Hr.
  - apply Hres.
  - discriminate.
Qed.

(** C10: a yielded batch holds at most one record per key, and of the
    records of the poll it keeps exactly the last one for each pending key
    that the poll brought: the keys of the batch are pairwise distinct, a
    record is in the batch if and only if it is the last record of the
    poll with its key and that key was pending. *)
Theorem consume_batch_keys_distinct (gen : generator) (self self' : Consumer)
    (n n' : Net W) (batch : list record) (pending : gset hkey) :
  next gen self n = (Ok (Some (batch, pending)), self', n') ->
  exists msgs hs,
    fst (fst (poll (interval_of gen) self n)) = Ok msgs
    /\ keys_of batch = Some hs
    /\ NoDup hs
    /\ forall d, d ∈ batch <->
         exists h, h ∈ pending_before gen self /\ last_with_key msgs h d.
Proof.
  intros Hnext.
  destruct (next_yield_inv _ _ _ _ _ _ _ Hnext)
    as (msgs & hs & data & Hp & Hk & Hsel & -> & _ & _ & _).
  destruct (select_pending_spec (pending_before gen self) msgs hs [] Hk)
    as (data' & Hsel' & Hnd & Hkeys & Hent).
  { constructor. }
  { intros h d Hin. inversion Hin. }
  rewrite Hsel in Hsel'. injection Hsel' as <-.
  exists msgs, (map fst data). split; [|split; [|split]].
  - destruct gen; simpl in *; try (rewrite Hp; reflexivity).
    rewrite poll_frame in Hp. injection Hp as Hr _. exact Hr.
  - apply keys_of_batch. intros h d Hin. apply (Hent h d Hin).
  - assumption.
  - intros d. split.
    + intros Hin. apply list_elem_of_fmap in Hin as ([h d'] & -> & Hin).
      destruct (Hent h d' Hin) as (Hr & _ & [Hlast|[Hnil _]]); [|inversion Hnil].
      exists h. auto.
    + intros (h & Hpend & Hlast).
      destruct (last_with_key_elem _ _ _ Hlast) as [Hd Hh].
      assert (Hin : h ∈ dict_keys data).
      { rewrite Hkeys. apply elem_of_union. right. apply elem_of_intersection.
        split; [|assumption]. apply elem_of_list_to_set.
        apply (keys_of_elem msgs hs h Hk). eauto. }
      unfold dict_keys in Hin. apply elem_of_list_to_set in Hin.
      apply list_elem_of_fmap in Hin as ([h' d'] & Heq & Hin). simpl in Heq. subst h'.
      destruct (Hent h d' Hin) as (_ & _ & [Hlast'|[Hnil _]]); [|inversion Hnil].
      rewrite (last_with_key_unique _ _ _ _ Hlast Hlast').
      apply list_elem_of_fmap. exists (h, d'). auto.
Qed.

(** C3: each yield hands out the set the consumer keeps, a subset of the
    set before; a pending key leaves the set exactly when the poll of that
    pass brought a record with it; and along a run the sets never grow. *)
Theorem pending_keys_shrink :
  (forall (gen : generator) (self self' : Consumer) (n n' : Net W)
          (batch : list record) (pending : gset hkey),
      next gen self n = (Ok (Some (batch, pending)), self', n') ->
      remaining_keys self' = pending
      /\ pending ⊆ pending_before gen self
      /\ exists msgs,
           fst (fst (poll (interval_of gen) self n)) = Ok msgs
           /\ forall k, k ∈ pending_before gen self ->
                (k ∉ pending <-> exists d, d ∈ msgs /\ hash_key (key d) = Some k))
  /\ (forall (fuel : nat) (gen : generator) (self : Consumer) (n : Net W),
        shrinking (pending_before gen self) (fst (fst (fst (consume_run fuel gen self n))))).
Proof.
  assert (Hstep : forall (gen : generator) (self self' : Consumer) (n n' : Net W)
            (batch : list record) (pending : gset hkey),
      next gen self n = (Ok (Some (batch, pending)), self', n') ->
      remaining_keys self' = pending
      /\ pending ⊆ pending_before gen self
      /\ exists msgs,
           fst (fst (poll (interval_of gen) self n)) = Ok msgs
           /\ forall k, k ∈ pending_before gen self ->
                (k ∉ pending <-> exists d, d ∈ msgs /\ hash_key (key d) = Some k)).
  { intros gen self self' n n' batch pending Hnext.
    destruct (next_yield_inv _ _ _ _ _ _ _ Hnext)
      as (msgs & hs & data & Hp & Hk & _ & _ & -> & -> & _).
    split; [reflexivity|]. split; [set_solver|].
    exists msgs. split.
    - destruct gen; simpl in *; try (rewrite Hp; reflexivity).
      rewrite poll_frame in Hp. injection Hp as Hr _. exact Hr.
    - intros k Hin. rewrite <- (keys_of_elem msgs hs k Hk).
      rewrite elem_of_difference, elem_of_list_to_set. split.
      + intros Hn. destruct (decide (k ∈ hs)); [assumption|]. exfalso. auto.
      + intros Hks [_ Hn]. contradiction. }
  split; [exact Hstep|].
  induction fuel as [|fuel IH]; intros gen self n; simpl; [exact I|].
  destruct (next gen self n) as [[[[[batch pending]|]|e] self1] n1] eqn:Hnext;
    simpl; try exact I.
  destruct (Hstep _ _ _ _ _ _ _ Hnext) as (Hrem & Hsub & _).
  specialize (IH (Suspended (interval_of gen)) self1 n1).
  destruct (consume_run fuel _ self1 n1) as [[[ys e] s2] n2]. simpl in *.
  rewrite Hrem in IH. auto.
Qed.

End ConsumeFacts.

Section TerminationFacts.
Context {W : Type} {WorldW : World W} {Lib : PyLib}.

Lemma difference_subseteq_iff (A B C : gset hkey) : A ∖ B ⊆ C <-> A ⊆ B ∪ C.
Proof.
  split; intros H x Hx.
  - destruct (decide (x ∈ B)); [set_solver|]. apply elem_of_union. right. apply H.
    apply elem_of_difference. auto.
  - apply elem_of_difference in Hx as [Hx Hn]. apply H in Hx.
    apply elem_of_union in Hx as [?|?]; [contradiction|assumption].
Qed.

Lemma observed_cons (msgs : list record) (hs : list hkey) (batches : list (list record)) :
  keys_of msgs = Some hs ->
  observed (msgs :: batches) = list_to_set hs ∪ observed batches.
Proof.
  intros Hk. unfold observed. simpl. rewrite Hk. simpl. apply list_to_set_app_L.
Qed.

Lemma poll_seq_succ (i : nat) (interval_sec : Z) (self : Consumer) (n : Net W)
    (batches : list (list record)) :
  poll_seq (S i) interval_sec self n = Some batches ->
  exists msgs n1 rest,
    poll interval_sec self n = (Ok msgs, self, n1)
    /\ poll_seq i interval_sec self n1 = Some rest
    /\ batches = msgs :: rest.
Proof.
  simpl. destruct (poll interval_sec self n) as [[[msgs|e] self1] n1] eqn:Hp; [|discriminate].
  pose proof (poll_inv _ _ _ _ _ _ Hp) as ->.
  destruct (poll_seq i interval_sec self n1) as [rest|] eqn:Hs; [|discriminate].
  intros [= <-]. exists msgs, n1, rest. auto.
Qed.

(** While keys are missing after every one of the first [i] polls, the
    generator yields [i] times and is still suspended. *)
Lemma consume_run_pending (i : nat) (interval_sec : Z) (self : Consumer) (n : Net W)
    (batches : list (list record)) :
  poll_seq i interval_sec self n = Some batches ->
  all_hashable batches ->
  (forall j, (j < i)%nat -> ~ remaining_keys self ⊆ observed (take j batches)) ->
  exists ys self' n',
    consume_run i (Suspended interval_sec) self n = (ys, Pending, self', n')
    /\ length ys = i.
Proof.
  revert self n batches. induction i as [|i IH]; intros self n batches Hseq Hhash Hmiss.
  - exists [], self, n. split; reflexivity.
  - apply poll_seq_succ in Hseq as (msgs & n1 & rest & Hp & Hseq & ->).
    apply Forall_cons in Hhash as [[hs Hk] Hhash].
    assert (Hne : remaining_keys self <> ∅).
    { intros He. apply (Hmiss 0%nat); [lia|]. rewrite He. set_solver. }
    destruct (consume_pass_spec _ _ _ _ _ _ Hp Hk) as (data & _ & Hpass).
    simpl. rewrite consume_resume_pass by assumption. rewrite Hpass.
    set (self1 := set_remaining_keys (remaining_keys self ∖ list_to_set hs) self).
    destruct (IH self1 n1 rest) as (ys & self' & n' & Hrun & Hlen).
    + unfold self1. rewrite poll_seq_frame. assumption.
    + assumption.
    + intros j Hj Hsub. apply (Hmiss (S j)); [lia|]. simpl.
      rewrite (observed_cons _ _ _ Hk). unfold self1 in Hsub. simpl in Hsub.
      apply difference_subseteq_iff. assumption.
    + rewrite Hrun. exists ((map snd data, remaining_keys self ∖ list_to_set hs) :: ys), self', n'.
      split; [reflexivity|]. simpl. congruence.
Qed.

(** Once the polls so far have brought every pending key, the generator
    has ended, right after the first poll that completed the set. *)
Lemma consume_run_exhausted (i : nat) (interval_sec : Z) (self : Consumer) (n : Net W)
    (batches : list (list record)) :
  poll_seq i interval_sec self n = Some batches ->
  all_hashable batches ->
  remaining_keys self ⊆ observed batches ->
  exists m ys self' n',
    (m <= i)%nat
    /\ consume_run (S m) (Suspended interval_sec) self n = (ys, Exhausted, self', n')
    /\ length ys = m
    /\ remaining_keys self' = ∅
    /\ remaining_keys self ⊆ observed (take m batches)
    /\ (forall j, (j < m)%nat -> ~ remaining_keys self ⊆ observed (take j batches)).
Proof.
  revert self n batches. induction i as [|i IH]; intros self n batches Hseq Hhash Hsub.
  - injection Hseq as <-. assert (He : remaining_keys self = ∅) by set_solver.
    exists 0%nat, [], self, n. simpl. rewrite consume_resume_empty by assumption.
    split; [lia|]. split; [reflexivity|]. split; [reflexivity|]. split; [assumption|].
    split; [set_solver|]. intros j Hj. lia.
  - destruct (decide (remaining_keys self = ∅)) as [He|Hne].
    + exists 0%nat, [], self, n. simpl. rewrite consume_resume_empty by assumption.
      split; [lia|]. split; [reflexivity|]. split; [reflexivity|]. split; [assumption|].
      split; [set_solver|]. intros j Hj. lia.
    + apply poll_seq_succ in Hseq as (msgs & n1 & rest & Hp & Hseq & ->).
      apply Forall_cons in Hhash as [[hs Hk] Hhash].
      destruct (consume_pass_spec _ _ _ _ _ _ Hp Hk) as (data & _ & Hpass).
      set (self1 := set_remaining_keys (remaining_keys self ∖ list_to_set hs) self).
      destruct (IH self1 n1 rest) as (m & ys & self' & n' & Hm & Hrun & Hlen & He & Hobs & Hmin).
      * unfold self1. rewrite poll_seq_frame. assumption.
      * assumption.
      * unfold self1. simpl. rewrite (observed_cons _ _ _ Hk) in Hsub.
        apply difference_subseteq_iff. assumption.
      * exists (S m), ((map snd data, remaining_keys self ∖ list_to_set hs) :: ys), self', n'.
        split; [lia|]. split.
        { change (consume_run (S (S m)) (Suspended interval_sec) self n)
            with (match next (Suspended interval_sec) self n with
                  | (Ok (Some y), self', n') =>
                      let '(ys, e, self'', n'') :=
                        consume_run (S m) (Suspended interval_sec) self' n' in
                      (y :: ys, e, self'', n'')
                  | (Ok None, self', n') => ([], Exhausted, self', n')
                  | (Raise e, self', n') => ([], Raised e, self', n')
                  end).
          simpl next. rewrite consume_resume_pass by assumption. rewrite Hpass.
          fold self1. rewrite Hrun. reflexivity. }
        split; [simpl; congruence|]. split; [assumption|]. split.
        { simpl. rewrite (observed_cons _ _ _ Hk). unfold self1 in Hobs. simpl in Hobs.
          apply difference_subseteq_iff. assumption. }
        intros j Hj Hsubj. destruct j as [|j].
        { simpl in Hsubj. apply Hne. set_solver. }
        apply (Hmin j); [lia|]. simpl in Hsubj. rewrite (observed_cons _ _ _ Hk) in Hsubj.
        unfold self1. simpl. apply difference_subseteq_iff. assumption.
Qed.

(** The first [next] of a generator with a valid interval and hashable
    keys stores [set(keys)] and goes on as a resumed one. *)
Lemma consume_run_created (fuel : nat) (keys : list pyval) (interval_sec : Z)
    (ks : gset hkey) (self : Consumer) (n : Net W) :
  0 <= interval_sec ->
  set_of_list keys = Ok ks ->
  consume_run (S fuel) (consume keys interval_sec) self n
  = consume_run (S fuel) (Suspended interval_sec) (set_remaining_keys ks self) n.
Proof.
  intros Hi Hks. simpl. unfold consume_start.
  destruct (interval_sec <? 0) eqn:E; [apply Z.ltb_lt in E; lia|].
  unfold bind at 1, lift at 1. rewrite Hks. unfold bind at 1, get at 1.
  unfold bind at 1, put at 1. reflexivity.
Qed.

(** The runs in which every record key can be hashed.  With a valid
    interval and hashable keys, and as long as the polls return: once the
    polls have brought every requested key the sequence has ended, right
    after the first poll that completed the set, and the consumer's
    pending set is empty; if some requested key never comes, every call
    of [next] yields. *)
Theorem consume_terminates_when_observed (keys : list pyval) (interval_sec : Z)
    (ks : gset hkey) (self : Consumer) (n : Net W) :
  0 <= interval_sec ->
  set_of_list keys = Ok ks ->
  (forall i batches,
      poll_seq i interval_sec self n = Some batches ->
      all_hashable batches ->
      ks ⊆ observed batches ->
      exists m ys self' n',
        (m <= i)%nat
        /\ consume_run (S m) (consume keys interval_sec) self n = (ys, Exhausted, self', n')
        /\ length ys = m
        /\ remaining_keys self' = ∅
        /\ ks ⊆ observed (take m batches)
        /\ (forall j, (j < m)%nat -> ~ ks ⊆ observed (take j batches)))
  /\ (forall k,
        k ∈ ks ->
        (forall i, exists batches,
            poll_seq i interval_sec self n = Some batches
            /\ all_hashable batches
            /\ k ∉ observed batches) ->
        forall fuel, exists ys self' n',
          consume_run fuel (consume keys interval_sec) self n = (ys, Pending, self', n')
          /\ length ys = fuel).
Proof.
  intros Hi Hks. split.
  - intros i batches Hseq Hhash Hsub.
    destruct (consume_run_exhausted i interval_sec (set_remaining_keys ks self) n batches)
      as (m & ys & self' & n' & Hm & Hrun & Hlen & He & Hobs & Hmin).
    + rewrite poll_seq_frame. assumption.
    + assumption.
    + assumption.
    + exists m, ys, self', n'. rewrite (consume_run_created _ _ _ _ _ _ Hi Hks). auto 10.
  - intros k Hk Hnever [|fuel].
    + exists [], self, n. split; reflexivity.
    + destruct (Hnever (S fuel)) as (batches & Hseq & Hhash & Hnot).
      rewrite (consume_run_created _ _ _ _ _ _ Hi Hks).
      apply (consume_run_pending (S fuel) interval_sec (set_remaining_keys ks self) n batches).
      * rewrite poll_seq_frame. assumption.
      * assumption.
      * intros j Hj Hsub. simpl in Hsub. apply Hnot.
        assert (Hin : k ∈ observed (take j batches)) by set_solver.
        unfold observed in *. apply elem_of_list_to_set in Hin. apply elem_of_list_to_set.
        rewrite <- (take_drop j batches), map_app, concat_app. apply elem_of_app. auto.
Qed.

Lemma keys_of_unhashable (msgs : list record) (d : record) :
  d ∈ msgs -> hash_key (key d) = None -> keys_of msgs = None.
Proof.
  intros Hin Hd. destruct (keys_of msgs) as [hs|] eqn:Hk; [|reflexivity].
  exfalso. revert hs Hk. induction Hin as [d msgs|d d0 msgs Hin IH]; intros hs Hk;
    apply keys_of_cons in Hk as (h & hs' & Hh & Hk' & _); [congruence|eauto].
Qed.

(** C2, where the code departs from it: an unrelated record is not always
    passed over.  The membership test hashes the key of every record of a
    poll, so one record whose key decoded to a list or a dict makes the
    generator raise [TypeError].  The sequence then neither ends with an
    empty pending set nor goes on: all requested keys are still pending,
    also those that the very poll brought. *)
Theorem consume_unhashable_key_raises (fuel : nat) (keys : list pyval) (interval_sec : Z)
    (ks : gset hkey) (self : Consumer) (n n1 : Net W) (msgs : list record) (d : record) :
  0 <= interval_sec ->
  set_of_list keys = Ok ks ->
  ks <> ∅ ->
  poll interval_sec self n = (Ok msgs, self, n1) ->
  d ∈ msgs ->
  hash_key (key d) = None ->
  consume_run (S fuel) (consume keys interval_sec) self n
  = ([], Raised TypeError, set_remaining_keys ks self, n1)
  /\ remaining_keys (set_remaining_keys ks self) = ks
  /\ (forall k, k ∈ ks ->
        (exists d', d' ∈ msgs /\ hash_key (key d') = Some k) ->
        k ∈ remaining_keys (set_remaining_keys ks self)).
Proof.
  intros Hi Hks Hne Hp Hin Hd.
  split; [|split; [reflexivity|intros k Hk _; exact Hk]].
  rewrite (consume_run_created _ _ _ _ _ _ Hi Hks).
  cbn [consume_run next]. rewrite consume_resume_pass by assumption.
  unfold consume_pass, bind at 1. rewrite poll_frame, Hp. simpl.
  unfold bind at 1, get at 1, bind at 1, lift at 1. simpl.
  rewrite (keys_of_None _ _ _ (keys_of_unhashable _ _ Hin Hd)). reflexivity.
Qed.

End TerminationFacts.

(** The scripted network after its script: every poll returns at once
    with the fallback answer. *)
Lemma idle_polls (i : nat) (interval_sec : Z) (self : Consumer) (n : Net Ref.Script) :
  Ref.answers (world n) = [] ->
  Ref.fallback (world n) = Ref.ok_json (VList []) ->
  poll_seq i interval_sec self n = Some (repeat [] i).
Proof.
  revert n. induction i as [|i IH]; intros n Ha Hf; [reflexivity|].
  destruct n as [log [a f u sl]]. simpl in Ha, Hf. subst a f.
  cbn [poll_seq]. unfold poll, bind, sleep, consume_earliest, get, lift, Client_request.
  cbn. rewrite IH; reflexivity.
Qed.

Example poll_seq_sample :
  poll_seq 2 5 Sample.consumer Sample.two_polls
  = Some [[Sample.rec1; Sample.rec2; Sample.rec3]; [Sample.rec4]].
Proof. vm_compute. reflexivity. Qed.

Example consume_sample :
  let run := consume_run 5 (consume [VStr "k1"; VStr "k2"] 5) Sample.consumer Sample.two_polls in
  fst (fst (fst run)) = [([Sample.rec3], {[HStr "k2"]}); ([Sample.rec4], ∅)]
  /\ snd (fst (fst run)) = Exhausted
  /\ remaining_keys (snd (fst run)) = ∅
  /\ Ref.slept (world (snd run)) = [5; 5].
Proof. cbv zeta. split; [|split; [|split]]; reflexivity. Qed.

Lemma consume_terminates_when_observed_witness :
  (exists m ys self' n',
      (m <= 2)%nat
      /\ consume_run (S m) (consume [VStr "k1"; VStr "k2"] 5) Sample.consumer Sample.two_polls
         = (ys, Exhausted, self', n')
      /\ length ys = m
      /\ remaining_keys self' = ∅)
  /\ (forall fuel, exists ys self' n',
        consume_run fuel (consume [VStr "k3"] 0) Sample.consumer
                    (Ref.start [] (Ref.ok_json (VList [])))
        = (ys, Pending, self', n')
        /\ length ys = fuel).
Proof.
  split.
  - destruct (consume_terminates_when_observed (W := Ref.Script)
                [VStr "k1"; VStr "k2"] 5 ({[HStr "k1"]} ∪ ({[HStr "k2"]} ∪ ∅))
                Sample.consumer Sample.two_polls ltac:(lia) eq_refl) as [Hterm _].
    destruct (Hterm 2%nat [[Sample.rec1; Sample.rec2; Sample.rec3]; [Sample.rec4]])
      as (m & ys & self' & n' & Hm & Hrun & Hlen & He & _).
    + vm_compute. reflexivity.
    + repeat constructor; eexists; reflexivity.
    + unfold observed. simpl. set_solver.
    + exists m, ys, self', n'. auto.
  - destruct (consume_terminates_when_observed (W := Ref.Script)
                [VStr "k3"] 0 ({[HStr "k3"]} ∪ ∅)
                Sample.consumer (Ref.start [] (Ref.ok_json (VList [])))
                ltac:(lia) eq_refl) as [_ Hnever].
    apply (Hnever (HStr "k3")); [set_solver|].
    intros i. exists (repeat [] i). split; [apply idle_polls; reflexivity|]. split.
    + apply Forall_forall. intros msgs Hin. apply list_elem_of_In, repeat_spec in Hin as ->.
      eexists; reflexivity.
    + unfold observed. clear. induction i as [|i IH]; simpl; [set_solver|assumption].
Defined.

Lemma consume_unhashable_key_raises_witness :
  let run := consume_run 3 (consume [VStr "k1"] 0) Sample.consumer Sample.structured_poll in
  fst (fst (poll 0 Sample.consumer Sample.structured_poll))
  = Ok [Sample.rec1; {| key := VList [VInt 1]; value := VInt 2 |}]
  /\ snd (fst (fst run)) = Raised TypeError
  /\ remaining_keys (snd (fst run)) = {[HStr "k1"]} ∪ ∅.
Proof.
  intros run.
  destruct (consume_unhashable_key_raises (W := Ref.Script) 2 [VStr "k1"] 0
              ({[HStr "k1"]} ∪ ∅) Sample.consumer Sample.structured_poll
              (snd (poll 0 Sample.consumer Sample.structured_poll))
              [Sample.rec1; {| key := VList [VInt 1]; value := VInt 2 |}]
              {| key := VList [VInt 1]; value := VInt 2 |})
    as (Hrun & _ & _).
  - lia.
  - reflexivity.
  - intros He. assert (Hin : HStr "k1" ∈ ({[HStr "k1"]} ∪ ∅ : gset hkey)) by set_solver.
    rewrite He in Hin. set_solver.
  - reflexivity.
  - right. left.
  - reflexivity.
  - split; [reflexivity|]. unfold run. rewrite Hrun. split; reflexivity.
Defined.

Lemma consume_batch_keys_distinct_witness :
  exists msgs hs,
    fst (fst (poll 5 Sample.consumer Sample.two_polls)) = Ok msgs
    /\ keys_of [Sample.rec3] = Some hs
    /\ NoDup hs
    /\ forall d, d ∈ [Sample.rec3] <->
         exists h, h ∈ pending_before (consume [VStr "k1"; VStr "k2"] 5) Sample.consumer
                   /\ last_with_key msgs h d.
Proof.
  apply (consume_batch_keys_distinct (W := Ref.Script)
           (consume [VStr "k1"; VStr "k2"] 5) Sample.consumer
           (snd (fst (next (consume [VStr "k1"; VStr "k2"] 5) Sample.consumer Sample.two_polls)))
           Sample.two_polls
           (snd (next (consume [VStr "k1"; VStr "k2"] 5) Sample.consumer Sample.two_polls))
           [Sample.rec3] {[HStr "k2"]}).
  reflexivity.
Defined.

(** ** Decoding keys and values *)
Section DecodeFacts.
Context {Lib : PyLib}.

Lemma a2b_loop_raises (input : list Z) (quad_pos leftchar pads : Z) (e : exn) :
  Base64.a2b_loop input quad_pos leftchar pads = Raise e -> e = BinasciiError.
Proof.
  revert quad_pos leftchar pads.
  induction input as [|c input IH]; intros quad_pos leftchar pads; simpl.
  - destruct (quad_pos =? 0); [discriminate|]. intros [= <-]. reflexivity.
  - destruct (c =? Base64.BASE64_PAD).
    + destruct (quad_pos <? 2); [apply IH|].
      destruct (4 <=? quad_pos + (pads + 1)); [discriminate|apply IH].
    + destruct (Base64.table_a2b_base64 c) as [v|]; [|apply IH].
      destruct (quad_pos =? 0); [apply IH|].
      assert (Hemit : forall x q l p,
                 Base64.emit x (Base64.a2b_loop input q l p) = Raise e -> e = BinasciiError).
      { intros x q l p. unfold Base64.emit, rbind.
        destruct (Base64.a2b_loop input q l p) eqn:E; [discriminate|].
        intros [= <-]. exact (IH _ _ _ E). }
      destruct (quad_pos =? 1); [apply Hemit|].
      destruct (quad_pos =? 2); apply Hemit.
Qed.

Lemma b64decode_raises (s : string) (e : exn) :
  Base64.b64decode s = Raise e ->
  e = BinasciiError \/ exists msg, e = ValueError msg.
Proof.
  unfold Base64.b64decode. destruct (is_ascii s).
  - unfold Base64.a2b_base64, rbind.
    destruct (Base64.a2b_loop _ 0 0 0) eqn:E; [discriminate|].
    intros [= <-]. left. exact (a2b_loop_raises _ _ _ _ _ E).
  - intros [= <-]. right. eauto.
Qed.

(** A string that is JSON decodes to the parsed value. *)
Lemma decode_base64_json (s : string) (v : pyval) :
  json_loads s = Ok v -> decode_base64 (VStr s) = Ok v.
Proof. intros H. simpl. rewrite H. reflexivity. Qed.

(** Base64 of JSON decodes to the parsed value. *)
Lemma decode_base64_b64json (s : string) (bs : list byte) (v : pyval) :
  json_loads s = Raise JSONDecodeError ->
  Base64.b64decode s = Ok bs ->
  json_loads_bytes bs = Ok v ->
  decode_base64 (VStr s) = Ok v.
Proof. intros H1 H2 H3. simpl. rewrite H1, H2. simpl. rewrite H3. reflexivity. Qed.

(** Base64 of bytes that are no text: the string itself. *)
Lemma decode_base64_unicode (s : string) (bs : list byte) :
  json_loads s = Raise JSONDecodeError ->
  Base64.b64decode s = Ok bs ->
  json_loads_bytes bs = Raise UnicodeDecodeError ->
  decode_base64 (VStr s) = Ok (VStr s).
Proof. intros H1 H2 H3. simpl. rewrite H1, H2. simpl. rewrite H3. reflexivity. Qed.

(** Base64 of text that is no JSON: the decoded bytes. *)
Lemma decode_base64_bytes (s : string) (bs : list byte) :
  json_loads s = Raise JSONDecodeError ->
  Base64.b64decode s = Ok bs ->
  json_loads_bytes bs = Raise JSONDecodeError ->
  decode_base64 (VStr s) = Ok (VBytes bs).
Proof. intros H1 H2 H3. simpl. rewrite H1, H2. simpl. rewrite H3. reflexivity. Qed.

(** C4, where the code departs from it: when the string is not JSON and
    is not base64 either, [b64decode] raises [binascii.Error] (or
    [ValueError] on a non-ASCII string), neither handler catches it, and
    [decode_base64] raises instead of returning the string. *)
Theorem decode_base64_undecodable (s : string) (e : exn) :
  json_loads s = Raise JSONDecodeError ->
  Base64.b64decode s = Raise e ->
  decode_base64 (VStr s) = Raise e.
Proof.
  intros H1 H2. simpl. rewrite H1, H2. simpl.
  destruct (b64decode_raises s e H2) as [->|[msg ->]]; reflexivity.
Qed.

End DecodeFacts.

Lemma decode_base64_undecodable_witness :
  decode_base64 (Lib := Ref.lib) (VStr "hello") = Raise BinasciiError.
Proof.
  apply (decode_base64_undecodable (Lib := Ref.lib) "hello" BinasciiError); reflexivity.
Defined.

(** ** Reading the latest record *)
Section LatestFacts.
Context {W : Type} {WorldW : World W} {Lib : PyLib}.

Lemma append_cancel (p a b : string) : (p ++ a)%string = (p ++ b)%string -> a = b.
Proof. induction p as [|c p IH]; simpl; [auto|]. intros [= H]. auto. Qed.

Lemma instance_url_not_offsets (self : Consumer) (rest : string) (p : pyval) :
  url (prepare (c_client self)
         {| method := "POST"; url := instance_url self ++ rest; headers := [];
            data := None; params := None |})
  <> offsets_url self p.
Proof.
  unfold offsets_url, prepare, offsets_request, instance_url. simpl.
  intros H. apply append_cancel in H. discriminate.
Qed.

Lemma partitions_url_not_offsets (self : Consumer) (p : pyval) :
  (kafka_rest_api_url (c_client self) ++ "/topics/" ++ topic_id (c_client self)
     ++ "/partitions")%string
  <> offsets_url self p.
Proof.
  unfold offsets_url, prepare, offsets_request. simpl.
  intros H. do 3 apply append_cancel in H. discriminate.
Qed.

Lemma filter_none {A} (P : A -> Prop) `{forall x, Decision (P x)} (l : list A) :
  (forall x, x ∈ l -> ~ P x) -> filter P l = [].
Proof.
  induction l as [|a l IH]; intros Hn; [reflexivity|].
  rewrite filter_cons_False by (apply Hn; left).
  apply IH. intros x Hx. apply Hn. right. assumption.
Qed.

Lemma end_offset_alt (r0 : result Response) :
  end_offset r0
  = rbind (rbind (raise_for_status r0) json)
          (fun offsets => rbind (getitem offsets "end_offset") as_int).
Proof. unfold end_offset. destruct (raise_for_status r0); reflexivity. Qed.

Lemma offsets_inv (topic : string) (partid : pyval) (self self' : Consumer)
    (n n' : Net W) (r : result pyval) :
  offsets topic partid self n = (r, self', n') ->
  self' = self
  /\ exists r0,
       sent n' = (sent n ++ [(prepare (c_client self) (offsets_request topic partid), r0)])%list
       /\ r = rbind (raise_for_status r0) json.
Proof.
  unfold offsets, bind, get, lift.
  destruct (Client_request _ _ self n) as [[r1 s1] n1] eqn:E.
  apply Client_request_inv in E as [-> (r0 & -> & Hlog)].
  intros Heq. assert (self' = self /\ n' = n1 /\ r = rbind (raise_for_status r0) json) as (-> & -> & ->).
  { destruct (raise_for_status r0); injection Heq as <- <- <-; auto. }
  split; [reflexivity|]. exists r0. split; [assumption|reflexivity].
Qed.

Lemma seek_inv (topic : string) (position offset : pyval) (self self' : Consumer)
    (n n' : Net W) (r : result unit) :
  seek topic position offset self n = (r, self', n') ->
  self' = self
  /\ exists new,
       sent n' = (sent n ++ new)%list
       /\ (length new <= 1)%nat
       /\ forall x p, x ∈ new -> url (fst x) <> offsets_url self p.
Proof.
  unfold seek, bind, get, lift.
  destruct (json_dumps _) as [payload|e].
  - destruct (Client_request _ _ self n) as [[r1 s1] n1] eqn:E.
    apply Client_request_inv in E as [-> (r0 & -> & Hlog)].
    intros Heq. assert (self' = self /\ n' = n1) as [-> ->].
    { destruct (raise_for_status r0); injection Heq as <- <- <-; auto. }
    split; [reflexivity|]. eexists. split; [exact Hlog|]. split; [simpl; lia|].
    intros x p Hx. apply list_elem_of_singleton in Hx as ->.
    apply (instance_url_not_offsets self "/positions" p).
  - intros [= <- <- <-]. split; [reflexivity|]. exists []. rewrite app_nil_r.
    split; [reflexivity|]. split; [simpl; lia|]. intros x p Hx. inversion Hx.
Qed.

Lemma consume_earliest_inv (self self' : Consumer) (n n' : Net W)
    (r : result (list record)) :
  consume_earliest None None self n = (r, self', n') ->
  self' = self
  /\ exists r0,
       sent n' = (sent n ++ [(prepare (c_client self) (records_request self None None), r0)])%list
       /\ r = rbind (raise_for_status r0) records_of_response.
Proof.
  unfold consume_earliest, bind, get, lift.
  destruct (Client_request _ _ self n) as [[r1 s1] n1] eqn:E.
  apply Client_request_inv in E as [-> (r0 & -> & Hlog)].
  intros Heq. assert (self' = self /\ n' = n1 /\ r = rbind (raise_for_status r0) records_of_response) as (-> & -> & ->).
  { destruct (raise_for_status r0); injection Heq as <- <- <-; auto. }
  split; [reflexivity|]. exists r0. split; [assumption|reflexivity].
Qed.


(** One pass of the retry loop, started with no record in hand. *)
Lemma latest_attempt_spec (partid : pyval) (self self' : Consumer) (n n' : Net W)
    (r : result (bool * option record)) :
  latest_attempt partid None self n = (r, self', n') ->
  self' = self
  /\ exists r0 rest,
       sent n' = (sent n ++ (prepare (c_client self)
                               (offsets_request (topic_id (c_client self)) partid), r0)
                            :: rest)%list
       /\ (length rest <= 2)%nat
       /\ (forall x p, x ∈ rest -> url (fst x) <> offsets_url self p)
       /\ ((exists z, end_offset r0 = Ok z /\ z <= 0) -> r = Ok (true, None))
       /\ (forall b rec, r = Ok (b, Some rec) ->
             b = true /\ exists x, x ∈ rest /\ brings self x rec)
       /\ (forall rd, r = Ok (false, rd) -> rd = None).
Proof.
  unfold latest_attempt. unfold bind at 1, get at 1. unfold bind at 1.
  destruct (offsets _ partid self n) as [[ro s1] n1] eqn:Eo.
  apply offsets_inv in Eo as (-> & r0 & Hlog1 & ->).
  pose proof (end_offset_alt r0) as Hend.
  destruct (rbind (raise_for_status r0) json) as [offs|e].
  2:{ intros [= <- <- <-]. split; [reflexivity|]. exists r0, [].
      split; [assumption|]. split; [simpl; lia|]. split; [intros x p Hx; inversion Hx|].
      split; [intros (z & Hz & _); rewrite Hend in Hz; discriminate|].
      split; intros; discriminate. }
  unfold bind at 1, lift at 1. simpl in Hend.
  destruct (rbind (getitem offs "end_offset") as_int) as [z|e].
  2:{ intros [= <- <- <-]. split; [reflexivity|]. exists r0, [].
      split; [assumption|]. split; [simpl; lia|]. split; [intros x p Hx; inversion Hx|].
      split; [intros (z & Hz & _); rewrite Hend in Hz; discriminate|].
      split; intros; discriminate. }
  destruct (z <=? 0) eqn:Hz.
  { intros [= <- <- <-]. split; [reflexivity|]. exists r0, [].
    split; [assumption|]. split; [simpl; lia|]. split; [intros x p Hx; inversion Hx|].
    split; [reflexivity|]. split; intros; discriminate. }
  apply Z.leb_gt in Hz.
  assert (Hnot : (exists z', end_offset r0 = Ok z' /\ z' <= 0) -> False).
  { intros (z' & Hz' & Hle). rewrite Hend in Hz'. injection Hz' as <-. lia. }
  unfold bind at 1.
  destruct (seek _ partid (VInt (z - 1)) self n1) as [[rs s2] n2] eqn:Es.
  apply seek_inv in Es as (-> & new & Hlog2 & Hlen2 & Hurl2).
  destruct rs as [[]|e].
  2:{ intros [= <- <- <-]. split; [reflexivity|]. exists r0, new.
      split; [rewrite Hlog2, Hlog1, <- app_assoc; reflexivity|].
      split; [lia|]. split; [assumption|].
      split; [intros H; destruct (Hnot H)|]. split; intros; discriminate. }
  unfold bind at 1.
  destruct (consume_earliest None None self n2) as [[rc s3] n3] eqn:Ec.
  apply consume_earliest_inv in Ec as (-> & r1 & Hlog3 & ->).
  set (x := (prepare (c_client self) (records_request self None None), r1)) in *.
  assert (Hlog : sent n3 = (sent n ++ (prepare (c_client self)
                 (offsets_request (topic_id (c_client self)) partid), r0)
                 :: (new ++ [x]))%list).
  { rewrite Hlog3, Hlog2, Hlog1, <- !app_assoc. reflexivity. }
  assert (Hurls : forall y p, y ∈ (new ++ [x])%list -> url (fst y) <> offsets_url self p).
  { intros y p Hy. apply elem_of_app in Hy as [Hy|Hy]; [apply Hurl2; assumption|].
    apply list_elem_of_singleton in Hy as ->.
    apply (instance_url_not_offsets self "/records" p). }
  destruct (rbind (raise_for_status r1) records_of_response) as [msgs|e] eqn:Er.
  2:{ intros [= <- <- <-]. split; [reflexivity|]. exists r0, (new ++ [x])%list.
      split; [assumption|]. split; [rewrite length_app; simpl; lia|]. split; [assumption|].
      split; [intros H; destruct (Hnot H)|]. split; intros; discriminate. }
  intros [= <- <- <-]. split; [reflexivity|]. exists r0, (new ++ [x])%list.
  split; [assumption|]. split; [rewrite length_app; simpl; lia|]. split; [assumption|].
  split; [intros H; destruct (Hnot H)|]. split.
  - intros b rec [= <- Hrec]. rewrite Hrec. split; [reflexivity|].
    exists x. split; [apply elem_of_app; right; left|].
    split; [reflexivity|]. exists msgs. auto.
  - intros rd [= Hb <-]. apply bool_decide_eq_false in Hb.
    destruct (keep_last msgs None); [exfalso; apply Hb; discriminate|reflexivity].
Qed.

(** The retry loop: at most [retry] passes, each with one offsets query;
    an empty answer ends it with no record; a record comes from a poll. *)
Lemma latest_loop_spec (retry : nat) (partid : pyval) (self self' : Consumer)
    (n n' : Net W) (r : result (option record)) :
  latest_loop retry partid None self n = (r, self', n') ->
  self' = self
  /\ exists new,
       sent n' = (sent n ++ new)%list
       /\ (forall p, length (offsets_queries self p new) <= retry)%nat
       /\ (length new <= 3 * retry)%nat
       /\ ((exists x p, x ∈ new /\ url (fst x) = offsets_url self p /\ reports_empty x) ->
           r = Ok None)
       /\ (forall rec, r = Ok (Some rec) -> exists x, x ∈ new /\ brings self x rec).
Proof.
  revert n. induction retry as [|retry IH]; intros n; simpl.
  - intros [= <- <- <-]. split; [reflexivity|]. exists []. rewrite app_nil_r.
    split; [reflexivity|]. split; [intros p; simpl; lia|]. split; [simpl; lia|].
    split; [intros (x & p & Hx & _); inversion Hx|]. intros rec Heq. discriminate.
  - unfold bind at 1, try_except.
    destruct (latest_attempt partid None self n) as [[ra s1] n1] eqn:Ea.
    apply latest_attempt_spec in Ea
      as (-> & r0 & rest & Hlog & Hlen & Hurls & Hempty & Hrec & Hnone).
    set (q := (prepare (c_client self)
                 (offsets_request (topic_id (c_client self)) partid), r0)) in *.
    assert (Hcount : forall p, (length (offsets_queries self p (q :: rest)) <= 1)%nat).
    { intros p. unfold offsets_queries. rewrite filter_cons.
      rewrite (filter_none _ rest) by (intros y Hy; apply Hurls; assumption).
      destruct (decide _); simpl; lia. }
    assert (Hstop : forall res, (r, self', n') = (res, self, n1) ->
              ((exists z, end_offset r0 = Ok z /\ z <= 0) -> res = Ok None) ->
              (forall rec, res = Ok (Some rec) -> exists x, x ∈ rest /\ brings self x rec) ->
              self' = self
              /\ exists new,
                   sent n' = (sent n ++ new)%list
                   /\ (forall p, length (offsets_queries self p new) <= S retry)%nat
                   /\ (length new <= 3 * S retry)%nat
                   /\ ((exists x p, x ∈ new /\ url (fst x) = offsets_url self p
                                    /\ reports_empty x) -> r = Ok None)
                   /\ (forall rec, r = Ok (Some rec) ->
                         exists x, x ∈ new /\ brings self x rec)).
    { intros res [= -> -> ->] He Hr. split; [reflexivity|]. exists (q :: rest).
      split; [assumption|]. split; [intros p; specialize (Hcount p); lia|].
      split; [simpl; lia|]. split.
      - intros (x & p & Hx & Hu & Hre). apply elem_of_cons in Hx as [->|Hx].
        + apply He. exact Hre.
        + destruct (Hurls x p Hx Hu).
      - intros rec Heq. destruct (Hr rec Heq) as (x & Hx & Hb).
        exists x. split; [right; assumption|assumption]. }
    assert (Hgo : latest_loop retry partid None self n1 = (r, self', n') ->
              ((exists z, end_offset r0 = Ok z /\ z <= 0) -> False) ->
              self' = self
              /\ exists new,
                   sent n' = (sent n ++ new)%list
                   /\ (forall p, length (offsets_queries self p new) <= S retry)%nat
                   /\ (length new <= 3 * S retry)%nat
                   /\ ((exists x p, x ∈ new /\ url (fst x) = offsets_url self p
                                    /\ reports_empty x) -> r = Ok None)
                   /\ (forall rec, r = Ok (Some rec) ->
                         exists x, x ∈ new /\ brings self x rec)).
    { intros Hloop Hne.
      destruct (IH n1 Hloop) as (-> & new & Hlog' & Hcnt' & Hlen' & Hemp' & Hrec').
      split; [reflexivity|]. exists ((q :: rest) ++ new)%list.
      split; [rewrite Hlog', Hlog, <- app_assoc; reflexivity|]. split.
      { intros p. unfold offsets_queries in *. rewrite filter_app, length_app.
        specialize (Hcount p). specialize (Hcnt' p). unfold offsets_queries in Hcount. lia. }
      split; [rewrite length_app; simpl; simpl in Hlen'; lia|]. split.
      - intros (x & p & Hx & Hu & Hre). apply elem_of_app in Hx as [Hx|Hx].
        + apply elem_of_cons in Hx as [->|Hx]; [destruct (Hne Hre)|destruct (Hurls x p Hx Hu)].
        + apply Hemp'. eauto.
      - intros rec Heq. destruct (Hrec' rec Heq) as (x & Hx & Hb).
        exists x. split; [apply elem_of_app; right; assumption|assumption]. }
    destruct ra as [[b rd]|e]; simpl.
    + destruct b.
      * intros Heq. apply (Hstop (Ok rd)); [symmetry; exact Heq| |].
        -- intros He. specialize (Hempty He). congruence.
        -- intros rec [= ->]. destruct (Hrec true rec eq_refl) as [_ Hx]. exact Hx.
      * rewrite (Hnone rd eq_refl). intros Hloop. apply Hgo; [exact Hloop|].
        intros He. specialize (Hempty He). discriminate.
    + destruct (is_HTTPError e).
      * simpl. intros Hloop. apply Hgo; [exact Hloop|].
        intros He. specialize (Hempty He). discriminate.
      * intros Heq. apply (Hstop (Raise e)); [symmetry; exact Heq| |].
        -- intros He. specialize (Hempty He). discriminate.
        -- intros rec Hd. discriminate.
Qed.


Lemma partitions_inv (topic : string) (self self' : Consumer) (n n' : Net W) (r : result pyval) :
  topic = topic_id (c_client self) ->
  partitions topic self n = (r, self', n') ->
  self' = self
  /\ exists new,
       sent n' = (sent n ++ new)%list
       /\ (length new <= 1)%nat
       /\ forall x p, x ∈ new -> url (fst x) <> offsets_url self p.
Proof.
  intros ->. unfold partitions, bind, get, lift.
  destruct (Client_request _ _ self n) as [[r1 s1] n1] eqn:E.
  apply Client_request_inv in E as [-> (r0 & -> & Hlog)].
  intros Heq. assert (self' = self /\ n' = n1) as [-> ->].
  { destruct (raise_for_status r0); injection Heq as <- <- <-; auto. }
  split; [reflexivity|]. eexists. split; [exact Hlog|]. split; [simpl; lia|].
  intros x p Hx. apply list_elem_of_singleton in Hx as ->.
  apply partitions_url_not_offsets.
Qed.

Lemma assign_inv (parts : pyval) (self self' : Consumer) (n n' : Net W) (r : result unit) :
  assign parts self n = (r, self', n') ->
  self' = self
  /\ exists new,
       sent n' = (sent n ++ new)%list
       /\ (length new <= 1)%nat
       /\ forall x p, x ∈ new -> url (fst x) <> offsets_url self p.
Proof.
  unfold assign, bind, get, lift.
  destruct (json_dumps _) as [payload|e].
  - destruct (Client_request _ _ self n) as [[r1 s1] n1] eqn:E.
    apply Client_request_inv in E as [-> (r0 & -> & Hlog)].
    intros Heq. assert (self' = self /\ n' = n1) as [-> ->].
    { destruct (raise_for_status r0); injection Heq as <- <- <-; auto. }
    split; [reflexivity|]. eexists. split; [exact Hlog|]. split; [simpl; lia|].
    intros x p Hx. apply list_elem_of_singleton in Hx as ->.
    apply (instance_url_not_offsets self "/assignments" p).
  - intros [= <- <- <-]. split; [reflexivity|]. exists []. rewrite app_nil_r.
    split; [reflexivity|]. split; [simpl; lia|]. intros x p Hx. inversion Hx.
Qed.

(** C1: [consume_latest] leaves the consumer as it was; among the
    exchanges of the call there are at most ten offsets queries, one per
    pass of the retry loop; when one of them reports an [end_offset] of
    zero or less the call returns [None]; and a record is returned only
    if a poll of this call brought it, so with no record seen the value
    returned is [None]. *)
Theorem consume_latest_bounded (self self' : Consumer) (n n' : Net W)
    (r : result (option record)) :
  consume_latest self n = (r, self', n') ->
  self' = self
  /\ exists new,
       sent n' = (sent n ++ new)%list
       /\ (forall p, length (offsets_queries self p new) <= 10)%nat
       /\ (length new <= 32)%nat
       /\ ((exists x p, x ∈ new /\ url (fst x) = offsets_url self p /\ reports_empty x) ->
           r = Ok None)
       /\ (forall rec, r = Ok (Some rec) -> exists x, x ∈ new /\ brings self x rec).
Proof.
  unfold consume_latest. unfold bind at 1, get at 1. unfold bind at 1.
  destruct (partitions _ self n) as [[rp s1] n1] eqn:Ep.
  apply partitions_inv in Ep as (-> & new1 & Hlog1 & Hlen1 & Hurl1); [|reflexivity].
  assert (Hfail : forall e new,
            sent n' = (sent n ++ new)%list -> (length new <= 2)%nat ->
            (forall x p, x ∈ new -> url (fst x) <> offsets_url self p) ->
            r = Raise e ->
            exists new,
              sent n' = (sent n ++ new)%list
              /\ (forall p, length (offsets_queries self p new) <= 10)%nat
              /\ (length new <= 32)%nat
              /\ ((exists x p, x ∈ new /\ url (fst x) = offsets_url self p
                               /\ reports_empty x) -> r = Ok None)
              /\ (forall rec, r = Ok (Some rec) -> exists x, x ∈ new /\ brings self x rec)).
  { intros e new Hlog Hlen Hurl ->. exists new. split; [assumption|]. split.
    { intros p. unfold offsets_queries.
      rewrite filter_none by (intros y Hy; apply Hurl; assumption). simpl. lia. }
    split; [lia|]. split.
    - intros (x & p & Hx & Hu & _). destruct (Hurl x p Hx Hu).
    - intros rec Hd. discriminate. }
  destruct rp as [parts|e].
  2:{ intros [= <- <- <-]. split; [reflexivity|].
      apply (Hfail e new1); [assumption|lia|assumption|reflexivity]. }
  unfold bind at 1, lift at 1.
  destruct (rbind (getitem0 parts) (fun p => getitem p "partition")) as [partid|e].
  2:{ intros [= <- <- <-]. split; [reflexivity|].
      apply (Hfail e new1); [assumption|lia|assumption|reflexivity]. }
  unfold bind at 1.
  destruct (assign _ self n1) as [[rassign s2] n2] eqn:Eas.
  apply assign_inv in Eas as (-> & new2 & Hlog2 & Hlen2 & Hurl2).
  assert (Hurl12 : forall x p, x ∈ (new1 ++ new2)%list -> url (fst x) <> offsets_url self p).
  { intros x p Hx. apply elem_of_app in Hx as [Hx|Hx]; [apply Hurl1|apply Hurl2]; assumption. }
  destruct rassign as [[]|e].
  2:{ intros [= <- <- <-]. split; [reflexivity|].
      apply (Hfail e (new1 ++ new2)%list);
        [rewrite Hlog2, Hlog1, <- app_assoc; reflexivity
        |rewrite length_app; lia|assumption|reflexivity]. }
  intros Hloop. apply latest_loop_spec in Hloop
    as (-> & new & Hlog & Hcnt & Hlen & Hemp & Hrec).
  split; [reflexivity|]. exists ((new1 ++ new2) ++ new)%list.
  split; [rewrite Hlog, Hlog2, Hlog1, <- !app_assoc; reflexivity|]. split.
  { intros p. unfold offsets_queries in *. rewrite filter_app, length_app.
    rewrite (filter_none _ (new1 ++ new2)%list) by (intros y Hy; apply Hurl12; assumption).
    specialize (Hcnt p). simpl. lia. }
  split; [rewrite !length_app; lia|]. split.
  - intros (x & p & Hx & Hu & Hre). apply elem_of_app in Hx as [Hx|Hx].
    + destruct (Hurl12 x p Hx Hu).
    + apply Hemp. eauto.
  - intros rec Heq. destruct (Hrec rec Heq) as (x & Hx & Hb).
    exists x. split; [apply elem_of_app; right; assumption|assumption].
Qed.

End LatestFacts.

Example consume_latest_busy :
  let run := consume_latest Sample.consumer Sample.busy_partition in
  fst run = (Ok (Some Sample.rec4), Sample.consumer)
  /\ map (fun x => (method (fst x), url (fst x))) (sent (snd run))
     = [("GET", "http://proxy:8082/topics/events/partitions");
        ("POST", "http://proxy:8082/consumers/group/instances/instance/assignments");
        ("GET", "http://proxy:8082/topics/events/partitions/0/offsets");
        ("POST", "http://proxy:8082/consumers/group/instances/instance/positions");
        ("GET", "http://proxy:8082/topics/events/partitions/0/offsets");
        ("POST", "http://proxy:8082/consumers/group/instances/instance/positions");
        ("GET", "http://proxy:8082/consumers/group/instances/instance/records")].
Proof. vm_compute. split; reflexivity. Qed.

Lemma consume_latest_bounded_witness :
  fst (fst (consume_latest Sample.consumer Sample.empty_partition)) = Ok None
  /\ (length (sent (snd (consume_latest Sample.consumer Sample.empty_partition))) <= 32)%nat.
Proof.
  destruct (consume_latest_bounded (W := Ref.Script) Sample.consumer
              (snd (fst (consume_latest Sample.consumer Sample.empty_partition)))
              Sample.empty_partition
              (snd (consume_latest Sample.consumer Sample.empty_partition))
              (fst (fst (consume_latest Sample.consumer Sample.empty_partition))))
    as (_ & new & Hlog & _ & Hlen & Hemp & _).
  - vm_compute. reflexivity.
  - assert (Hnew : new = sent (snd (consume_latest Sample.consumer Sample.empty_partition)))
      by (rewrite Hlog; reflexivity).
    subst new. split; [|exact Hlen].
    apply Hemp.
    exists (prepare Sample.client (offsets_request "events" (VInt 0)),
            Sample.offsets_answer 0), (VInt 0).
    split; [vm_compute; do 2 apply list_elem_of_further; apply list_elem_of_here|].
    split; [reflexivity|]. exists 0. split; [reflexivity|lia].
Defined.

(** ** The base64 codec *)
Section Base64Facts.
Import Base64.

Lemma all_below_spec (n : nat) (P : Z -> bool) :
  all_below n P = true -> forall z, 0 <= z < Z.of_nat n -> P z = true.
Proof.
  unfold all_below. intros H z Hz. rewrite forallb_forall in H. apply H.
  apply in_map_iff. exists (Z.to_nat z). split; [lia|]. apply in_seq. lia.
Qed.

Lemma all_below2_spec (n m : nat) (P : Z -> Z -> bool) :
  all_below n (fun a => all_below m (P a)) = true ->
  forall a b, 0 <= a < Z.of_nat n -> 0 <= b < Z.of_nat m -> P a b = true.
Proof.
  intros H a b Ha Hb.
  apply (all_below_spec m (P a)); [|assumption].
  apply (all_below_spec n (fun a => all_below m (P a))); assumption.
Qed.

(** The two tables are inverse on the 64 values, and no value is the pad. *)
Lemma table_roundtrip (v : Z) :
  0 <= v < 64 ->
  table_a2b_base64 (table_b2a_base64 v) = Some v
  /\ table_b2a_base64 v <> BASE64_PAD
  /\ 0 <= table_b2a_base64 v < 128.
Proof.
  intros Hv.
  assert (H : all_below 64 (fun v =>
            match table_a2b_base64 (table_b2a_base64 v) with
            | Some v' => v' =? v
            | None => false
            end
            && negb (table_b2a_base64 v =? BASE64_PAD)
            && (0 <=? table_b2a_base64 v) && (table_b2a_base64 v <? 128)) = true)
    by (vm_compute; reflexivity).
  apply all_below_spec with (z := v) in H; [|simpl; lia].
  apply andb_prop in H as [H H4]. apply andb_prop in H as [H H3].
  apply andb_prop in H as [H1 H2].
  destruct (table_a2b_base64 (table_b2a_base64 v)) as [v'|]; [|discriminate].
  apply Z.eqb_eq in H1. apply negb_true_iff, Z.eqb_neq in H2.
  apply Z.leb_le in H3. apply Z.ltb_lt in H4. subst. auto.
Qed.

(** The sextets of bytes are 6-bit values, and the decoder's shifts and
    masks take them apart into the pieces of the bytes. *)
Lemma sextets_spec (a b : Z) :
  0 <= a < 256 -> 0 <= b < 256 ->
  (0 <= sextet0 a < 64 /\ 0 <= sextet1 a b < 64
   /\ 0 <= sextet2 a b < 64 /\ 0 <= sextet3 a < 64)
  /\ (Z.shiftr (sextet1 a b) 4 = Z.land a 3
      /\ Z.land (sextet1 a b) 15 = Z.shiftr b 4
      /\ Z.shiftr (sextet2 a b) 2 = Z.land a 15
      /\ Z.land (sextet2 a b) 3 = Z.shiftr b 6)
  /\ (uchar (Z.lor (Z.shiftl (sextet0 a) 2) (Z.land a 3)) = a
      /\ uchar (Z.lor (Z.shiftl (Z.shiftr a 4) 4) (Z.land a 15)) = a
      /\ uchar (Z.lor (Z.shiftl (Z.shiftr a 6) 6) (sextet3 a)) = a).
Proof.
  intros Ha Hb.
  assert (H : all_below 256 (fun a => all_below 256 (sextets_check a)) = true)
    by (vm_compute; reflexivity).
  apply all_below2_spec with (a := a) (b := b) in H; [|simpl; lia|simpl; lia].
  unfold sextets_check in H.
  repeat match type of H with
         | (_ && _) = true => let H' := fresh in apply andb_prop in H as [H H']
         end.
  repeat match goal with
         | H : (_ <=? _) = true |- _ => apply Z.leb_le in H
         | H : (_ <? _) = true |- _ => apply Z.ltb_lt in H
         | H : (_ =? _) = true |- _ => apply Z.eqb_eq in H
         end.
  auto 20.
Qed.

(** The decoder on one alphabet character. *)
Lemma a2b_loop_value (v : Z) (rest : list Z) (quad_pos leftchar pads : Z) :
  0 <= v < 64 ->
  a2b_loop (table_b2a_base64 v :: rest) quad_pos leftchar pads
  = if quad_pos =? 0 then a2b_loop rest 1 v 0
    else if quad_pos =? 1 then
      emit (uchar (Z.lor (Z.shiftl leftchar 2) (Z.shiftr v 4)))
           (a2b_loop rest 2 (Z.land v 15) 0)
    else if quad_pos =? 2 then
      emit (uchar (Z.lor (Z.shiftl leftchar 4) (Z.shiftr v 2)))
           (a2b_loop rest 3 (Z.land v 3) 0)
    else
      emit (uchar (Z.lor (Z.shiftl leftchar 6) v))
           (a2b_loop rest 0 0 0).
Proof.
  intros Hv. destruct (table_roundtrip v Hv) as (Ht & Hp & _).
  cbn [a2b_loop]. apply Z.eqb_neq in Hp. rewrite Hp, Ht. reflexivity.
Qed.

(** Decoding what three bytes encode to gives the three bytes back and
    leaves the decoder at the start of a quad. *)
Lemma a2b_loop_quad (a b c : Z) (rest : list Z) :
  0 <= a < 256 -> 0 <= b < 256 -> 0 <= c < 256 ->
  a2b_loop (table_b2a_base64 (sextet0 a) :: table_b2a_base64 (sextet1 a b)
            :: table_b2a_base64 (sextet2 b c) :: table_b2a_base64 (sextet3 c) :: rest) 0 0 0
  = emit a (emit b (emit c (a2b_loop rest 0 0 0))).
Proof.
  intros Ha Hb Hc.
  destruct (sextets_spec a b Ha Hb) as ((R0 & R1 & _ & _) & (E1 & E2 & _ & _) & (U0 & _ & _)).
  destruct (sextets_spec b c Hb Hc) as ((_ & _ & R2 & _) & (_ & _ & E3 & E4) & (_ & U1 & _)).
  destruct (sextets_spec c c Hc Hc) as ((_ & _ & _ & R3) & _ & (_ & _ & U2)).
  rewrite !a2b_loop_value by assumption. simpl.
  rewrite E1, E2, E3, E4, U0, U1, U2. reflexivity.
Qed.

Lemma b2a_one (a : Z) : b2a_base64 [a]
  = [table_b2a_base64 (sextet0 a); table_b2a_base64 (sextet1 a 0); BASE64_PAD; BASE64_PAD].
Proof. unfold sextet1. simpl. rewrite Z.lor_0_r. reflexivity. Qed.

Lemma b2a_two (a b : Z) : b2a_base64 [a; b]
  = [table_b2a_base64 (sextet0 a); table_b2a_base64 (sextet1 a b);
     table_b2a_base64 (sextet2 b 0); BASE64_PAD].
Proof. unfold sextet2. simpl. rewrite Z.lor_0_r. reflexivity. Qed.

(** Decoding undoes encoding. *)
Lemma a2b_b2a (data : list Z) :
  Forall is_byte data -> a2b_base64 (b2a_base64 data) = Ok data.
Proof.
  unfold a2b_base64.
  assert (H : forall n data, (length data <= n)%nat -> Forall is_byte data ->
                a2b_loop (b2a_base64 data) 0 0 0 = Ok data).
  { clear data. induction n as [|n IH]; intros data Hlen Hall.
    - destruct data; [reflexivity|simpl in Hlen; lia].
    - destruct data as [|a [|b [|c rest]]].
      + reflexivity.
      + apply Forall_cons in Hall as [Ha _].
        assert (H0 : is_byte 0) by (unfold is_byte; lia).
        destruct (sextets_spec a 0 Ha H0) as ((R0 & R1 & _ & _) & (E1 & E2 & _ & _) & (U0 & _ & _)).
        rewrite b2a_one, !a2b_loop_value by assumption. simpl.
        rewrite E1, U0. reflexivity.
      + apply Forall_cons in Hall as [Ha Hall]. apply Forall_cons in Hall as [Hb _].
        assert (H0 : is_byte 0) by (unfold is_byte; lia).
        destruct (sextets_spec a b Ha Hb) as ((R0 & R1 & _ & _) & (E1 & E2 & _ & _) & (U0 & _ & _)).
        destruct (sextets_spec b 0 Hb H0) as ((_ & _ & R2 & _) & (_ & _ & E3 & E4) & (_ & U1 & _)).
        rewrite b2a_two, !a2b_loop_value by assumption. simpl.
        rewrite E1, E2, E3, U0, U1. reflexivity.
      + apply Forall_cons in Hall as [Ha Hall]. apply Forall_cons in Hall as [Hb Hall].
        apply Forall_cons in Hall as [Hc Hall].
        change (b2a_base64 (a :: b :: c :: rest))
          with (table_b2a_base64 (sextet0 a) :: table_b2a_base64 (sextet1 a b)
                :: table_b2a_base64 (sextet2 b c) :: table_b2a_base64 (sextet3 c)
                :: b2a_base64 rest).
        rewrite a2b_loop_quad by assumption.
        rewrite IH; [reflexivity| |assumption]. simpl in Hlen. lia. }
  intros Hall. apply (H (length data)); [lia|assumption].
Qed.

(** The encoder writes ASCII only. *)
Lemma b2a_ascii (data : list Z) :
  Forall is_byte data -> Forall (fun z => 0 <= z < 128) (b2a_base64 data).
Proof.
  assert (Hpad : 0 <= BASE64_PAD < 128) by (unfold BASE64_PAD; lia).
  assert (H0 : is_byte 0) by (unfold is_byte; lia).
  assert (H : forall n data, (length data <= n)%nat -> Forall is_byte data ->
                Forall (fun z => 0 <= z < 128) (b2a_base64 data)).
  { clear data. induction n as [|n IH]; intros data Hlen Hall.
    - destruct data; [constructor|simpl in Hlen; lia].
    - destruct data as [|a [|b [|c rest]]].
      + constructor.
      + apply Forall_cons in Hall as [Ha _].
        destruct (sextets_spec a 0 Ha H0) as ((R0 & R1 & _ & _) & _).
        rewrite b2a_one. repeat constructor; try apply table_roundtrip; assumption || lia.
      + apply Forall_cons in Hall as [Ha Hall]. apply Forall_cons in Hall as [Hb _].
        destruct (sextets_spec a b Ha Hb) as ((R0 & R1 & _ & _) & _).
        destruct (sextets_spec b 0 Hb H0) as ((_ & _ & R2 & _) & _).
        rewrite b2a_two. repeat constructor; try apply table_roundtrip; assumption || lia.
      + apply Forall_cons in Hall as [Ha Hall]. apply Forall_cons in Hall as [Hb Hall].
        apply Forall_cons in Hall as [Hc Hall].
        destruct (sextets_spec a b Ha Hb) as ((R0 & R1 & _ & _) & _).
        destruct (sextets_spec b c Hb Hc) as ((_ & _ & R2 & _) & _).
        destruct (sextets_spec c c Hc Hc) as ((_ & _ & _ & R3) & _).
        change (b2a_base64 (a :: b :: c :: rest))
          with (table_b2a_base64 (sextet0 a) :: table_b2a_base64 (sextet1 a b)
                :: table_b2a_base64 (sextet2 b c) :: table_b2a_base64 (sextet3 c)
                :: b2a_base64 rest).
        repeat (constructor; [apply table_roundtrip; assumption|]).
        apply IH; [simpl in Hlen; lia|assumption]. }
  intros Hall. apply (H (length data)); [lia|assumption].
Qed.

Lemma code_char (z : Z) : 0 <= z < 256 -> code (ascii_of_N (Z.to_N z)) = z.
Proof.
  intros Hz. unfold code. rewrite N_ascii_embedding by lia. lia.
Qed.

Lemma codes_of_text (l : list Z) :
  Forall (fun z => 0 <= z < 128) l ->
  map code (list_ascii_of_string (text_of_codes l)) = l
  /\ is_ascii (text_of_codes l) = true.
Proof.
  unfold text_of_codes, is_ascii. rewrite list_ascii_of_string_of_list_ascii.
  induction 1 as [|z l Hz Hl [IH1 IH2]]; [split; reflexivity|].
  simpl. rewrite code_char by lia. rewrite IH1, IH2. split; [reflexivity|].
  apply andb_true_intro. split; [apply Z.ltb_lt; lia|reflexivity].
Qed.

Lemma Z_of_byte_range (b : byte) : is_byte (Z_of_byte b).
Proof.
  unfold is_byte, Z_of_byte. pose proof (Byte.to_N_bounded b). lia.
Qed.

Lemma byte_of_Z_of_byte (b : byte) : byte_of_Z (Z_of_byte b) = b.
Proof.
  unfold byte_of_Z, Z_of_byte. rewrite N2Z.id, Byte.of_to_N. reflexivity.
Qed.

(** [b64decode(b64encode(data).decode()) == data] *)
Lemma b64decode_b64encode (data : list byte) :
  b64decode (b64encode data) = Ok data.
Proof.
  unfold b64decode, b64encode.
  assert (Hall : Forall is_byte (map Z_of_byte data)).
  { apply Forall_forall. intros z Hz. apply list_elem_of_fmap in Hz as (b & -> & _).
    apply Z_of_byte_range. }
  destruct (codes_of_text _ (b2a_ascii _ Hall)) as [-> ->].
  rewrite a2b_b2a by assumption. simpl. f_equal.
  rewrite map_map. rewrite <- (map_id data) at 2. apply map_ext. apply byte_of_Z_of_byte.
Qed.

(** *** Base64 text is not JSON text *)

Lemma not_start_spec (a b c : Z) :
  0 <= a < 128 -> 0 <= b < 128 -> 0 <= c < 128 ->
  let c0 := char (table_b2a_base64 (sextet0 a)) in
  let c1 := char (table_b2a_base64 (sextet1 a b)) in
  Ref.is_ws c0 = false
  /\ Ref.start3 c0 c1 (char (table_b2a_base64 (sextet2 b c))) = false
  /\ Ref.start3 c0 c1 (char (table_b2a_base64 (sextet2 b 0))) = false
  /\ Ref.start3 c0 c1 (char BASE64_PAD) = false.
Proof.
  intros Ha Hb Hc.
  assert (H : all_below 128 (fun a => all_below 128 (fun b =>
                all_below 2 (not_start_check a b))) = true) by (vm_compute; reflexivity).
  assert (Hall : forall a b h, 0 <= a < 128 -> 0 <= b < 128 -> 0 <= h < 2 ->
                   not_start_check a b h = true).
  { intros a' b' h' Ha' Hb' Hh'.
    apply (all_below_spec 2 (not_start_check a' b')); [|simpl; lia].
    apply (all_below2_spec 128 128 (fun a b => all_below 2 (not_start_check a b)));
      [exact H|simpl; lia|simpl; lia]. }
  assert (Hh : 0 <= Z.shiftr c 6 < 2).
  { pose proof (Hall c c 0 Hc Hc ltac:(lia)) as Hcc. unfold not_start_check in Hcc.
    apply andb_prop in Hcc as [Hcc H2]. apply andb_prop in Hcc as [_ H1].
    apply Z.leb_le in H1. apply Z.ltb_lt in H2. lia. }
  pose proof (Hall a b (Z.shiftr c 6) Ha Hb Hh) as H1.
  pose proof (Hall a b 0 Ha Hb ltac:(lia)) as H2.
  unfold not_start_check in H1, H2. cbv zeta in H1, H2.
  repeat match goal with
         | H : (_ && _) = true |- _ => let H' := fresh in apply andb_prop in H as [H H']
         | H : negb _ = true |- _ => apply negb_true_iff in H
         end.
  cbv zeta. unfold sextet2. change (Z.shiftr 0 6) with 0. auto.
Qed.

Lemma has_prefix_3 (lit : string) (l0 l1 l2 c0 c1 c2 : ascii) (tail rest : list ascii) :
  list_ascii_of_string lit = l0 :: l1 :: l2 :: tail ->
  Ref.has_prefix lit (c0 :: c1 :: c2 :: rest) = true ->
  c0 = l0 /\ c1 = l1 /\ c2 = l2.
Proof.
  unfold Ref.has_prefix, Ref.starts_with. intros ->.
  case_bool_decide as H; [|discriminate]. intros _.
  cbn [length take] in H. injection H as -> -> -> _. auto.
Qed.

Lemma json_start_3 (c0 c1 c2 : ascii) (rest : list ascii) :
  Ref.is_ws c0 = false ->
  Ref.json_start (string_of_list_ascii (c0 :: c1 :: c2 :: rest)) = true ->
  Ref.start3 c0 c1 c2 = true.
Proof.
  unfold Ref.json_start, Ref.start3. rewrite list_ascii_of_string_of_list_ascii.
  cbn [Ref.skip_ws]. intros ->.
  destruct (Ref.is_digit c0); [reflexivity|]. simpl orb.
  intros H.
  assert (Hp : forall lit l0 l1 l2 tail,
            list_ascii_of_string lit = l0 :: l1 :: l2 :: tail ->
            Ref.has_prefix lit (c0 :: c1 :: c2 :: rest) = true ->
            c0 = l0 /\ c1 = l1 /\ c2 = l2) by (intros; eapply has_prefix_3; eassumption).
  destruct c0 as [[] [] [] [] [] [] [] []]; try discriminate H; try reflexivity;
    match type of H with
    | Ref.has_prefix ?lit _ = true =>
        destruct (Hp lit _ _ _ _ eq_refl H) as (_ & -> & ->); reflexivity
    end.
Qed.

(** The base64 text of ASCII bytes never starts like a JSON value. *)
Lemma b64_text_not_json (data : list Z) :
  Forall (fun z => 0 <= z < 128) data ->
  Ref.json_start (text_of_codes (b2a_base64 data)) = false.
Proof.
  intros Hall. destruct data as [|a [|b [|c rest]]]; [reflexivity| | |].
  - apply Forall_cons in Hall as [Ha _].
    destruct (not_start_spec a 0 0 Ha ltac:(lia) ltac:(lia)) as (Hws & _ & _ & Hs).
    rewrite b2a_one. apply not_true_is_false. intros H.
    apply json_start_3 in H; [|exact Hws].
    fold (char (table_b2a_base64 (sextet0 a))) in H.
    change (ascii_of_N (Z.to_N (table_b2a_base64 (sextet1 a 0))))
      with (char (table_b2a_base64 (sextet1 a 0))) in H.
    change (ascii_of_N (Z.to_N BASE64_PAD)) with (char BASE64_PAD) in H.
    congruence.
  - apply Forall_cons in Hall as [Ha Hall]. apply Forall_cons in Hall as [Hb _].
    destruct (not_start_spec a b 0 Ha Hb ltac:(lia)) as (Hws & _ & Hs & _).
    rewrite b2a_two. apply not_true_is_false. intros H.
    apply json_start_3 in H; [|exact Hws].
    change (Ref.start3 (char (table_b2a_base64 (sextet0 a)))
              (char (table_b2a_base64 (sextet1 a b)))
              (char (table_b2a_base64 (sextet2 b 0))) = true) in H.
    congruence.
  - apply Forall_cons in Hall as [Ha Hall]. apply Forall_cons in Hall as [Hb Hall].
    apply Forall_cons in Hall as [Hc _].
    destruct (not_start_spec a b c Ha Hb Hc) as (Hws & Hs & _ & _).
    apply not_true_is_false. intros H.
    change (b2a_base64 (a :: b :: c :: rest))
      with (table_b2a_base64 (sextet0 a) :: table_b2a_base64 (sextet1 a b)
            :: table_b2a_base64 (sextet2 b c) :: table_b2a_base64 (sextet3 c)
            :: b2a_base64 rest) in H.
    apply json_start_3 in H; [|exact Hws].
    change (Ref.start3 (char (table_b2a_base64 (sextet0 a)))
              (char (table_b2a_base64 (sextet1 a b)))
              (char (table_b2a_base64 (sextet2 b c))) = true) in H.
    congruence.
Qed.

End Base64Facts.

Section RoundtripFacts.
Context {Lib : PyLib}.

Lemma Z_of_byte_of_Z (z : Z) : 0 <= z < 256 -> Z_of_byte (byte_of_Z z) = z.
Proof.
  intros Hz. unfold Z_of_byte, byte_of_Z.
  destruct (Byte.of_N (Z.to_N z)) as [b|] eqn:E.
  - apply Byte.to_of_N in E. lia.
  - apply Byte.of_N_None_iff in E. lia.
Qed.

Lemma encode_utf8_ascii (text : string) :
  is_ascii text = true ->
  Forall (fun z => 0 <= z < 128) (map Z_of_byte (encode_utf8 text)).
Proof.
  unfold is_ascii, encode_utf8.
  induction (list_ascii_of_string text) as [|c cs IH]; simpl; [constructor|].
  intros H. apply andb_prop in H as [Hc Hcs]. unfold utf8_char. rewrite Hc. simpl.
  apply Z.ltb_lt in Hc. assert (0 <= code c) by (unfold code; lia).
  constructor; [rewrite Z_of_byte_of_Z; lia|auto].
Qed.

(** C5: for a JSON library that rejects, with [JSONDecodeError], every
    text that does not start like a JSON value: a value whose
    serialization is ASCII and which the library reads back from it is
    returned by [decode_base64] from the base64 text of the
    serialization; and a string that is JSON decodes to the parsed value. *)
Theorem decode_base64_roundtrip :
  (forall s, Ref.json_start s = false -> json_loads s = Raise JSONDecodeError) ->
  (forall v text,
      json_dumps v = Ok text ->
      is_ascii text = true ->
      json_loads_bytes (encode_utf8 text) = Ok v ->
      decode_base64 (VStr (Base64.b64encode (encode_utf8 text))) = Ok v)
  /\ (forall s v, json_loads s = Ok v -> decode_base64 (VStr s) = Ok v).
Proof.
  intros Hlaw. split.
  - intros v text _ Hascii Hloads.
    apply (decode_base64_b64json _ (encode_utf8 text)).
    + apply Hlaw. unfold Base64.b64encode. apply b64_text_not_json.
      apply encode_utf8_ascii. assumption.
    + apply b64decode_b64encode.
    + assumption.
  - intros s v. apply decode_base64_json.
Qed.

End RoundtripFacts.

(** The reference reader rejects what does not start like a JSON value. *)
Lemma Ref_loads_start (s : string) :
  Ref.json_start s = false -> Ref.loads s = Raise JSONDecodeError.
Proof.
  unfold Ref.json_start, Ref.loads.
  destruct (2 * length (list_ascii_of_string s) + 2)%nat as [|fuel] eqn:E; [lia|]. clear E.
  destruct (Ref.skip_ws (list_ascii_of_string s)) as [|c rest]; [reflexivity|].
  intros H. apply orb_false_elim in H as [Hd H].
  assert (Hint : Ref.read_int false (c :: rest) = Raise JSONDecodeError).
  { unfold Ref.read_int. rewrite Hd.
    destruct c as [[] [] [] [] [] [] [] []]; try reflexivity; discriminate Hd. }
  assert (Hlit : forall lit v, Ref.has_prefix lit (c :: rest) = false ->
                   Ref.literal lit v (c :: rest) = Raise JSONDecodeError).
  { intros lit v. unfold Ref.has_prefix, Ref.literal.
    destruct (Ref.starts_with _ _); [discriminate|reflexivity]. }
  destruct c as [[] [] [] [] [] [] [] []]; try discriminate H;
    cbn [Ref.read_value]; try (rewrite Hint; reflexivity);
    try (rewrite (Hlit _ _ H); reflexivity).
Qed.

Lemma decode_base64_roundtrip_witness :
  decode_base64 (Lib := Ref.lib)
    (VStr (Base64.b64encode (encode_utf8 (Ref.js "{'a': [1, 'x', null]}"))))
  = Ok (VDict [("a", VList [VInt 1; VStr "x"; VNone])])
  /\ decode_base64 (Lib := Ref.lib) (VStr (Ref.js "{'a': [1, 'x', null]}"))
     = Ok (VDict [("a", VList [VInt 1; VStr "x"; VNone])]).
Proof.
  destruct (decode_base64_roundtrip (Lib := Ref.lib) Ref_loads_start) as [Hb64 Hjson].
  split.
  - apply Hb64; reflexivity.
  - apply Hjson. reflexivity.
Defined.

(** * Further properties of the module *)

(** ** Construction and transport *)
Section ClientFacts.

Lemma header_get_set_eq (d : list (string * string)) (k v : string) :
  header_get (header_set d k v) k = Some v.
Proof.
  induction d as [|[k' v'] d IH]; simpl.
  - rewrite String.eqb_refl. reflexivity.
  - destruct (String.eqb k' k) eqn:E; simpl; rewrite E; [reflexivity|assumption].
Qed.

Lemma header_get_set_ne (d : list (string * string)) (k k0 v : string) :
  k0 <> k -> header_get (header_set d k0 v) k = header_get d k.
Proof.
  intros Hne. induction d as [|[k' v'] d IH]; simpl.
  - apply String.eqb_neq in Hne. rewrite Hne. reflexivity.
  - destruct (String.eqb k' k0) eqn:E; simpl.
    + apply String.eqb_eq in E. subst k'.
      apply String.eqb_neq in Hne. rewrite Hne. reflexivity.
    + destruct (String.eqb k' k); [reflexivity|assumption].
Qed.

Lemma header_mem_get (d : list (string * string)) (k : string) :
  header_mem k d = true <-> is_Some (header_get d k).
Proof.
  induction d as [|[k' v'] d IH]; simpl.
  - split; [discriminate|intros [x Hx]; discriminate].
  - destruct (String.eqb k' k); simpl; [split; eauto|exact IH].
Qed.

(** X1: the environment goes before the arguments: a client is built
    exactly from the variable when it is set, from the argument
    otherwise, and its URL and topic are never empty. *)
Theorem Client_init_environ_first (environ : Environ) (kwargs : Kwargs) (c : Client) :
  Client_init environ kwargs = Ok c ->
  kafka_rest_api_url c <> "" /\ topic_id c <> ""
  /\ (forall u, environ "KAFKA_REST_API_URL" = Some u -> kafka_rest_api_url c = u)
  /\ (environ "KAFKA_REST_API_URL" = None ->
      kw_kafka_rest_api_url kwargs = Some (kafka_rest_api_url c))
  /\ (forall t, environ "TOPIC_ID" = Some t -> topic_id c = t)
  /\ (environ "TOPIC_ID" = None -> kw_topic_id kwargs = Some (topic_id c)).
Proof.
  unfold Client_init, environ_get.
  destruct (environ "KAFKA_REST_API_URL") as [u|] eqn:Eu;
    destruct (environ "TOPIC_ID") as [t|] eqn:Et;
    repeat match goal with
           | |- context [match ?x with _ => _ end] =>
               match x with
               | kw_kafka_rest_api_url _ => destruct x as [[|? ?]|] eqn:?
               | kw_topic_id _ => destruct x as [[|? ?]|] eqn:?
               | u => destruct u
               | t => destruct t
               end
           end;
    try discriminate; intros [= <-]; simpl;
    repeat split; try discriminate; try congruence.
Qed.

(** X2: a variable that is set but empty fails the construction, whatever
    the argument says; so does a missing URL or topic. *)
Theorem Client_init_missing (environ : Environ) (kwargs : Kwargs) :
  (environ "KAFKA_REST_API_URL" = Some ""
   \/ (environ "KAFKA_REST_API_URL" = None
       /\ (kw_kafka_rest_api_url kwargs = None \/ kw_kafka_rest_api_url kwargs = Some ""))) ->
  Client_init environ kwargs = Raise missing_url.
Proof.
  unfold Client_init, environ_get.
  intros [->|[-> [->| ->]]]; reflexivity.
Qed.

(** X3: with a user name and a password the [Authorization] header is
    the basic one made of them, whatever the given headers said; the API
    key of the environment is added only where the headers have none. *)
Theorem init_auth_headers_spec (environ : Environ) (kwargs : Kwargs) :
  (forall username password,
      kw_username_password kwargs = Some (username, password) ->
      header_get (init_auth_headers environ kwargs) "Authorization"
      = Some (generate_basic_auth username password))
  /\ (forall c k,
        environ "X_API_KEY" = Some (String c k) ->
        header_get (init_auth_headers environ kwargs) "x-api-key"
        = Some (match header_get (match kw_auth_headers kwargs with
                                  | Some h => h
                                  | None => []
                                  end) "x-api-key" with
                | Some v => v
                | None => String c k
                end)).
Proof.
  unfold init_auth_headers. split.
  - intros username password ->.
    set (auth := header_set _ "Authorization" _).
    assert (H : header_get auth "Authorization" = Some (generate_basic_auth username password))
      by apply header_get_set_eq.
    destruct (environ "X_API_KEY") as [[|c k]|]; try exact H.
    destruct (header_mem "x-api-key" auth); [exact H|].
    rewrite header_get_set_ne by discriminate. exact H.
  - intros c k ->.
    set (given := match kw_auth_headers kwargs with Some h => h | None => [] end).
    set (auth := match kw_username_password kwargs with
                 | Some (username, password) => _
                 | None => given
                 end).
    assert (Hsame : header_get auth "x-api-key" = header_get given "x-api-key").
    { unfold auth. destruct (kw_username_password kwargs) as [[u p]|]; [|reflexivity].
      apply header_get_set_ne. discriminate. }
    destruct (header_mem "x-api-key" auth) eqn:Hm.
    + apply header_mem_get in Hm as [v Hv]. rewrite <- Hsame, Hv. reflexivity.
    + rewrite header_get_set_eq. rewrite <- Hsame.
      destruct (header_get auth "x-api-key") eqn:Hg; [|reflexivity].
      assert (header_mem "x-api-key" auth = true) by (apply header_mem_get; eauto).
      congruence.
Qed.

(** X4: the token of the basic authentication header decodes to
    [username:password]. *)
Theorem basic_auth_roundtrip (username password : string) :
  exists token,
    generate_basic_auth username password = "Basic " ++ token
    /\ Base64.b64decode token = Ok (encode_utf8 (username ++ ":" ++ password)).
Proof.
  eexists. split; [reflexivity|]. apply b64decode_b64encode.
Qed.


End ClientFacts.

Section RequestFacts.
Context {W : Type} {WorldW : World W}.


End RequestFacts.

Lemma Client_init_environ_first_witness :
  exists c,
    Client_init RefFiles.environ RefFiles.kwargs = Ok c
    /\ kafka_rest_api_url c = "http://env:8082"
    /\ topic_id c = "events".
Proof.
  eexists. split; [reflexivity|].
  destruct (Client_init_environ_first RefFiles.environ RefFiles.kwargs _ eq_refl)
    as (_ & _ & Hu & _ & _ & Ht).
  split; [apply Hu; reflexivity|].
  specialize (Ht eq_refl). reflexivity.
Defined.

Lemma Client_init_missing_witness :
  Client_init (fun name => if String.eqb name "KAFKA_REST_API_URL" then Some "" else None)
              RefFiles.kwargs
  = Raise missing_url.
Proof.
  apply Client_init_missing. left. reflexivity.
Defined.


(** ** Producing *)
Section ProducerOutcome.
Context {W : Type} {WorldW : World W} {Lib : PyLib}.

Lemma manage_keys_ok {S} (len : nat) (keys : option (list pyval)) (s s' : S)
    (n n' : Net W) (ks : list pyval) :
  manage_keys len keys s n = (Ok ks, s', n') ->
  length ks = len /\ (forall k keys', keys = Some (k :: keys') -> ks = k :: keys').
Proof.
  unfold manage_keys.
  assert (Hgen : (let '(l, w') := uuid_keys len (world n) in
                  (Ok l, s, {| sent := sent n; world := w' |})) = (Ok ks, s', n') ->
                 length ks = len).
  { pose proof (uuid_keys_length len (world n)) as Hlen.
    destruct (uuid_keys len (world n)) as [l w']. intros [= <- _ _]. exact Hlen. }
  destruct keys as [[|k keys']|].
  - intros H. split; [auto|]. intros ? ? [=].
  - destruct (Nat.eqb (length (k :: keys')) len) eqn:E; simpl; [|discriminate].
    intros [= <- _ _]. apply Nat.eqb_eq in E. split; [assumption|].
    intros ? ? [= <- <-]. reflexivity.
  - intros H. split; [auto|]. intros ? ? [=].
Qed.

(** What a call of [produce] leaves behind, for the proofs below. *)
Lemma produce_inv (self self' : Producer) (n n' : Net W)
    (messages : list pyval) (endpoint : string) (keys : option (list pyval))
    (key_schema value_schema : option string) (r : result (list pyval)) :
  produce messages endpoint keys key_schema value_schema self n = (r, self', n') ->
  match r with
  | Ok ks =>
      length ks = length messages
      /\ (forall k keys', keys = Some (k :: keys') -> ks = k :: keys')
      /\ key_last_request self' = ks
      /\ key_history self' = (key_history self ++ ks)%list
      /\ p_client self' = p_client self
      /\ contect_type self' = contect_type self
      /\ max_data_bytes self' = max_data_bytes self
      /\ exists record_data response req,
           json_dumps (produce_records ks messages key_schema value_schema) = Ok record_data
           /\ sent n' = (sent n ++ [(req, Ok response)])%list
           /\ http_error_status (status_code response) = false
           /\ method req = "POST"
           /\ url req = (kafka_rest_api_url (p_client self) ++ "/topics/"
                         ++ topic_id (p_client self))%string
           /\ data req = Some record_data
  | Raise e =>
      self' = self
      /\ (sent n' = sent n
          \/ exists req r0, sent n' = (sent n ++ [(req, r0)])%list
                            /\ raise_for_status r0 = Raise e)
  end.
Proof.
  unfold produce, bind at 1, get at 1, bind at 1.
  destruct (manage_keys (length messages) keys self n) as [[[ks|e] s1] n1] eqn:Hkeys.
  2:{ apply manage_keys_inv in Hkeys as [-> Hs]. intros [= <- <- <-]. auto. }
  pose proof (manage_keys_ok _ _ _ _ _ _ _ Hkeys) as [Hlen Hgiven].
  apply manage_keys_inv in Hkeys as [-> Hs1].
  unfold bind at 1, lift at 1.
  destruct (json_dumps (produce_records ks messages key_schema value_schema))
    as [record_data|e] eqn:Hdumps.
  2:{ intros [= <- <- <-]. auto. }
  unfold bind at 1.
  destruct (check_data_size (encode_utf8 record_data) self n1) as [[[[]|e] s2] n2] eqn:Hsize.
  2:{ unfold check_data_size, bind, get, lift, raise, ret in Hsize.
      destruct (as_int (max_data_bytes self)) as [limit|e0].
      - destruct (limit <? _); [|discriminate].
        injection Hsize as <- <- <-. intros [= <- <- <-]. auto.
      - injection Hsize as <- <- <-. intros [= <- <- <-]. auto. }
  assert (s2 = self /\ n2 = n1) as [-> ->].
  { unfold check_data_size, bind, get, lift, raise, ret in Hsize.
    destruct (as_int (max_data_bytes self)) as [limit|e0]; [|discriminate].
    destruct (limit <? _); [discriminate|]. injection Hsize as <- <-. auto. }
  unfold bind at 1.
  destruct (Client_request (p_client self) (produce_request self record_data) self n1)
    as [[[response|e] s3] n3] eqn:Hreq.
  - apply Client_request_inv in Hreq as (-> & r0 & Hr0 & Hlog).
    unfold bind, get, put, ret. intros [= <- <- <-]. simpl.
    repeat (split; [try reflexivity; assumption|]).
    exists record_data, response, (prepare (p_client self) (produce_request self record_data)).
    split; [assumption|].
    destruct r0 as [resp0|e0]; [|discriminate]. unfold raise_for_status, rbind in Hr0.
    destruct (http_error_status (status_code resp0)) eqn:Hst; [discriminate|].
    injection Hr0 as ->. rewrite Hlog, Hs1.
    split; [reflexivity|]. split; [assumption|]. repeat split.
  - apply Client_request_inv in Hreq as (-> & r0 & Hr0 & Hlog).
    intros [= <- <- <-]. split; [reflexivity|]. right.
    exists (prepare (p_client self) (produce_request self record_data)), r0.
    rewrite Hlog, Hs1. auto.
Qed.

(** X6: what a call of [produce] leaves behind.  When it returns, one
    [POST] to the topic of the producer went out and was accepted, there
    is one key per message, the given keys when some were given, and the
    keys are the last request's and the tail of the history.  When it
    raises, the producer is as before and at most the one refused
    exchange was added.  The [endpoint] argument plays no part. *)
Theorem produce_outcome (self self' : Producer) (n n' : Net W)
    (messages : list pyval) (endpoint : string) (keys : option (list pyval))
    (key_schema value_schema : option string) (r : result (list pyval)) :
  produce messages endpoint keys key_schema value_schema self n = (r, self', n') ->
  match r with
  | Ok ks =>
      length ks = length messages
      /\ (forall k keys', keys = Some (k :: keys') -> ks = k :: keys')
      /\ key_last_request self' = ks
      /\ key_history self' = (key_history self ++ ks)%list
      /\ p_client self' = p_client self
      /\ contect_type self' = contect_type self
      /\ max_data_bytes self' = max_data_bytes self
      /\ exists record_data response req,
           json_dumps (produce_records ks messages key_schema value_schema) = Ok record_data
           /\ sent n' = (sent n ++ [(req, Ok response)])%list
           /\ http_error_status (status_code response) = false
           /\ method req = "POST"
           /\ url req = (kafka_rest_api_url (p_client self) ++ "/topics/"
                         ++ topic_id (p_client self))%string
           /\ data req = Some record_data
  | Raise e =>
      self' = self
      /\ (sent n' = sent n
          \/ exists req r0, sent n' = (sent n ++ [(req, r0)])%list
                            /\ raise_for_status r0 = Raise e)
  end.
Proof. apply produce_inv. Qed.

(** X7: a producer whose limit was read from the environment never sends:
    the limit is a [str] then, and every call raises before the request,
    [TypeError] as soon as the keys and the body are in order. *)
Theorem environ_limit_blocks_produce (env : string) (producer_data_max_size : Z)
    (client : Client) (self' : Producer) (n n' : Net W)
    (messages : list pyval) (endpoint : string) (keys : option (list pyval))
    (key_schema value_schema : option string) (r : result (list pyval)) :
  let self := Producer_init (Some env) producer_data_max_size client in
  produce messages endpoint keys key_schema value_schema self n = (r, self', n') ->
  self' = self /\ sent n' = sent n
  /\ exists e, r = Raise e
       /\ forall ks n1 record_data,
            manage_keys (length messages) keys self n = (Ok ks, self, n1) ->
            json_dumps (produce_records ks messages key_schema value_schema) = Ok record_data ->
            e = TypeError.
Proof.
  intros self. unfold produce, bind at 1, get at 1, bind at 1.
  destruct (manage_keys (length messages) keys self n) as [[[ks|e] s1] n1] eqn:Hkeys.
  2:{ apply manage_keys_inv in Hkeys as [-> Hs]. intros [= <- <- <-].
      split; [reflexivity|]. split; [assumption|]. exists e. split; [reflexivity|].
      intros ? ? ? [=]. }
  apply manage_keys_inv in Hkeys as Hinv. destruct Hinv as [-> Hs1].
  unfold bind at 1, lift at 1.
  destruct (json_dumps (produce_records ks messages key_schema value_schema))
    as [record_data|e] eqn:Hdumps.
  2:{ intros [= <- <- <-]. split; [reflexivity|]. split; [assumption|].
      exists e. split; [reflexivity|]. intros ks' n1' rd' [= -> _]. congruence. }
  unfold bind at 1, check_data_size, bind at 1, get at 1, bind at 1, lift at 1. simpl.
  intros [= <- <- <-]. split; [reflexivity|]. split; [assumption|].
  exists TypeError. auto.
Qed.

End ProducerOutcome.

Section FilesFacts.
Context {W : Type} {WorldW : World W} {Lib : PyLib} {Files : FileSystem}.

Lemma list_ascii_app (a b : string) :
  list_ascii_of_string (a ++ b) = (list_ascii_of_string a ++ list_ascii_of_string b)%list.
Proof. induction a as [|c a IH]; simpl; [reflexivity|]. rewrite IH. reflexivity. Qed.

Lemma string_of_list_app (a b : list ascii) :
  string_of_list_ascii (a ++ b)
  = (string_of_list_ascii a ++ string_of_list_ascii b)%string.
Proof. induction a as [|c a IH]; simpl; [reflexivity|]. rewrite IH. reflexivity. Qed.

Lemma endswith_spec (s suffix : string) :
  endswith s suffix = true <-> exists stem, s = (stem ++ suffix)%string.
Proof.
  unfold endswith. rewrite bool_decide_eq_true.
  set (cs := list_ascii_of_string s). set (suf := list_ascii_of_string suffix). split.
  - set (k := (length cs - length suf)%nat). intros Hd.
    exists (string_of_list_ascii (take k cs)).
    transitivity (string_of_list_ascii cs); [symmetry; apply string_of_list_ascii_of_string|].
    rewrite <- (take_drop k cs) at 1. rewrite Hd, string_of_list_app. unfold suf.
    rewrite string_of_list_ascii_of_string. reflexivity.
  - intros [stem Hs]. unfold cs, suf. rewrite Hs, list_ascii_app, length_app.
    replace (_ + _ - _)%nat with (length (list_ascii_of_string stem)) by lia.
    apply drop_app_length.
Qed.

Lemma read_messages_inv (files : list string) (messages : list pyval) :
  read_messages files = Ok messages ->
  Forall2 (fun path message =>
             exists content, read_bytes path = Ok content
                             /\ message = file_message path content) files messages.
Proof.
  unfold read_messages. revert messages.
  induction files as [|path files IH]; simpl; intros messages.
  - intros [= <-]. constructor.
  - destruct (read_bytes path) as [content|e] eqn:Hread; simpl; [|discriminate].
    destruct (map_result _ files) as [ms|e]; simpl; [|discriminate].
    intros [= <-]. constructor; eauto.
Qed.

(** X8: a message of [produce_files] carries the name of its file, the
    base64 text of its content, which decodes to the very bytes read, and
    the type [application/pdf] exactly for a path that ends in [.pdf];
    the call returns one key per file, in the order of the files, after
    one request with these messages was accepted. *)
Theorem produce_files_messages (self self' : Producer) (n n' : Net W)
    (files : list string) (endpoint : string) (keys : option (list pyval))
    (ks : list pyval) :
  produce_files files endpoint keys self n = (Ok ks, self', n') ->
  length ks = length files
  /\ exists messages record_data response req,
       json_dumps (produce_records ks messages None None) = Ok record_data
       /\ sent n' = (sent n ++ [(req, Ok response)])%list
       /\ http_error_status (status_code response) = false
       /\ data req = Some record_data
       /\ Forall2 (fun path message =>
            exists content text,
              read_bytes path = Ok content
              /\ getitem message "name" = Ok (VStr (path_name path))
              /\ getitem message "bytes" = Ok (VStr text)
              /\ Base64.b64decode text = Ok content
              /\ getitem message "type"
                 = Ok (VStr (if endswith path ".pdf" then "application/pdf"
                             else "application/octet-stream"))
              /\ (endswith path ".pdf" = true <-> exists stem, path = (stem ++ ".pdf")%string))
            files messages.
Proof.
  unfold produce_files, bind at 1, lift at 1.
  destruct (read_messages files) as [messages|e] eqn:Hread; [|discriminate].
  intros Hprod. apply read_messages_inv in Hread.
  pose proof (produce_inv _ _ _ _ _ _ _ _ _ _ Hprod) as Hout. simpl in Hout.
  destruct Hout as (Hlen & _ & _ & _ & _ & _ & _ & record_data & response & req
                    & Hdumps & Hlog & Hst & _ & _ & Hdata).
  split.
  - rewrite Hlen. symmetry. eapply Forall2_length. eassumption.
  - exists messages, record_data, response, req.
    repeat (split; [assumption|]).
    eapply Forall2_impl; [eassumption|]. simpl.
    intros path message (content & Hc & ->).
    exists content, (Base64.b64encode content).
    split; [assumption|]. split; [reflexivity|]. split; [reflexivity|].
    split; [apply b64decode_b64encode|]. split.
    + simpl. destruct (endswith path ".pdf"); reflexivity.
    + apply endswith_spec.
Qed.

(** X9: a file that cannot be read ends [produce_files] with the error of
    the read: no key is drawn, nothing is sent, the producer is as before,
    whatever the files before it held. *)
Theorem produce_files_unreadable (self : Producer) (n : Net W)
    (before after : list string) (path endpoint : string) (keys : option (list pyval))
    (e : exn) :
  Forall (fun p => is_ok (read_bytes p) = true) before ->
  read_bytes path = Raise e ->
  produce_files (before ++ path :: after) endpoint keys self n = (Raise e, self, n).
Proof.
  intros Hbefore Hbad. unfold produce_files, bind, lift.
  assert (Hread : read_messages (before ++ path :: after) = Raise e).
  { unfold read_messages. induction Hbefore as [|p before Hp _ IH]; simpl.
    - rewrite Hbad. reflexivity.
    - destruct (read_bytes p); [|discriminate]. simpl. rewrite IH. reflexivity. }
  rewrite Hread. reflexivity.
Qed.

End FilesFacts.

Lemma produce_outcome_witness :
  let run := produce (W := Ref.Script) [VStr "hello"; VStr "again"] "ignored" None None None
                     Sample.producer (Ref.start [Sample.accepted] Sample.refused) in
  key_history (snd (fst run))
  = [VStr "00000000-0000-4000-8000-000000000000"; VStr "00000000-0000-4000-8000-000000000000"]
  /\ length (sent (snd run)) = 1%nat.
Proof.
  intros run.
  pose proof (produce_outcome (W := Ref.Script) Sample.producer (snd (fst run))
                (Ref.start [Sample.accepted] Sample.refused) (snd run)
                [VStr "hello"; VStr "again"] "ignored" None None None
                (Ok [VStr "00000000-0000-4000-8000-000000000000";
                     VStr "00000000-0000-4000-8000-000000000000"]) eq_refl) as H.
  destruct H as (_ & _ & _ & Hhist & _ & _ & _ & rd & resp & req & _ & Hlog & _).
  split; [exact Hhist|]. rewrite Hlog. reflexivity.
Defined.

Lemma environ_limit_blocks_produce_witness :
  let run := produce (W := Ref.Script) [VStr "m"] "" None None None
                     Sample.environ_producer (Ref.start [] Sample.accepted) in
  sent (snd run) = [] /\ exists e, fst (fst run) = Raise e.
Proof.
  intros run.
  assert (Hrun : run = (fst (fst run), snd (fst run), snd run)) by reflexivity.
  destruct (environ_limit_blocks_produce (W := Ref.Script) "16" default_producer_data_max_size
              Sample.client (snd (fst run)) (Ref.start [] Sample.accepted) (snd run)
              [VStr "m"] "" None None None (fst (fst run)) Hrun)
    as (_ & Hsent & e & He & _).
  split; [exact Hsent|]. exists e. exact He.
Defined.

Lemma produce_files_messages_witness :
  let run := produce_files (W := Ref.Script) ["docs/report.pdf"; "data/blob.bin"] "" None
               Sample.producer (Ref.start [Sample.accepted] Sample.refused) in
  exists ks, fst (fst run) = Ok ks /\ length ks = 2%nat.
Proof.
  intros run.
  assert (Hrun : run = (Ok [VStr "00000000-0000-4000-8000-000000000000";
                            VStr "00000000-0000-4000-8000-000000000000"],
                        snd (fst run), snd run)) by reflexivity.
  eexists. split; [reflexivity|].
  apply (produce_files_messages (W := Ref.Script) Sample.producer (snd (fst run))
           (Ref.start [Sample.accepted] Sample.refused) (snd run)
           ["docs/report.pdf"; "data/blob.bin"] "" None _ Hrun).
Defined.

Lemma produce_files_unreadable_witness :
  produce_files (W := Ref.Script) ["docs/report.pdf"; "missing.txt"; "data/blob.bin"] "" None
    Sample.producer (Ref.start [Sample.accepted] Sample.refused)
  = (Raise (OtherError "FileNotFoundError"), Sample.producer,
     Ref.start [Sample.accepted] Sample.refused).
Proof.
  apply (produce_files_unreadable (W := Ref.Script) _ _ ["docs/report.pdf"] ["data/blob.bin"]).
  - repeat constructor.
  - reflexivity.
Defined.

(** ** The session of a consumer *)
Section SessionOutcome.
Context {W : Type} {WorldW : World W} {Lib : PyLib}.

Lemma set_created_same (self : Consumer) : set_created (created self) self = self.
Proof. destruct self; reflexivity. Qed.

Lemma request_ok_inv {S} (client : Client) (kwargs : Request) (s s' : S)
    (n n' : Net W) (response : Response) :
  Client_request client kwargs s n = (Ok response, s', n') ->
  s' = s
  /\ sent n' = (sent n ++ [(prepare client kwargs, Ok response)])%list
  /\ http_error_status (status_code response) = false.
Proof.
  intros Hreq. apply Client_request_inv in Hreq as (-> & r0 & Hr0 & Hlog).
  destruct r0 as [resp0|e0]; [|discriminate]. unfold raise_for_status, rbind in Hr0.
  destruct (http_error_status (status_code resp0)) eqn:Hst; [discriminate|].
  injection Hr0 as ->. auto.
Qed.

(** The two ways out of [create]. *)
Lemma create_inv (self self' : Consumer) (n n' : Net W) (r : result unit) :
  create self n = (r, self', n') ->
  match r with
  | Ok _ =>
      self' = set_created true self
      /\ (created self = false ->
          exists config response,
            json_dumps (create_config self) = Ok config
            /\ sent n' = (sent n ++ [(prepare (c_client self) (create_request self config),
                                      Ok response)])%list
            /\ http_error_status (status_code response) = false)
  | Raise e =>
      self' = self /\ created self = false
      /\ (sent n' = sent n
          \/ exists config r0,
               sent n' = (sent n ++ [(prepare (c_client self) (create_request self config),
                                      r0)])%list
               /\ raise_for_status r0 = Raise e)
  end.
Proof.
  unfold create, bind at 1, get at 1.
  destruct (created self) eqn:Hc; simpl.
  - intros [= <- <- <-]. split; [|discriminate].
    rewrite <- Hc. symmetry. apply set_created_same.
  - unfold bind at 1, lift at 1.
    destruct (json_dumps (create_config self)) as [config|e] eqn:Hdumps.
    2:{ intros [= <- <- <-]. auto. }
    unfold bind at 1.
    destruct (Client_request (c_client self) (create_request self config) self n)
      as [[[response|e] s1] n1] eqn:Hreq.
    + apply request_ok_inv in Hreq as (-> & Hlog & Hst).
      unfold bind, get, put. intros [= <- <- <-]. split; [reflexivity|].
      intros _. exists config, response. auto.
    + apply Client_request_inv in Hreq as (-> & r0 & Hr0 & Hlog).
      intros [= <- <- <-]. split; [reflexivity|]. split; [reflexivity|].
      right. eauto.
Qed.

(** X10: [create] sets the flag exactly when its request was accepted: a
    returning call leaves the consumer created, with one accepted [POST]
    when it was not so before; a raising call changes nothing of the
    consumer, which was and stays not created. *)
Theorem create_outcome (self self' : Consumer) (n n' : Net W) (r : result unit) :
  create self n = (r, self', n') ->
  match r with
  | Ok _ =>
      self' = set_created true self
      /\ (created self = false ->
          exists config response,
            json_dumps (create_config self) = Ok config
            /\ sent n' = (sent n ++ [(prepare (c_client self) (create_request self config),
                                      Ok response)])%list
            /\ http_error_status (status_code response) = false)
  | Raise e =>
      self' = self /\ created self = false
      /\ (sent n' = sent n
          \/ exists config r0,
               sent n' = (sent n ++ [(prepare (c_client self) (create_request self config),
                                      r0)])%list
               /\ raise_for_status r0 = Raise e)
  end.
Proof. apply create_inv. Qed.

(** The two ways out of [delete]. *)
Lemma delete_inv (self self' : Consumer) (n n' : Net W) (r : result unit) :
  delete self n = (r, self', n') ->
  exists r0,
    sent n' = (sent n ++ [(prepare (c_client self) (delete_request self), r0)])%list
    /\ match r with
       | Ok _ => self' = set_created false self /\ is_ok (raise_for_status r0) = true
       | Raise e => self' = self /\ raise_for_status r0 = Raise e
       end.
Proof.
  unfold delete, bind at 1, get at 1, bind at 1.
  destruct (Client_request (c_client self) (delete_request self) self n)
    as [[[response|e] s1] n1] eqn:Hreq;
    apply Client_request_inv in Hreq as (-> & r0 & Hr0 & Hlog).
  - unfold bind, get, put. intros [= <- <- <-]. exists r0.
    split; [assumption|]. split; [reflexivity|]. rewrite <- Hr0. reflexivity.
  - intros [= <- <- <-]. exists r0. auto.
Qed.

(** X11: [delete] does not look at the flag: it always sends one [DELETE]
    for the instance, also for a consumer that was never created, and it
    clears the flag only when that request was accepted. *)
Theorem delete_outcome (self self' : Consumer) (n n' : Net W) (r : result unit) :
  delete self n = (r, self', n') ->
  exists r0,
    sent n' = (sent n ++ [(prepare (c_client self) (delete_request self), r0)])%list
    /\ match r with
       | Ok _ => self' = set_created false self /\ is_ok (raise_for_status r0) = true
       | Raise e => self' = self /\ raise_for_status r0 = Raise e
       end.
Proof. apply delete_inv. Qed.

(** X12: entering the [with] block of a consumer that is not created.
    Only [POST] requests go out, two at most.  When the subscription is
    refused after the instance was made, the call raises and leaves the
    consumer marked created: the flag is set exactly when the first
    request was accepted, and nothing has deleted the instance. *)
Theorem enter_outcome (self self' : Consumer) (n n' : Net W) (r : result unit) :
  created self = false ->
  enter self n = (r, self', n') ->
  exists exchanges,
    sent n' = (sent n ++ exchanges)%list
    /\ (length exchanges <= 2)%nat
    /\ Forall (fun x => method (fst x) = "POST") exchanges
    /\ self' = set_created (created self') self
    /\ (created self' = true <->
        exists config response,
          json_dumps (create_config self) = Ok config
          /\ head exchanges = Some (prepare (c_client self) (create_request self config),
                                    Ok response)
          /\ http_error_status (status_code response) = false)
    /\ (r = Ok tt -> created self' = true /\ length exchanges = 2%nat).
Proof.
  intros Hc. unfold enter, bind at 1.
  destruct (create self n) as [[[[]|e] s1] n1] eqn:Hcreate;
    apply create_inv in Hcreate; simpl in Hcreate.
  - destruct Hcreate as (-> & Hsent). destruct (Hsent Hc) as (config & response & Hd & Hlog & Hst).
    unfold subscribe, bind at 1, get at 1, bind at 1, lift at 1.
    assert (Hflag : forall s, s = set_created true self ->
              created s = true <->
              exists config0 response0,
                json_dumps (create_config self) = Ok config0
                /\ head ((prepare (c_client self) (create_request self config), Ok response)
                         :: @nil (Request * result Response))
                   = Some (prepare (c_client self) (create_request self config0), Ok response0)
                /\ http_error_status (status_code response0) = false).
    { intros s ->. split; [|reflexivity]. intros _. exists config, response. auto. }
    destruct (json_dumps (VDict [("topics", _)])) as [topics_data|e] eqn:Hd2.
    2:{ intros [= <- <- <-]. eexists [_]. split; [exact Hlog|]. split; [simpl; lia|].
        split; [repeat constructor|]. split; [reflexivity|]. split; [|discriminate].
        apply Hflag. reflexivity. }
    unfold bind at 1.
    destruct (Client_request _ _ (set_created true self) n1) as [[r1 s2] n2] eqn:Hreq.
    apply Client_request_inv in Hreq as (-> & r0 & Hr0 & Hlog2).
    rewrite Hlog, <- app_assoc in Hlog2. simpl in Hlog2.
    assert (Hhead : forall x y : Request * result Response, head [x; y] = head [x])
      by reflexivity.
    destruct r1 as [resp1|e1]; intros [= <- <- <-];
      (eexists [_; _]; split; [exact Hlog2|]; split; [simpl; lia|];
       split; [repeat constructor|]; split; [reflexivity|]; split;
       [rewrite Hhead; apply Hflag; reflexivity|]).
    + intros _. split; reflexivity.
    + discriminate.
  - destruct Hcreate as (-> & _ & Hsent). intros [= <- <- <-].
    assert (Hno : forall l : list (Request * result Response),
              (forall config response,
                  head l = Some (prepare (c_client self) (create_request self config),
                                 Ok response) ->
                  http_error_status (status_code response) = false -> False) ->
              created self = true <->
              exists config response,
                json_dumps (create_config self) = Ok config
                /\ head l = Some (prepare (c_client self) (create_request self config),
                                  Ok response)
                /\ http_error_status (status_code response) = false).
    { intros l Hl. rewrite Hc. split; [discriminate|].
      intros (config & response & _ & Hh & Hst). exfalso. eauto. }
    destruct Hsent as [Hsent|(config0 & r0 & Hsent & Hr0)].
    + exists []. rewrite app_nil_r. split; [assumption|]. split; [simpl; lia|].
      split; [constructor|]. split; [symmetry; apply set_created_same|].
      split; [|discriminate]. apply Hno. intros ? ? [=].
    + eexists [_]. split; [exact Hsent|]. split; [simpl; lia|].
      split; [repeat constructor|].
      split; [symmetry; apply set_created_same|].
      split; [|discriminate]. apply Hno. simpl. intros config response [= -> ->] Hst.
      unfold raise_for_status, rbind in Hr0. rewrite Hst in Hr0. discriminate.
Qed.


(** X13: the calls that only talk to the proxy leave the consumer as it
    was, whether they return or raise: of the methods of a consumer only
    [create], [delete] and the generator of [consume] write its fields. *)
Theorem requests_leave_consumer (self : Consumer) (n : Net W) :
  snd (fst (subscribe self n)) = self
  /\ (forall parts, snd (fst (assign parts self n)) = self)
  /\ (forall topic position offset, snd (fst (seek topic position offset self n)) = self)
  /\ (forall topic partition, snd (fst (offsets topic partition self n)) = self)
  /\ (forall topic, snd (fst (partitions topic self n)) = self)
  /\ (forall max_bytes timeout, snd (fst (consume_earliest max_bytes timeout self n)) = self)
  /\ snd (fst (consume_all_raw self n)) = self.
Proof.
  assert (Hreq : forall A kwargs (k : Response -> M W Consumer A),
            (forall response s n1, snd (fst (k response s n1)) = s) ->
            snd (fst (bind (Client_request (c_client self) kwargs) k self n)) = self).
  { intros A kwargs k Hk. unfold bind.
    destruct (Client_request (c_client self) kwargs self n) as [[[response|e] s1] n1] eqn:E;
      apply Client_request_inv in E as [-> _]; [apply Hk|reflexivity]. }
  assert (Hdumps : forall A v (k : string -> M W Consumer A),
            (forall text, snd (fst (k text self n)) = self) ->
            snd (fst (bind (lift (json_dumps v)) k self n)) = self).
  { intros A v k Hk. unfold bind, lift. destruct (json_dumps v); [apply Hk|reflexivity]. }
  assert (Hlift : forall A (r : result A) (s : Consumer) (n1 : Net W),
            snd (fst (lift r s n1)) = s) by reflexivity.
  repeat split; intros;
    unfold subscribe, assign, seek, offsets, partitions, consume_earliest, consume_all_raw;
    unfold bind at 1, get at 1;
    try (apply Hdumps; intros text); apply Hreq; intros; first [apply Hlift|reflexivity].
Qed.

End SessionOutcome.

Lemma create_outcome_witness :
  create (W := Ref.Script) Sample.consumer (Ref.start [] Sample.refused)
  = (Raise (HTTPError 500), Sample.consumer,
     snd (create (W := Ref.Script) Sample.consumer (Ref.start [] Sample.refused)))
  /\ created Sample.consumer = false.
Proof.
  assert (Hrun : create (W := Ref.Script) Sample.consumer (Ref.start [] Sample.refused)
                 = (Raise (HTTPError 500), Sample.consumer,
                    snd (create (W := Ref.Script) Sample.consumer
                           (Ref.start [] Sample.refused)))) by reflexivity.
  split; [exact Hrun|].
  destruct (create_outcome (W := Ref.Script) _ _ _ _ _ Hrun) as (_ & Hc & _). exact Hc.
Defined.

Lemma delete_outcome_witness :
  created Sample.consumer = false
  /\ exists r0,
       sent (snd (delete (W := Ref.Script) Sample.consumer (Ref.start [] Sample.accepted)))
       = [(prepare Sample.client (delete_request Sample.consumer), r0)].
Proof.
  split; [reflexivity|].
  assert (Hrun : delete (W := Ref.Script) Sample.consumer (Ref.start [] Sample.accepted)
                 = (Ok tt, Sample.consumer,
                    snd (delete (W := Ref.Script) Sample.consumer
                           (Ref.start [] Sample.accepted)))) by reflexivity.
  destruct (delete_outcome (W := Ref.Script) _ _ _ _ _ Hrun) as (r0 & Hlog & _).
  exists r0. exact Hlog.
Defined.

Lemma enter_outcome_witness :
  let run := enter (W := Ref.Script) Sample.consumer
               (Ref.start [Sample.accepted] Sample.refused) in
  fst (fst run) = Raise (HTTPError 500)
  /\ created (snd (fst run)) = true
  /\ exists exchanges,
       sent (snd run) = exchanges
       /\ Forall (fun x => method (fst x) = "POST") exchanges.
Proof.
  intros run. split; [reflexivity|]. split; [reflexivity|].
  assert (Hrun : run = (Raise (HTTPError 500), snd (fst run), snd run)) by reflexivity.
  destruct (enter_outcome (W := Ref.Script) Sample.consumer _ _ _ _ eq_refl Hrun)
    as (exchanges & Hlog & _ & Hpost & _).
  exists exchanges. split; assumption.
Defined.

(** ** Polling for records *)
Section RecordsFacts.
Context {W : Type} {WorldW : World W} {Lib : PyLib}.

Lemma map_result_ok {A B} (f : A -> result B) (l : list A) (ys : list B) :
  map_result f l = Ok ys -> Forall2 (fun x y => f x = Ok y) l ys.
Proof.
  revert ys. induction l as [|x l IH]; simpl; intros ys.
  - intros [= <-]. constructor.
  - destruct (f x) as [y|e] eqn:Hx; simpl; [|discriminate].
    destruct (map_result f l) as [ys'|e]; simpl; [|discriminate].
    intros [= <-]. constructor; auto.
Qed.

Lemma map_result_raise {A B} (f : A -> result B) (before after : list A) (x : A) (e : exn) :
  Forall (fun a => is_ok (f a) = true) before ->
  f x = Raise e ->
  map_result f (before ++ x :: after) = Raise e.
Proof.
  intros Hbefore Hx. induction Hbefore as [|a before Ha _ IH]; simpl.
  - rewrite Hx. reflexivity.
  - destruct (f a); [|discriminate]. simpl. rewrite IH. reflexivity.
Qed.

Lemma parse_record_ok (r : pyval) (rec : record) :
  parse_record r = Ok rec ->
  exists d k v,
    r = VDict d
    /\ dict_get d "key" = Some k /\ dict_get d "value" = Some v
    /\ decode_base64 k = Ok (key rec) /\ decode_base64 v = Ok (value rec).
Proof.
  unfold parse_record, getitem. destruct r as [| | | | |l|d]; try discriminate.
  destruct (dict_get d "key") as [k|] eqn:Hk; [|discriminate]. simpl.
  destruct (decode_base64 k) as [k'|e] eqn:Hdk; [|discriminate]. simpl.
  destruct (dict_get d "value") as [v|] eqn:Hv; [|discriminate]. simpl.
  destruct (decode_base64 v) as [v'|e] eqn:Hdv; [|discriminate]. simpl.
  intros [= <-]. exists d, k, v. auto.
Qed.

(** X14: a poll returns records only for a body that is a JSON array of
    objects with a [key] and a [value]: one record per element, in the
    order of the array, each the decoded key and value of its element.
    Of the other bodies only the empty ones give a result, the empty list. *)
Theorem records_of_response_shape (response : Response) (body : pyval)
    (records : list record) :
  json response = Ok body ->
  records_of_response response = Ok records ->
  (exists items,
      body = VList items
      /\ Forall2 (fun item rec =>
           exists d k v,
             item = VDict d
             /\ dict_get d "key" = Some k /\ dict_get d "value" = Some v
             /\ decode_base64 k = Ok (key rec) /\ decode_base64 v = Ok (value rec))
           items records)
  \/ (records = [] /\ (body = VDict [] \/ body = VStr "" \/ body = VBytes [])).
Proof.
  intros Hbody. unfold records_of_response. rewrite Hbody. simpl.
  destruct body as [| | |s|bs|items|d]; simpl; try discriminate.
  - destruct s as [|c s]; simpl; [intros [= <-]; auto|].
    unfold chars. simpl. discriminate.
  - destruct bs as [|b bs]; simpl; [intros [= <-]; auto|discriminate].
  - intros Hmap. left. exists items. split; [reflexivity|].
    apply map_result_ok in Hmap. eapply Forall2_impl; [eassumption|].
    intros item rec. apply parse_record_ok.
  - destruct d as [|[k v] d]; simpl; [intros [= <-]; auto|discriminate].
Qed.

(** X15: one record that cannot be parsed spoils its poll: the request has
    gone out and was accepted, the records before the bad one were
    decoded, and the call raises the error of the bad record, handing out
    none of them. *)
Theorem consume_earliest_poisoned (self : Consumer) (n : Net W)
    (max_bytes timeout : option Z) (response : Response) (w' : W)
    (before after : list pyval) (bad : pyval) (e : exn) :
  requests_request (prepare (c_client self) (records_request self max_bytes timeout)) (world n)
  = (Ok response, w') ->
  http_error_status (status_code response) = false ->
  json response = Ok (VList (before ++ bad :: after)) ->
  Forall (fun item => is_ok (parse_record item) = true) before ->
  parse_record bad = Raise e ->
  consume_earliest max_bytes timeout self n
  = (Raise e, self,
     {| sent := sent n ++ [(prepare (c_client self) (records_request self max_bytes timeout),
                            Ok response)];
        world := w' |}).
Proof.
  intros Hreq Hst Hbody Hbefore Hbad.
  unfold consume_earliest, bind, get, Client_request. rewrite Hreq.
  unfold raise_for_status, rbind at 1. rewrite Hst.
  unfold lift, records_of_response. rewrite Hbody. simpl.
  rewrite (map_result_raise _ _ _ _ _ Hbefore Hbad). reflexivity.
Qed.

(** X16: [consume_earliest] without arguments is [parse_record] over what
    [consume_all_raw] returns, when the proxy answers both requests
    alike; they differ only in the empty [params] that the first sends. *)
Theorem consume_earliest_parses_raw (self : Consumer) (n : Net W) :
  requests_request (prepare (c_client self) (records_request self None None)) (world n)
  = requests_request (prepare (c_client self) (raw_request self)) (world n) ->
  fst (fst (consume_earliest None None self n))
  = rbind (fst (fst (consume_all_raw self n)))
          (fun body => rbind (iter body) (map_result parse_record))
  /\ method (raw_request self) = method (records_request self None None)
  /\ url (raw_request self) = url (records_request self None None)
  /\ headers (raw_request self) = headers (records_request self None None)
  /\ data (raw_request self) = data (records_request self None None)
  /\ params (raw_request self) = None
  /\ params (records_request self None None) = Some [].
Proof.
  intros Hsame. split; [|repeat split].
  unfold consume_earliest, consume_all_raw, bind, get, Client_request. rewrite Hsame.
  destruct (requests_request (prepare (c_client self) (raw_request self)) (world n))
    as [r0 w'].
  destruct (raise_for_status r0) as [response|e]; simpl; [|reflexivity].
  unfold records_of_response. destruct (json response); reflexivity.
Qed.

End RecordsFacts.

Lemma records_of_response_shape_witness :
  exists items,
    VList [Sample.wire_record (VStr "k1") (VInt 1) 0] = VList items
    /\ length items = 1%nat.
Proof.
  destruct (records_of_response_shape (Lib := Ref.lib)
              {| status_code := 200;
                 json := Ok (VList [Sample.wire_record (VStr "k1") (VInt 1) 0]) |}
              (VList [Sample.wire_record (VStr "k1") (VInt 1) 0])
              [Sample.rec1] eq_refl ltac:(vm_compute; reflexivity))
    as [(items & Hbody & Hall)|[Hnil _]]; [|discriminate].
  exists items. split; [assumption|].
  apply Forall2_length in Hall. exact Hall.
Defined.

Lemma consume_earliest_poisoned_witness :
  fst (fst (consume_earliest (W := Ref.Script) None None Sample.consumer
              (Ref.start
                 [Ref.ok_json (VList [Sample.wire_record (VStr "k1") (VInt 1) 0;
                                      VDict [("key", VStr "hello"); ("value", VStr "1")]])]
                 Sample.refused)))
  = Raise BinasciiError.
Proof.
  rewrite (consume_earliest_poisoned (W := Ref.Script) Sample.consumer _ None None
             {| status_code := 200;
                json := Ok (VList [Sample.wire_record (VStr "k1") (VInt 1) 0;
                                   VDict [("key", VStr "hello"); ("value", VStr "1")]]) |}
             {| Ref.answers := []; Ref.fallback := Sample.refused;
                Ref.uuids := []; Ref.slept := [] |}
             [Sample.wire_record (VStr "k1") (VInt 1) 0] []
             (VDict [("key", VStr "hello"); ("value", VStr "1")]) BinasciiError).
  - reflexivity.
  - reflexivity.
  - reflexivity.
  - reflexivity.
  - repeat constructor.
  - vm_compute. reflexivity.
Defined.

Lemma consume_earliest_parses_raw_witness :
  fst (fst (consume_earliest (W := Ref.Script) None None Sample.consumer Sample.two_polls))
  = rbind (fst (fst (consume_all_raw (W := Ref.Script) Sample.consumer Sample.two_polls)))
          (fun body => rbind (iter body) (map_result parse_record)).
Proof.
  apply (consume_earliest_parses_raw (W := Ref.Script) Sample.consumer Sample.two_polls).
  reflexivity.
Defined.

(** ** Runs of the polling generator *)
Section RunFacts.
Context {W : Type} {WorldW : World W} {Lib : PyLib}.

Lemma poll_exchange (interval_sec : Z) (self self' : Consumer) (n n' : Net W)
    (r : result (list record)) :
  poll interval_sec self n = (r, self', n') ->
  self' = self
  /\ exists r0,
       sent n' = (sent n ++ [(prepare (c_client self) (records_request self None None), r0)])%list
       /\ r = rbind (raise_for_status r0) records_of_response.
Proof.
  change (poll interval_sec self n)
    with (consume_earliest None None self
            {| sent := sent n; world := time_sleep interval_sec (world n) |}).
  intros Hp. apply consume_earliest_inv in Hp. exact Hp.
Qed.

Lemma keys_of_app (a b : list record) (ha hb : list hkey) :
  keys_of a = Some ha -> keys_of b = Some hb -> keys_of (a ++ b) = Some (ha ++ hb)%list.
Proof.
  revert ha. induction a as [|d a IH]; intros ha Ha Hb.
  - injection Ha as <-. exact Hb.
  - apply keys_of_cons in Ha as (h & ha' & Hh & Ha' & ->).
    specialize (IH ha' Ha' Hb). unfold keys_of in *. simpl. rewrite Hh. simpl.
    rewrite IH. reflexivity.
Qed.

Lemma consume_resume_end (interval_sec : Z) (self self' : Consumer) (n n' : Net W) :
  consume_resume interval_sec self n = (Ok None, self', n') ->
  remaining_keys self = ∅ /\ self' = self /\ n' = n.
Proof.
  destruct (decide (remaining_keys self = ∅)) as [He|Hne].
  - rewrite consume_resume_empty by assumption. intros [= <- <-]. auto.
  - rewrite consume_resume_pass by assumption.
    destruct (consume_pass interval_sec self n) as [[[y|e] s1] n1]; discriminate.
Qed.

Lemma set_remaining_keys_same (self : Consumer) :
  set_remaining_keys (remaining_keys self) self = self.
Proof. destruct self; reflexivity. Qed.

(** A suspended generator that runs to its end hands out one record for
    each key that was pending, and polls once for each batch. *)
Lemma run_exhausted_delivers (fuel : nat) (interval_sec : Z) (self self' : Consumer)
    (n n' : Net W) (ys : list yielded) :
  consume_run fuel (Suspended interval_sec) self n = (ys, Exhausted, self', n') ->
  exists hs exchanges,
    keys_of (concat (map fst ys)) = Some hs
    /\ NoDup hs
    /\ list_to_set hs = remaining_keys self
    /\ self' = set_remaining_keys ∅ self
    /\ sent n' = (sent n ++ exchanges)%list
    /\ length exchanges = length ys
    /\ Forall (fun x => fst x = prepare (c_client self) (records_request self None None)
                        /\ is_ok (raise_for_status (snd x)) = true) exchanges.
Proof.
  revert self n ys. induction fuel as [|fuel IH]; intros self n ys; [discriminate|].
  cbn [consume_run].
  destruct (next (Suspended interval_sec) self n) as [[[[[batch pending]|]|e] s1] n1] eqn:Hnext.
  - apply next_yield_inv in Hnext
      as (msgs & hs0 & data & Hp & Hk & Hsel & -> & -> & -> & Hne).
    simpl in Hp, Hsel, Hne |- *.
    set (R := remaining_keys self) in *.
    destruct (consume_run fuel _ _ n1) as [[[ys' e'] s2] n2] eqn:Hrun.
    intros [= <- -> <- <-].
    apply IH in Hrun as (hs' & ex' & Hk' & Hnd' & Hset' & -> & Hlog' & Hlen' & Hall').
    simpl in Hset'.
    destruct (select_pending_spec R msgs hs0 [] Hk) as (data' & Hsel' & Hnd & Hkeys & Hent).
    { constructor. }
    { intros h d Hin. inversion Hin. }
    rewrite Hsel in Hsel'. injection Hsel' as <-.
    apply poll_exchange in Hp as (_ & r0 & Hlog & Hr0).
    assert (Hin_data : forall x, x ∈ map fst data <-> x ∈ hs0 /\ x ∈ R).
    { intros x. rewrite <- (elem_of_list_to_set (C := gset hkey)).
      change (list_to_set (map fst data)) with (dict_keys data). rewrite Hkeys.
      unfold dict_keys. simpl. rewrite elem_of_union, elem_of_intersection, elem_of_list_to_set.
      split; [intros [Hx|Hx]; [inversion Hx|assumption]|auto]. }
    assert (Hin_hs' : forall x, x ∈ hs' <-> x ∈ R /\ x ∉ hs0).
    { intros x. rewrite <- (elem_of_list_to_set (C := gset hkey)), Hset'.
      rewrite elem_of_difference, elem_of_list_to_set. reflexivity. }
    exists (map fst data ++ hs')%list,
           ((prepare (c_client self) (records_request self None None), r0) :: ex').
    split; [|split; [|split; [|split; [|split; [|split]]]]].
    + simpl. apply keys_of_app; [|assumption].
      apply keys_of_batch. intros h d Hin. apply (Hent h d Hin).
    + apply NoDup_app. split; [assumption|]. split; [|assumption].
      intros x Hx Hx'. apply Hin_data in Hx as [Hx _]. apply Hin_hs' in Hx' as [_ Hx'].
      contradiction.
    + apply set_eq. intros x. rewrite elem_of_list_to_set, elem_of_app, Hin_data, Hin_hs'.
      split; [intros [[_ ?]|[? _]]; assumption|].
      intros Hx. destruct (decide (x ∈ hs0)); auto.
    + reflexivity.
    + rewrite Hlog', Hlog, <- app_assoc. reflexivity.
    + simpl. congruence.
    + constructor; [|exact Hall']. split; [reflexivity|].
      simpl. destruct (raise_for_status r0); [reflexivity|discriminate].
  - simpl in Hnext. apply consume_resume_end in Hnext as (He & -> & ->).
    intros [= <- <- <-]. exists [], []. simpl.
    split; [reflexivity|]. split; [constructor|]. split; [symmetry; exact He|].
    split; [rewrite <- He; symmetry; apply set_remaining_keys_same|].
    split; [rewrite app_nil_r; reflexivity|]. split; [reflexivity|constructor].
  - discriminate.
Qed.

(** X17: when [consume_all] returns, its batches hold exactly one record
    for each distinct key asked for: all keys of the records can be
    hashed, no key comes twice, in a batch or across batches, and the
    keys are those of [set(keys)].  One accepted poll was made per batch,
    nothing else was sent, and no key is pending any more. *)
Theorem consume_all_exactly_once (fuel : nat) (keys : list pyval) (interval_sec : Z)
    (self self' : Consumer) (n n' : Net W) (batches : list (list record)) :
  consume_all fuel keys interval_sec self n = (Some (Ok batches), self', n') ->
  exists ks hs exchanges,
    set_of_list keys = Ok ks
    /\ keys_of (concat batches) = Some hs
    /\ NoDup hs
    /\ list_to_set hs = ks
    /\ self' = set_remaining_keys ∅ self
    /\ sent n' = (sent n ++ exchanges)%list
    /\ length exchanges = length batches
    /\ Forall (fun x => fst x = prepare (c_client self) (records_request self None None)
                        /\ is_ok (raise_for_status (snd x)) = true) exchanges.
Proof.
  unfold consume_all.
  destruct (consume_run fuel (consume keys interval_sec) self n) as [[[ys e] s1] n1] eqn:Hrun.
  destruct e as [|x|]; try discriminate. intros [= <- <- <-].
  destruct fuel as [|fuel]; [discriminate|].
  destruct (interval_sec <? 0) eqn:Hi.
  { simpl in Hrun. unfold consume_start in Hrun. rewrite Hi in Hrun. discriminate. }
  apply Z.ltb_ge in Hi.
  destruct (set_of_list keys) as [ks|e] eqn:Hks.
  2:{ simpl in Hrun. unfold consume_start in Hrun.
      destruct (interval_sec <? 0); [discriminate|].
      unfold bind, lift in Hrun. rewrite Hks in Hrun. discriminate. }
  rewrite (consume_run_created _ _ _ _ _ _ Hi Hks) in Hrun.
  apply run_exhausted_delivers in Hrun
    as (hs & exchanges & Hk & Hnd & Hset & -> & Hlog & Hlen & Hall).
  exists ks, hs, exchanges. rewrite length_map.
  repeat (split; [assumption || reflexivity|]). exact Hall.
Qed.

(** X18: the first call of [next] ends without a poll in three cases: a
    negative interval raises [ValueError], before the keys are looked at
    and without touching the pending set; a key that cannot be hashed
    raises the error of [set(keys)]; and an empty key list ends the
    sequence at once, the pending set being emptied. *)
Theorem consume_ends_before_polling (fuel : nat) (keys : list pyval) (interval_sec : Z)
    (self : Consumer) (n : Net W) :
  (interval_sec < 0 ->
   consume_all (S fuel) keys interval_sec self n
   = (Some (Raise (ValueError
                     "'interval_sec' should be an 'int' or 'float' greater or equal to 0.")),
      self, n))
  /\ (0 <= interval_sec ->
      forall e, set_of_list keys = Raise e ->
      consume_all (S fuel) keys interval_sec self n = (Some (Raise e), self, n))
  /\ (0 <= interval_sec ->
      keys = [] ->
      consume_all (S fuel) keys interval_sec self n
      = (Some (Ok []), set_remaining_keys ∅ self, n)).
Proof.
  unfold consume_all. cbn [consume_run consume next]. unfold consume_start.
  split; [|split].
  - intros Hi. apply Z.ltb_lt in Hi. rewrite Hi. reflexivity.
  - intros Hi e Hks. apply Z.ltb_ge in Hi. rewrite Hi.
    unfold bind, lift. rewrite Hks. reflexivity.
  - intros Hi ->. apply Z.ltb_ge in Hi. rewrite Hi. reflexivity.
Qed.

(** X19: a call of [next] that raises drops no pending key.  Either the
    generator was refused at its start, and nothing was changed or sent;
    or the one poll of this pass failed, in the request, in the parsing
    or on a record whose key cannot be hashed: the consumer then holds
    the very keys that were pending before the pass, while the records of
    that poll are not handed out. *)
Theorem next_failure_keeps_pending (gen : generator) (self self' : Consumer)
    (n n' : Net W) (e : exn) :
  next gen self n = (Raise e, self', n') ->
  (self' = self /\ n' = n)
  \/ (self' = started gen self
      /\ remaining_keys self' = pending_before gen self
      /\ pending_before gen self <> ∅
      /\ exists r0,
           sent n' = (sent n ++ [(prepare (c_client self) (records_request self None None),
                                  r0)])%list
           /\ (rbind (raise_for_status r0) records_of_response = Raise e
               \/ (e = TypeError
                   /\ exists msgs, rbind (raise_for_status r0) records_of_response = Ok msgs
                                   /\ keys_of msgs = None))).
Proof.
  assert (Hres : forall i s,
            consume_resume i s n = (Raise e, self', n') ->
            self' = s /\ remaining_keys s <> ∅
            /\ exists r0,
                 sent n' = (sent n ++ [(prepare (c_client s) (records_request s None None),
                                        r0)])%list
                 /\ (rbind (raise_for_status r0) records_of_response = Raise e
                     \/ (e = TypeError
                         /\ exists msgs,
                              rbind (raise_for_status r0) records_of_response = Ok msgs
                              /\ keys_of msgs = None))).
  { intros i s Hr. destruct (decide (remaining_keys s = ∅)) as [He|Hne].
    { rewrite consume_resume_empty in Hr by assumption. discriminate. }
    rewrite consume_resume_pass in Hr by assumption.
    unfold consume_pass, bind at 1 in Hr.
    destruct (poll i s n) as [[[msgs|e0] s1] n1] eqn:Hp;
      apply poll_exchange in Hp as (-> & r0 & Hlog & Hr0).
    - unfold bind at 1, get at 1, bind at 1, lift at 1 in Hr.
      destruct (keys_of msgs) as [hs|] eqn:Hk.
      + destruct (select_pending_spec (remaining_keys s) msgs hs [] Hk)
          as (data & Hsel & _); [constructor|intros h d Hin; inversion Hin|].
        rewrite Hsel in Hr. discriminate.
      + rewrite (keys_of_None _ _ _ Hk) in Hr. injection Hr as <- <- <-.
        split; [reflexivity|]. split; [assumption|]. exists r0. split; [assumption|].
        right. split; [reflexivity|]. exists msgs. auto.
    - injection Hr as <- <- <-. split; [reflexivity|]. split; [assumption|].
      exists r0. split; [assumption|]. left. symmetry. assumption. }
  destruct gen as [keys i|i|]; simpl.
  - unfold consume_start. destruct (i <? 0); [intros [= <- <- <-]; auto|].
    unfold bind at 1, lift at 1.
    destruct (set_of_list keys) as [ks|e0]; [|intros [= <- <- <-]; auto].
    unfold bind at 1, get at 1, bind at 1, put at 1.
    intros Hr. apply Hres in Hr as (-> & Hne & Hex). right. auto.
  - intros Hr. apply Hres in Hr as (-> & Hne & Hex). right. auto.
  - discriminate.
Qed.

End RunFacts.

Lemma consume_all_exactly_once_witness :
  let run := consume_all (W := Ref.Script) 5 [VStr "k1"; VStr "k2"; VStr "k1"] 5
               Sample.consumer Sample.two_polls in
  fst (fst run) = Some (Ok [[Sample.rec3]; [Sample.rec4]])
  /\ exists hs, keys_of (concat [[Sample.rec3]; [Sample.rec4]]) = Some hs /\ NoDup hs.
Proof.
  intros run.
  assert (Hrun : run = (Some (Ok [[Sample.rec3]; [Sample.rec4]]), snd (fst run), snd run))
    by reflexivity.
  split; [reflexivity|].
  destruct (consume_all_exactly_once (W := Ref.Script) _ _ _ _ _ _ _ _ Hrun)
    as (ks & hs & exchanges & _ & Hk & Hnd & _).
  exists hs. split; assumption.
Defined.

Lemma consume_ends_before_polling_witness :
  consume_all (W := Ref.Script) 1 [VStr "k1"] (-1) Sample.consumer Sample.two_polls
  = (Some (Raise (ValueError
                    "'interval_sec' should be an 'int' or 'float' greater or equal to 0.")),
     Sample.consumer, Sample.two_polls)
  /\ consume_all (W := Ref.Script) 1 [VStr "k1"; VList []] 0 Sample.consumer Sample.two_polls
     = (Some (Raise TypeError), Sample.consumer, Sample.two_polls)
  /\ consume_all (W := Ref.Script) 1 [] 0 Sample.consumer Sample.two_polls
     = (Some (Ok []), set_remaining_keys ∅ Sample.consumer, Sample.two_polls).
Proof.
  split; [|split].
  - destruct (consume_ends_before_polling (W := Ref.Script) 0 [VStr "k1"] (-1)
                Sample.consumer Sample.two_polls) as (H & _ & _).
    apply H. lia.
  - destruct (consume_ends_before_polling (W := Ref.Script) 0 [VStr "k1"; VList []] 0
                Sample.consumer Sample.two_polls) as (_ & H & _).
    apply H; [lia|reflexivity].
  - destruct (consume_ends_before_polling (W := Ref.Script) 0 [] 0
                Sample.consumer Sample.two_polls) as (_ & _ & H).
    apply H; [lia|reflexivity].
Defined.

Lemma next_failure_keeps_pending_witness :
  let run := next (W := Ref.Script) (consume [VStr "k1"] 0) Sample.consumer
               (Ref.start [] Sample.refused) in
  fst (fst run) = Raise (HTTPError 500)
  /\ remaining_keys (snd (fst run)) = {[HStr "k1"]} ∪ ∅.
Proof.
  intros run. split; [reflexivity|].
  assert (Hrun : run = (Raise (HTTPError 500), snd (fst run), snd run)) by reflexivity.
  destruct (next_failure_keeps_pending (W := Ref.Script) _ _ _ _ _ _ Hrun)
    as [[_ Hn]|(_ & Hrem & _)].
  - exfalso. apply (f_equal (fun x => length (sent x))) in Hn. discriminate.
  - exact Hrem.
Defined.

(** ** Blocks and shared state *)
Section SharingFacts.
Context {W : Type} {WorldW : World W} {Lib : PyLib}.

(** X20: a [with] block that is entered and left without an error puts
    the consumer back as it was: three requests went out, the two [POST]
    of [create] and [subscribe] and the [DELETE] of the instance, all
    accepted, and the flag is down again. *)
Theorem enter_exit_restores (self s1 s2 : Consumer) (n n1 n2 : Net W) :
  created self = false ->
  enter self n = (Ok tt, s1, n1) ->
  exit s1 n1 = (Ok tt, s2, n2) ->
  s2 = self
  /\ created s1 = true
  /\ exists exchanges,
       sent n2 = (sent n ++ exchanges)%list
       /\ map (fun x => method (fst x)) exchanges = ["POST"; "POST"; "DELETE"]
       /\ Forall (fun x => is_ok (raise_for_status (snd x)) = true) exchanges.
Proof.
  intros Hc Henter Hexit. unfold enter, bind at 1 in Henter.
  destruct (create self n) as [[[[]|e] c1] m1] eqn:Hcreate; [|discriminate].
  apply create_inv in Hcreate as (-> & Hsent).
  destruct (Hsent Hc) as (config & response & _ & Hlog1 & Hst1).
  unfold subscribe, bind at 1, get at 1, bind at 1, lift at 1 in Henter.
  destruct (json_dumps (VDict [("topics", _)])) as [topics_data|e]; [|discriminate].
  unfold bind at 1 in Henter.
  destruct (Client_request _ _ (set_created true self) m1) as [[[resp2|e] c2] m2] eqn:Hreq;
    [|discriminate].
  apply request_ok_inv in Hreq as (-> & Hlog2 & Hst2). injection Henter as <- <-.
  unfold exit in Hexit. apply delete_inv in Hexit as (r0 & Hlog3 & -> & Hok).
  split; [|split; [reflexivity|]].
  - rewrite <- Hc. destruct self; reflexivity.
  - eexists [_; _; _]. split.
    + rewrite Hlog3, Hlog2, Hlog1, <- !app_assoc. reflexivity.
    + split; [reflexivity|]. repeat constructor; simpl; try assumption.
      * unfold raise_for_status, rbind. rewrite Hst1. reflexivity.
      * unfold raise_for_status, rbind. rewrite Hst2. reflexivity.
Qed.

(** X21: the pending keys live in the consumer, not in the generator.
    Once a generator of a consumer has yielded, any other suspended
    generator of the same consumer goes on with the keys that one left:
    it ends at once when they are none, whatever it was asked for, and
    otherwise hands out records for those keys only. *)
Theorem generators_share_pending (gen : generator) (self self' : Consumer)
    (n n' : Net W) (batch : list record) (pending : gset hkey) :
  next gen self n = (Ok (Some (batch, pending)), self', n') ->
  (pending = ∅ ->
   forall interval_sec, next (Suspended interval_sec) self' n' = (Ok None, self', n'))
  /\ (forall interval_sec batch2 pending2 self2 n2,
        next (Suspended interval_sec) self' n' = (Ok (Some (batch2, pending2)), self2, n2) ->
        pending2 ⊆ pending
        /\ forall d, d ∈ batch2 -> exists h, hash_key (key d) = Some h /\ h ∈ pending).
Proof.
  intros Hnext.
  apply next_yield_inv in Hnext as (msgs0 & hs0 & data0 & _ & _ & _ & _ & _ & -> & _).
  assert (Hrem : remaining_keys (set_remaining_keys pending (started gen self)) = pending)
    by reflexivity.
  set (s := set_remaining_keys pending (started gen self)) in *. clearbody s. split.
  - intros He interval_sec. simpl. apply consume_resume_empty. congruence.
  - intros interval_sec batch2 pending2 self2 n2 Hnext2.
    apply next_yield_inv in Hnext2 as (msgs & hs & data & _ & Hk & Hsel & -> & -> & _).
    simpl in Hsel |- *. rewrite Hrem in *. split; [set_solver|].
    destruct (select_pending_spec pending msgs hs [] Hk) as (data' & Hsel' & _ & _ & Hent).
    { constructor. }
    { intros h d Hin. inversion Hin. }
    rewrite Hsel in Hsel'. injection Hsel' as <-.
    intros d Hin. apply list_elem_of_fmap in Hin as ([h d'] & -> & Hin).
    destruct (Hent h d' Hin) as (Hr & Hh & _). exists h. auto.
Qed.

End SharingFacts.

Lemma init_auth_headers_spec_witness :
  header_get (init_auth_headers RefFiles.environ RefFiles.kwargs) "Authorization"
  = Some "Basic dXNlcjpwYXNz"
  /\ header_get (init_auth_headers RefFiles.environ RefFiles.kwargs) "x-api-key"
     = Some "secret".
Proof.
  destruct (init_auth_headers_spec RefFiles.environ RefFiles.kwargs) as [Hbasic Hkey].
  split.
  - rewrite (Hbasic "user" "pass" eq_refl). reflexivity.
  - rewrite (Hkey "s"%char "ecret" eq_refl). reflexivity.
Defined.

Lemma enter_exit_restores_witness :
  let net := Ref.start [Sample.accepted; Sample.accepted; Sample.accepted] Sample.refused in
  let entered := enter (W := Ref.Script) Sample.consumer net in
  let left := exit (W := Ref.Script) (snd (fst entered)) (snd entered) in
  snd (fst left) = Sample.consumer /\ created (snd (fst entered)) = true.
Proof.
  intros net entered left.
  assert (Henter : entered = (Ok tt, snd (fst entered), snd entered)) by reflexivity.
  assert (Hexit : left = (Ok tt, snd (fst left), snd left)) by reflexivity.
  destruct (enter_exit_restores (W := Ref.Script) Sample.consumer _ _ net _ _
              eq_refl Henter Hexit) as (Hsame & Hc & _).
  split; assumption.
Defined.

Lemma generators_share_pending_witness :
  let first := next (W := Ref.Script) (consume [VStr "k1"] 0) Sample.consumer
                 Sample.two_polls in
  fst (fst first) = Ok (Some ([Sample.rec3], ∅))
  /\ next (W := Ref.Script) (Suspended 7) (snd (fst first)) (snd first)
     = (Ok None, snd (fst first), snd first).
Proof.
  intros first.
  assert (Hfirst : first = (Ok (Some ([Sample.rec3], ∅)), snd (fst first), snd first))
    by reflexivity.
  split; [rewrite Hfirst; reflexivity|].
  destruct (generators_share_pending (W := Ref.Script) _ _ _ _ _ _ _ Hfirst) as [Hend _].
  apply Hend. reflexivity.
Defined.
